(** * Dental clinic records: a shallow embedding of [dental/models.py] and
    [dental/views.py], with the properties of identifier generation, the
    dental chart and the periodontal exam grid.

    Conventions.  A Python [str] is the [string] of its characters; the
    built-ins of [Py] are those of Python on ASCII text, and a statement
    that depends on [strip] or [int] of a text received from outside says
    that the text is plain ([Py.plain]).  Python [int]s are [Z]; a dict is
    a [gmap]; a database table is the list of its rows in insertion order;
    an exception is a value of [exn] returned through [result].
    Statements run in Django's autocommit mode: the views never open a
    transaction, so each [objects.create] and each [save] is committed
    when it returns.  The database is SQLite, the database of Django's
    project template (the application comes without settings of its own):
    an INTEGER column holds the integers of 64 bits, and a Python [int]
    outside of them is refused with [OverflowError] when it is bound to a
    statement. *)

From Stdlib Require Import ZArith String Ascii List Bool Lia Sorted.
From stdpp Require Import base option list gmap strings pretty.

Set Warnings "-clear-no-such-hyp".

Local Open Scope string_scope.
Local Open Scope list_scope.
Local Open Scope Z_scope.

(** ** Python built-ins used by the source *)

Module Py.

(** [s.isascii()]: every character is below 128. *)
Fixpoint isascii (s : string) : bool :=
  match s with
  | String c s' => (N_of_ascii c <? 128)%N && isascii s'
  | EmptyString => true
  end.

(** Text on which [str_strip] and [int] below are those of Python: ASCII
    characters only (beyond them Python knows further spaces and digits),
    and no longer than the number of digits that [int] converts whatever
    the interpreter (CPython from 3.11 refuses more than 4300 by
    default). *)
Definition plain (s : string) : bool :=
  isascii s && (String.length s <=? 4300)%nat.

(** [str.isspace] on an ASCII character: TAB..CR, FS..US and space. *)
Definition isspace (c : ascii) : bool :=
  let n := N_of_ascii c in
  (((9 <=? n) && (n <=? 13)) || ((28 <=? n) && (n <=? 32)))%N.

(** The spaces that [int] skips around a literal, those of C's [isspace]:
    TAB..CR and space, but not FS..US, which [str.strip] drops. *)
Definition isspace_c (c : ascii) : bool :=
  let n := N_of_ascii c in
  (((9 <=? n) && (n <=? 13)) || (n =? 32))%N.

Fixpoint lstrip (s : string) : string :=
  match s with
  | String c s' => if isspace c then lstrip s' else s
  | EmptyString => EmptyString
  end.

(** [s.strip()] *)
Definition str_strip (s : string) : string :=
  String.rev (lstrip (String.rev (lstrip s))).

(** Truth value of a [str]: non-empty. *)
Definition truthy (s : string) : bool :=
  match s with EmptyString => false | _ => true end.

Definition digit_val (c : ascii) : option Z :=
  let n := N_of_ascii c in
  if ((48 <=? n) && (n <=? 57))%N then Some (Z.of_N n - 48) else None.

(** Body of a decimal literal as [int(str)] reads it: digits, with single
    underscores allowed between two digits.  [prev] tells whether the
    previous character was a digit. *)
Fixpoint int_digits (acc : Z) (prev : bool) (s : string) : option Z :=
  match s with
  | EmptyString => if prev then Some acc else None
  | String c s' =>
      if Ascii.eqb c "_"
      then (if prev then int_digits acc false s' else None)
      else match digit_val c with
           | Some d => int_digits (10 * acc + d) true s'
           | None => None
           end
  end.

Fixpoint lstrip_c (s : string) : string :=
  match s with
  | String c s' => if isspace_c c then lstrip_c s' else s
  | EmptyString => EmptyString
  end.

(** [int(s)] for a [str] argument: the spaces of C around the literal are
    skipped, one sign is allowed, the rest is a decimal literal.  [None]
    stands for [ValueError]. *)
Definition int (s : string) : option Z :=
  match String.rev (lstrip_c (String.rev (lstrip_c s))) with
  | String "+" s' => int_digits 0 false s'
  | String "-" s' => Z.opp <$> int_digits 0 false s'
  | s' => int_digits 0 false s'
  end.

(** [str(n)] and the [{n}] replacement field of an f-string. *)
Definition str (n : Z) : string := pretty n.

Fixpoint zeros (k : nat) : string :=
  match k with O => "" | S k' => String "0" (zeros k') end.

(** [s.zfill]-style padding of an unsigned digit string to [width]. *)
Definition pad_zeros (width : nat) (digits : string) : string :=
  zeros (width - String.length digits)%nat +:+ digits.

(** The [{n:04d}] replacement field: zero padding to a minimum width of 4,
    the sign counted in the width and written first. *)
Definition format_04d (n : Z) : string :=
  if n <? 0 then String "-" (pad_zeros 3 (pretty (Z.abs n)))
  else pad_zeros 4 (pretty n).

Fixpoint drop_chars (k : nat) (s : string) : string :=
  match k, s with
  | S k', String _ s' => drop_chars k' s'
  | _, _ => s
  end.

(** The slice [s[-4:]]: the last four characters, or all of [s] when it
    is shorter. *)
Definition last4 (s : string) : string :=
  drop_chars (String.length s - 4)%nat s.

(** [s.startswith(p)] *)
Definition startswith (s p : string) : bool := String.prefix p s.

(** [list(range(start, stop, step))] for a non-zero [step]. *)
Definition range (start stop step : Z) : list Z :=
  if 0 <? step
  then (fun i => start + i * step) <$> seqZ 0 ((stop - start + step - 1) / step)
  else if step <? 0
  then (fun i => start + i * step) <$> seqZ 0 ((start - stop - step - 1) / (- step))
  else [].

End Py.



(** ** Exceptions and results *)

Inductive exn : Set :=
  | Http404
  | ValueError
  | ValidationError
  | IntegrityError
  | KeyError
  | AttributeError
  | TypeError
  | OverflowError.

Inductive result (A : Type) : Type :=
  | Ok (a : A)
  | Raise (e : exn).
Arguments Ok {A} a.
Arguments Raise {A} e.

(** ** Rows of the tables ([models.py])

    Columns that no operation below reads or writes (contact and insurance
    data of a patient, amounts of an invoice) are left out of the rows. *)

Module Patient.
Record t : Set := mk {
  id : option Z;               (* None until the first INSERT *)
  patient_id : string;         (* CharField, unique, empty when unset *)
  first_name : string;
  last_name : string;
  is_active : bool
}.
Definition set_patient_id (v : string) (p : t) : t :=
  mk (id p) v (first_name p) (last_name p) (is_active p).
Definition set_id (v : option Z) (p : t) : t :=
  mk v (patient_id p) (first_name p) (last_name p) (is_active p).
End Patient.

Module Invoice.
Record t : Set := mk {
  id : option Z;
  invoice_number : string;     (* CharField, unique, empty when unset *)
  patient : Z;
  status : string
}.
Definition set_invoice_number (v : string) (i : t) : t :=
  mk (id i) v (patient i) (status i).
Definition set_id (v : option Z) (i : t) : t :=
  mk v (invoice_number i) (patient i) (status i).
End Invoice.

Module Tooth.
Record t : Set := mk {
  id : Z;
  patient : Z;                 (* ForeignKey(Patient) *)
  tooth_number : Z;            (* FDI notation *)
  status : string;             (* default 'healthy' *)
  notes : string;              (* blank=True, default '' *)
  last_updated : Z             (* auto_now: the time of the last save *)
}.

Definition TOOTH_STATUS_CHOICES : list (string * string) :=
  [ ("healthy", "Healthy"); ("cavity", "Cavity"); ("filled", "Filled");
    ("crown", "Crown"); ("root_canal", "Root Canal"); ("missing", "Missing");
    ("implant", "Implant"); ("bridge", "Bridge") ].
End Tooth.

Module PeriodontalExam.
Record t : Set := mk {
  id : Z;
  patient : Z;                 (* ForeignKey(Patient) *)
  exam_date : Z;               (* DateField, as the day's ordinal *)
  dentist : option Z;          (* ForeignKey(User), null=True *)
  notes : string;
  created_at : Z               (* auto_now_add *)
}.
End PeriodontalExam.

Module ToothMeasurement.
Record t : Set := mk {
  id : Z;
  exam : Z;                    (* ForeignKey(PeriodontalExam) *)
  tooth_number : Z;
  position : string;
  surface : string;
  pocket_depth : Z;
  bleeding : bool;             (* default False *)
  calculus : bool;             (* default False *)
  mobility : option Z          (* null=True, no default: NULL *)
}.
End ToothMeasurement.

Record Database : Set := mkDatabase {
  patients : list Patient.t;
  invoices : list Invoice.t;
  teeth : list Tooth.t;
  periodontal_exams : list PeriodontalExam.t;
  tooth_measurements : list ToothMeasurement.t
}.

Definition empty_db : Database := mkDatabase [] [] [] [] [].

Definition set_patients (v : list Patient.t) (db : Database) : Database :=
  mkDatabase v (invoices db) (teeth db) (periodontal_exams db) (tooth_measurements db).
Definition set_invoices (v : list Invoice.t) (db : Database) : Database :=
  mkDatabase (patients db) v (teeth db) (periodontal_exams db) (tooth_measurements db).
Definition set_teeth (v : list Tooth.t) (db : Database) : Database :=
  mkDatabase (patients db) (invoices db) v (periodontal_exams db) (tooth_measurements db).
Definition set_periodontal_exams (v : list PeriodontalExam.t) (db : Database) : Database :=
  mkDatabase (patients db) (invoices db) (teeth db) v (tooth_measurements db).
Definition set_tooth_measurements (v : list ToothMeasurement.t) (db : Database) : Database :=
  mkDatabase (patients db) (invoices db) (teeth db) (periodontal_exams db) v.

(** ** Query sets *)

(** The primary key given to an inserted row: one more than the largest
    key in the table. *)
Definition next_pk (pks : list Z) : Z := 1 + foldr Z.max 0 pks.

Section order_by.
Context {A : Type} (le : A -> A -> bool).

Fixpoint insert_sorted (x : A) (l : list A) : list A :=
  match l with
  | [] => [x]
  | y :: l' => if le x y then x :: l else y :: insert_sorted x l'
  end.

(** [qs.order_by(...)]: a stable sort of the rows for the order [le]. *)
Definition order_by (l : list A) : list A := foldr insert_sorted [] l.
End order_by.

(** ** Sequential identifiers ([Patient.save], [Invoice.save]) *)

(** [super().save()] of a patient: INSERT when the instance has no primary
    key, UPDATE otherwise; the unique constraint on [patient_id] is
    checked against the other rows. *)
Definition Patient_super_save (self : Patient.t) (rows : list Patient.t)
  : Patient.t * result (list Patient.t) :=
  let clash (r : Patient.t) :=
    String.eqb (Patient.patient_id r) (Patient.patient_id self)
    && negb (bool_decide (Patient.id r = Patient.id self)) in
  if existsb clash rows then (self, Raise IntegrityError)
  else match Patient.id self with
       | None =>
           let self' := Patient.set_id (Some (next_pk (omap Patient.id rows))) self in
           (self', Ok (rows ++ [self']))
       | Some pk =>
           if existsb (fun r => bool_decide (Patient.id r = Some pk)) rows
           then (self, Ok ((fun r => if bool_decide (Patient.id r = Some pk)
                                     then self else r) <$> rows))
           else (self, Ok (rows ++ [self]))
       end.

(** [Patient.save], with [year] the value of [timezone.now().year].  The
    first component is the instance after the call, the second the table
    or the exception raised. *)
Definition Patient_save (year : Z) (self : Patient.t) (rows : list Patient.t)
  : Patient.t * result (list Patient.t) :=
  if negb (Py.truthy (Patient.patient_id self)) then
    let last_patient :=
      last (order_by (fun a b => String.leb (Patient.patient_id a) (Patient.patient_id b))
              (List.filter (fun p => Py.startswith (Patient.patient_id p) ("P" +:+ Py.str year))
                 rows)) in
    let new_number :=
      match last_patient with
      | Some lp =>
          match Py.int (Py.last4 (Patient.patient_id lp)) with
          | Some last_number => Ok (last_number + 1)
          | None => Raise ValueError
          end
      | None => Ok 1
      end in
    match new_number with
    | Ok n =>
        Patient_super_save
          (Patient.set_patient_id ("P" +:+ Py.str year +:+ Py.format_04d n) self) rows
    | Raise e => (self, Raise e)
    end
  else Patient_super_save self rows.

Definition Invoice_super_save (self : Invoice.t) (rows : list Invoice.t)
  : Invoice.t * result (list Invoice.t) :=
  let clash (r : Invoice.t) :=
    String.eqb (Invoice.invoice_number r) (Invoice.invoice_number self)
    && negb (bool_decide (Invoice.id r = Invoice.id self)) in
  if existsb clash rows then (self, Raise IntegrityError)
  else match Invoice.id self with
       | None =>
           let self' := Invoice.set_id (Some (next_pk (omap Invoice.id rows))) self in
           (self', Ok (rows ++ [self']))
       | Some pk =>
           if existsb (fun r => bool_decide (Invoice.id r = Some pk)) rows
           then (self, Ok ((fun r => if bool_decide (Invoice.id r = Some pk)
                                     then self else r) <$> rows))
           else (self, Ok (rows ++ [self]))
       end.

(** [Invoice.save] *)
Definition Invoice_save (year : Z) (self : Invoice.t) (rows : list Invoice.t)
  : Invoice.t * result (list Invoice.t) :=
  if negb (Py.truthy (Invoice.invoice_number self)) then
    let last_invoice :=
      last (order_by (fun a b => String.leb (Invoice.invoice_number a) (Invoice.invoice_number b))
              (List.filter (fun i => Py.startswith (Invoice.invoice_number i) ("INV" +:+ Py.str year))
                 rows)) in
    let new_number :=
      match last_invoice with
      | Some li =>
          match Py.int (Py.last4 (Invoice.invoice_number li)) with
          | Some last_number => Ok (last_number + 1)
          | None => Raise ValueError
          end
      | None => Ok 1
      end in
    match new_number with
    | Ok n =>
        Invoice_super_save
          (Invoice.set_invoice_number ("INV" +:+ Py.str year +:+ Py.format_04d n) self) rows
    | Raise e => (self, Raise e)
    end
  else Invoice_super_save self rows.

Definition new_patient (first last : string) : Patient.t :=
  Patient.mk None "" first last true.

(** ** Views: a state and exception monad over the database

    A view is run against the database and returns the database it leaves
    behind together with its response or the exception it raised.  An
    exception stops the view; what was written before it stays written. *)

Definition View (A : Type) : Type := Database -> Database * result A.

Global Instance View_ret : MRet View := fun _ a db => (db, Ok a).
Global Instance View_bind : MBind View := fun _ _ f m db =>
  match m db with
  | (db', Ok a) => f a db'
  | (db', Raise e) => (db', Raise e)
  end.

Definition raise {A : Type} (e : exn) : View A := fun db => (db, Raise e).
Definition query {A : Type} (q : Database -> A) : View A := fun db => (db, Ok (q db)).

(** A [for] loop whose body may write and raise. *)
Fixpoint for_ {A : Type} (l : list A) (body : A -> View unit) : View unit :=
  match l with
  | [] => mret tt
  | x :: l' => body x ≫= fun _ => for_ l' body
  end.

(** ** Requests *)

(** A value of a member of the JSON body of [tooth_update], as far as the
    view can tell values apart: a string, or any other value, of which only
    its hashability, its truth value and its [str()] matter. *)
Inductive jvalue : Set :=
  | JStr (s : string)
  | JOther (hashable truthy : bool) (text : string).

(** The outcome of [json.loads(request.body)]. *)
Inductive json_body : Set :=
  | BadJson                                  (* JSONDecodeError *)
  | NotAnObject                              (* a list, a string, a number, null *)
  | JObject (members : gmap string jvalue).

Record HttpRequest : Type := mkRequest {
  method : string;
  user : option Z;                           (* the authenticated user, if any *)
  POST : gmap string string;
  body : json_body
}.

(** ** The dental chart ([patient_detail], [tooth_update]) *)

Definition get_Patient_or_404 (pk : Z) : View Patient.t := fun db =>
  match find (fun p => bool_decide (Patient.id p = Some pk)) (patients db) with
  | Some p => (db, Ok p)
  | None => (db, Raise Http404)
  end.

Definition get_Tooth_or_404 (pk : Z) : View Tooth.t := fun db =>
  match find (fun t => Tooth.id t =? pk) (teeth db) with
  | Some t => (db, Ok t)
  | None => (db, Raise Http404)
  end.

(** [Tooth.objects.create(patient=..., tooth_number=..., status=...)] at
    time [now]; [unique_together = ['patient', 'tooth_number']]. *)
Definition Tooth_objects_create (now patient tooth_number : Z) (status : string)
  : View Tooth.t := fun db =>
  if existsb (fun t => (Tooth.patient t =? patient) && (Tooth.tooth_number t =? tooth_number))
       (teeth db)
  then (db, Raise IntegrityError)
  else
    let row := Tooth.mk (next_pk (Tooth.id <$> teeth db)) patient tooth_number status "" now in
    (set_teeth (teeth db ++ [row]) db, Ok row).

(** [tooth.save()] of a row read from the table: UPDATE, with
    [last_updated] set to [now]. *)
Definition Tooth_save (now : Z) (self : Tooth.t) : View unit := fun db =>
  let self' := Tooth.mk (Tooth.id self) (Tooth.patient self) (Tooth.tooth_number self)
                 (Tooth.status self) (Tooth.notes self) now in
  (set_teeth ((fun t => if Tooth.id t =? Tooth.id self then self' else t) <$> teeth db) db,
   Ok tt).

(** The 32 tooth numbers in the order both views enumerate them. *)
Definition tooth_numbers : list Z :=
  Py.range 18 10 (-1) ++ Py.range 21 29 1 ++ Py.range 48 40 (-1) ++ Py.range 31 39 1.

(** [patient.teeth.all()], in the model's default order ([tooth_number]). *)
Definition patient_teeth (patient : Z) (db : Database) : list Tooth.t :=
  order_by (fun a b => Tooth.tooth_number a <=? Tooth.tooth_number b)
    (List.filter (fun t => Tooth.patient t =? patient) (teeth db)).

Definition teeth_dict_of (qs : list Tooth.t) : gmap Z Tooth.t :=
  foldl (fun d tooth => <[Tooth.tooth_number tooth := tooth]> d) ∅ qs.

Inductive HttpResponse (C : Type) : Type :=
  | Render (template : string) (context : C)
  | Redirect (to : string) (arg : Z)
  | RedirectToLogin                          (* login_required *)
  | MethodNotAllowed.                        (* require_http_methods *)
Arguments Render {C} template context.
Arguments Redirect {C} to arg.
Arguments RedirectToLogin {C}.
Arguments MethodNotAllowed {C}.

(** The part of the context of [patient_detail] that comes from the teeth;
    the appointment, treatment, invoice and document lists are read-only
    queries on tables that are not modelled. *)
Record PatientDetailContext : Type := mkPatientDetail {
  pd_patient : Patient.t;
  teeth_dict : gmap Z Tooth.t;
  has_dental_chart : bool
}.

(** [patient_detail(request, patient_id)] at time [now]. *)
Definition patient_detail (now : Z) (request : HttpRequest) (patient_id : Z)
  : View (HttpResponse PatientDetailContext) :=
  match user request with
  | None => mret RedirectToLogin
  | Some _ =>
      patient ← get_Patient_or_404 patient_id;
      teeth_queryset ← query (patient_teeth patient_id);
      teeth_queryset ←
        (if negb (bool_decide (teeth_queryset <> [])) then
           for_ tooth_numbers (fun tooth_num =>
             Tooth_objects_create now patient_id tooth_num "healthy" ≫= fun _ => mret tt);;
           query (patient_teeth patient_id)
         else mret teeth_queryset);
      mret (Render "dental/patient_detail.html"
              (mkPatientDetail patient (teeth_dict_of teeth_queryset)
                 (bool_decide (teeth_queryset <> []))))
  end.

(** The JSON responses of [tooth_update]. *)
Inductive ToothUpdateResponse : Type :=
  | JsonSuccess (tooth_number : Z) (status status_display : string) (notes : jvalue)
  | JsonError (http_status : Z) (error : string)
  | JsonException (e : exn).                 (* status 500, 'error': str(e) *)

(** [tooth.get_status_display()] *)
Definition get_status_display (status : string) : string :=
  match find (fun c => String.eqb (fst c) status) Tooth.TOOTH_STATUS_CHOICES with
  | Some c => snd c
  | None => status
  end.

Definition jvalue_truthy (v : jvalue) : bool :=
  match v with
  | JStr s => Py.truthy s
  | JOther _ truthy _ => truthy
  end.

(** The text a [TextField] stores for an assigned value. *)
Definition jvalue_text (v : jvalue) : string :=
  match v with
  | JStr s => s
  | JOther _ _ text => text
  end.

(** The body of the [try] block of [tooth_update]. *)
Definition tooth_update_try (now : Z) (request : HttpRequest) (tooth_id : Z)
  : View ToothUpdateResponse :=
  tooth ← get_Tooth_or_404 tooth_id;
  match body request with
  | BadJson => mret (JsonError 400 "Invalid JSON data")
  | NotAnObject => raise AttributeError
  | JObject data =>
      let new_status := data !! "status" in
      let notes := default (JStr "") (data !! "notes") in
      match new_status with
      | Some (JOther false _ _) => raise TypeError
      | Some (JStr new_status) =>
          if negb (existsb (fun c => String.eqb (fst c) new_status) Tooth.TOOTH_STATUS_CHOICES)
          then mret (JsonError 400 "Invalid tooth status")
          else
            let tooth1 := Tooth.mk (Tooth.id tooth) (Tooth.patient tooth)
                            (Tooth.tooth_number tooth) new_status (Tooth.notes tooth)
                            (Tooth.last_updated tooth) in
            let tooth2 :=
              if jvalue_truthy notes
              then Tooth.mk (Tooth.id tooth1) (Tooth.patient tooth1)
                     (Tooth.tooth_number tooth1) (Tooth.status tooth1) (jvalue_text notes)
                     (Tooth.last_updated tooth1)
              else tooth1 in
            Tooth_save now tooth2;;
            mret (JsonSuccess (Tooth.tooth_number tooth2) (Tooth.status tooth2)
                    (get_status_display (Tooth.status tooth2))
                    (if jvalue_truthy notes then notes else JStr (Tooth.notes tooth)))
      | _ => mret (JsonError 400 "Invalid tooth status")
      end
  end.

(** [tooth_update(request, tooth_id)]: the decorators, then the [try] block
    with its catch-all handler, which turns any exception into a JSON
    response with status 500. *)
Definition tooth_update (now : Z) (request : HttpRequest) (tooth_id : Z)
  : View (HttpResponse unit + ToothUpdateResponse) :=
  match user request with
  | None => mret (inl RedirectToLogin)
  | Some _ =>
      if negb (String.eqb (method request) "POST") then mret (inl MethodNotAllowed)
      else fun db =>
        match tooth_update_try now request tooth_id db with
        | (db', Ok r) => (db', Ok (inr r))
        | (db', Raise e) => (db', Ok (inr (JsonException e)))
        end
  end.

(** ** Periodontal exams ([periodontal_exam_create], [periodontal_exam_detail]) *)

Definition surfaces : list string := ["buccal"; "lingual"].
Definition positions : list string := ["mesial"; "middle"; "distal"].

(** The names of the form fields of one (tooth, surface, position). *)
Definition depth_field (tooth_num : Z) (surface position : string) : string :=
  "depth_" +:+ Py.str tooth_num +:+ "_" +:+ surface +:+ "_" +:+ position.
Definition bleeding_field (tooth_num : Z) (surface position : string) : string :=
  "bleeding_" +:+ Py.str tooth_num +:+ "_" +:+ surface +:+ "_" +:+ position.
Definition calculus_field (tooth_num : Z) (surface position : string) : string :=
  "calculus_" +:+ Py.str tooth_num +:+ "_" +:+ surface +:+ "_" +:+ position.

(** The integers an INTEGER column of the database stores. *)
Definition sqlite_integer (n : Z) : bool :=
  (- 2 ^ 63 <=? n) && (n <? 2 ^ 63).

(** [ToothMeasurement.objects.create(...)]: [mobility] is not passed and
    gets NULL; [unique_together = ['exam', 'tooth_number', 'position',
    'surface']].  [pocket_depth] is the one column whose value comes from
    the request: outside the integers of the database the INSERT is not
    executed and [OverflowError] is raised. *)
Definition ToothMeasurement_objects_create
    (exam tooth_number : Z) (surface position : string) (pocket_depth : Z)
    (bleeding calculus : bool) : View ToothMeasurement.t := fun db =>
  if negb (sqlite_integer pocket_depth) then (db, Raise OverflowError)
  else if existsb (fun m => (ToothMeasurement.exam m =? exam)
                       && (ToothMeasurement.tooth_number m =? tooth_number)
                       && String.eqb (ToothMeasurement.position m) position
                       && String.eqb (ToothMeasurement.surface m) surface)
       (tooth_measurements db)
  then (db, Raise IntegrityError)
  else
    let row := ToothMeasurement.mk (next_pk (ToothMeasurement.id <$> tooth_measurements db))
                 exam tooth_number position surface pocket_depth bleeding calculus None in
    (set_tooth_measurements (tooth_measurements db ++ [row]) db, Ok row).

Definition get_PeriodontalExam_or_404 (pk : Z) : View PeriodontalExam.t := fun db =>
  match find (fun e => PeriodontalExam.id e =? pk) (periodontal_exams db) with
  | Some e => (db, Ok e)
  | None => (db, Raise Http404)
  end.

(** The rows of [exam.measurements.all()], in table order. *)
Definition exam_measurements (exam : Z) (db : Database) : list ToothMeasurement.t :=
  List.filter (fun m => ToothMeasurement.exam m =? exam) (tooth_measurements db).

(** The order [('tooth_number', 'surface', 'position')], which is also the
    default order of the model. *)
Definition measurement_le (a b : ToothMeasurement.t) : bool :=
  (ToothMeasurement.tooth_number a <? ToothMeasurement.tooth_number b)
  || ((ToothMeasurement.tooth_number a =? ToothMeasurement.tooth_number b)
      && (String.ltb (ToothMeasurement.surface a) (ToothMeasurement.surface b)
          || (String.eqb (ToothMeasurement.surface a) (ToothMeasurement.surface b)
              && String.leb (ToothMeasurement.position a) (ToothMeasurement.position b)))).

(** The grid of an exam: tooth number, then surface, then position. *)
Abbreviation grid := (gmap Z (gmap string (gmap string (option ToothMeasurement.t)))).

Definition empty_slots : gmap string (gmap string (option ToothMeasurement.t)) :=
  {[ "buccal" := {[ "mesial" := None; "middle" := None; "distal" := None ]};
     "lingual" := {[ "mesial" := None; "middle" := None; "distal" := None ]} ]}.

(** One turn of the loop that organizes measurements by tooth number:
    [tooth_data[m.tooth_number][m.surface][m.position] = m], after the entry
    of the tooth is created when it is missing.  Reading a surface that is
    not a key of the entry raises [KeyError]; a position that is not a key
    is added by the assignment. *)
Definition organize_step (tooth_data : grid) (m : ToothMeasurement.t) : result grid :=
  let tooth_data :=
    if bool_decide (tooth_data !! ToothMeasurement.tooth_number m = None)
    then <[ToothMeasurement.tooth_number m := empty_slots]> tooth_data
    else tooth_data in
  match tooth_data !! ToothMeasurement.tooth_number m with
  | Some by_surface =>
      match by_surface !! ToothMeasurement.surface m with
      | Some by_position =>
          Ok (<[ToothMeasurement.tooth_number m :=
                  <[ToothMeasurement.surface m :=
                      <[ToothMeasurement.position m := Some m]> by_position]> by_surface]>
                tooth_data)
      | None => Raise KeyError
      end
  | None => Raise KeyError
  end.

Fixpoint organize (tooth_data : grid) (ms : list ToothMeasurement.t) : result grid :=
  match ms with
  | [] => Ok tooth_data
  | m :: ms' =>
      match organize_step tooth_data m with
      | Ok tooth_data' => organize tooth_data' ms'
      | Raise e => Raise e
      end
  end.

(** [PeriodontalExam.objects.filter(patient=patient,
    exam_date__lt=exam.exam_date).order_by('-exam_date').first()] *)
Definition previous_exam_of (exam : PeriodontalExam.t) (db : Database)
  : option PeriodontalExam.t :=
  head (order_by (fun a b => PeriodontalExam.exam_date b <=? PeriodontalExam.exam_date a)
          (List.filter (fun e => (PeriodontalExam.patient e =? PeriodontalExam.patient exam)
                                 && (PeriodontalExam.exam_date e <? PeriodontalExam.exam_date exam))
             (periodontal_exams db))).

Record ExamDetailContext : Type := mkExamDetail {
  ed_exam : PeriodontalExam.t;
  ed_patient : Z;
  tooth_data : grid;
  previous_exam : option PeriodontalExam.t;
  previous_data : grid
}.

Definition lift_result {A : Type} (r : result A) : View A := fun db => (db, r).

(** [periodontal_exam_detail(request, exam_id)] *)
Definition periodontal_exam_detail (request : HttpRequest) (exam_id : Z)
  : View (HttpResponse ExamDetailContext) :=
  match user request with
  | None => mret RedirectToLogin
  | Some _ =>
      exam ← get_PeriodontalExam_or_404 exam_id;
      let patient := PeriodontalExam.patient exam in
      measurements ← query (fun db =>
        order_by measurement_le (exam_measurements (PeriodontalExam.id exam) db));
      tooth_data ← lift_result (organize ∅ measurements);
      previous_exam ← query (previous_exam_of exam);
      previous_data ←
        match previous_exam with
        | Some prev =>
            prev_measurements ← query (fun db =>
              order_by measurement_le (exam_measurements (PeriodontalExam.id prev) db));
            lift_result (organize ∅ prev_measurements)
        | None => mret ∅
        end;
      mret (Render "dental/periodontal_exam_detail.html"
              (mkExamDetail exam patient tooth_data previous_exam previous_data))
  end.

(** The context of the empty form of [periodontal_exam_create]. *)
Record ExamFormContext : Type := mkExamForm {
  ef_patient : Patient.t;
  upper_teeth : list Z;
  lower_teeth : list Z
}.

Section exam_create.

(** [DateField.to_python] on the submitted text: the day's ordinal, or
    [None] when Django rejects the text with [ValidationError]. *)
Variable to_python_date : string -> option Z.

(** [PeriodontalExam.objects.create(patient=..., exam_date=..., dentist=...,
    notes=...)] at time [now].  A missing date violates NOT NULL. *)
Definition PeriodontalExam_objects_create
    (now patient : Z) (exam_date : option string) (dentist : option Z) (notes : string)
  : View PeriodontalExam.t := fun db =>
  match exam_date with
  | None => (db, Raise IntegrityError)
  | Some text =>
      match to_python_date text with
      | None => (db, Raise ValidationError)
      | Some d =>
          let row := PeriodontalExam.mk
                       (next_pk (PeriodontalExam.id <$> periodontal_exams db))
                       patient d dentist notes now in
          (set_periodontal_exams (periodontal_exams db ++ [row]) db, Ok row)
      end
  end.

(** The body of the innermost loop of [periodontal_exam_create]. *)
Definition process_measurement (post : gmap string string) (exam tooth_num : Z)
    (surface position : string) : View unit :=
  let field_name := depth_field tooth_num surface position in
  let depth := post !! field_name in
  match depth with
  | Some depth =>
      if Py.truthy depth && Py.truthy (Py.str_strip depth) then
        let bleeding :=
          bool_decide (post !! bleeding_field tooth_num surface position = Some "on") in
        let calculus :=
          bool_decide (post !! calculus_field tooth_num surface position = Some "on") in
        match Py.int depth with
        | Some pocket_depth =>
            ToothMeasurement_objects_create exam tooth_num surface position
              pocket_depth bleeding calculus ≫= fun _ => mret tt
        | None => raise ValueError
        end
      else mret tt
  | None => mret tt
  end.

(** [periodontal_exam_create(request, patient_id)] at time [now]. *)
Definition periodontal_exam_create (now : Z) (request : HttpRequest) (patient_id : Z)
  : View (HttpResponse ExamFormContext) :=
  match user request with
  | None => mret RedirectToLogin
  | Some u =>
      patient ← get_Patient_or_404 patient_id;
      if String.eqb (method request) "POST" then
        exam ← PeriodontalExam_objects_create now patient_id
                 (POST request !! "exam_date") (Some u)
                 (default "" (POST request !! "notes"));
        for_ tooth_numbers (fun tooth_num =>
          for_ surfaces (fun surface =>
            for_ positions (fun position =>
              process_measurement (POST request) (PeriodontalExam.id exam)
                tooth_num surface position)));;
        mret (Redirect "periodontal_exam_detail" (PeriodontalExam.id exam))
      else
        mret (Render "dental/periodontal_exam_form.html"
                (mkExamForm patient
                   [18; 17; 16; 15; 14; 13; 12; 11; 21; 22; 23; 24; 25; 26; 27; 28]
                   [48; 47; 46; 45; 44; 43; 42; 41; 31; 32; 33; 34; 35; 36; 37; 38]))
  end.

End exam_create.

(** A [to_python] for the text an HTML date input submits, [YYYY-MM-DD]. *)
Module IsoDate.
Definition is_leap (y : Z) : bool :=
  (y mod 4 =? 0) && (negb (y mod 100 =? 0) || (y mod 400 =? 0)).

Definition days_in_month (y m : Z) : Z :=
  if bool_decide (m ∈ [1; 3; 5; 7; 8; 10; 12]) then 31
  else if bool_decide (m ∈ [4; 6; 9; 11]) then 30
  else if m =? 2 then (if is_leap y then 29 else 28)
  else 0.

Definition days_before_month (y m : Z) : Z :=
  foldr Z.add 0 (days_in_month y <$> seqZ 1 (m - 1)).

(** [date(y, m, d).toordinal()] *)
Definition toordinal (y m d : Z) : Z :=
  365 * (y - 1) + (y - 1) / 4 - (y - 1) / 100 + (y - 1) / 400
  + days_before_month y m + d.

Definition two (a b : ascii) : option Z :=
  x ← Py.digit_val a; y ← Py.digit_val b; Some (10 * x + y).

Definition to_python (s : string) : option Z :=
  match s with
  | String y1 (String y2 (String y3 (String y4 (String "-"
      (String m1 (String m2 (String "-" (String d1 (String d2 EmptyString))))))))) =>
      yh ← two y1 y2; yl ← two y3 y4; m ← two m1 m2; d ← two d1 d2;
      let y := 100 * yh + yl in
      if (1 <=? y) && (1 <=? d) && (d <=? days_in_month y m) then Some (toordinal y m d)
      else None
  | _ => None
  end.
End IsoDate.

(** ** Definitions used in the statements *)

(** [l] carries the highest identifier with the given prefix among [rows],
    for the order of strings. *)
Definition highest_with_prefix {A : Type} (key : A -> string) (prefix : string)
    (rows : list A) (l : A) : Prop :=
  l ∈ rows /\ Py.startswith (key l) prefix = true
  /\ forall r, r ∈ rows -> Py.startswith (key r) prefix = true ->
               String.leb (key r) (key l) = true.

Definition patients_2025 : list Patient.t :=
  [ Patient.mk (Some 1) "P20240003" "Taro" "Yamada" true;
    Patient.mk (Some 2) "P20250001" "Hanako" "Sato" true;
    Patient.mk (Some 3) "P20250007" "Ken" "Ito" true ].

Definition invoices_2025 : list Invoice.t :=
  [ Invoice.mk (Some 1) "INV20250001" 2 "draft";
    Invoice.mk (Some 2) "INV20250002" 3 "sent" ].

(** The rows the initialization loop inserts, from primary key [pk] on. *)
Fixpoint created_teeth (now patient pk : Z) (nums : list Z) : list Tooth.t :=
  match nums with
  | [] => []
  | n :: ns => Tooth.mk pk patient n "healthy" "" now :: created_teeth now patient (pk + 1) ns
  end.

(** The 32 tooth numbers, written out. *)
Definition fdi_order : list Z :=
  [18; 17; 16; 15; 14; 13; 12; 11; 21; 22; 23; 24; 25; 26; 27; 28;
   48; 47; 46; 45; 44; 43; 42; 41; 31; 32; 33; 34; 35; 36; 37; 38].

(** The tooth rows of a patient, in table order. *)
Definition teeth_of (patient : Z) (db : Database) : list Tooth.t :=
  List.filter (fun t => Tooth.patient t =? patient) (teeth db).

Definition clinic_db : Database :=
  set_patients [Patient.mk (Some 1) "P20250001" "Hanako" "Sato" true;
                Patient.mk (Some 2) "P20250002" "Ken" "Ito" true] empty_db.

Definition staff_get : HttpRequest := mkRequest "GET" (Some 7) ∅ BadJson.

(** The eight status values of a tooth. *)
Definition canonical_statuses : list string :=
  ["healthy"; "cavity"; "filled"; "crown"; "root_canal"; "missing"; "implant"; "bridge"].

(** The row [tooth_update] writes for [tooth]: the new status, the notes
    replaced when the supplied notes are non-empty, and the time of the
    save. *)
Definition updated_tooth (now : Z) (tooth : Tooth.t) (new_status notes : string) : Tooth.t :=
  Tooth.mk (Tooth.id tooth) (Tooth.patient tooth) (Tooth.tooth_number tooth) new_status
    (if Py.truthy notes then notes else Tooth.notes tooth) now.

(** The table after [row] has replaced the rows with primary key [pk]. *)
Definition replace_tooth (pk : Z) (row : Tooth.t) (rows : list Tooth.t) : list Tooth.t :=
  (fun t => if Tooth.id t =? pk then row else t) <$> rows.

(** A JSON body with a status and, optionally, notes, both strings. *)
Definition status_body (new_status : string) (notes : option string) : json_body :=
  JObject (<["status" := JStr new_status]>
             (match notes with Some n => {["notes" := JStr n]} | None => ∅ end)).

(** [t] with its [last_updated] set to [now] and every other column as it
    is. *)
Definition restamp (now : Z) (t : Tooth.t) : Tooth.t :=
  Tooth.mk (Tooth.id t) (Tooth.patient t) (Tooth.tooth_number t) (Tooth.status t)
    (Tooth.notes t) now.

(** The columns of a tooth row other than [last_updated]. *)
Definition tooth_columns (t : Tooth.t) : Z * Z * Z * string * string :=
  (Tooth.id t, Tooth.patient t, Tooth.tooth_number t, Tooth.status t, Tooth.notes t).

Definition chart_db : Database :=
  set_teeth [Tooth.mk 1 1 18 "healthy" "" 10; Tooth.mk 2 1 17 "filled" "amalgam" 10] clinic_db.

Definition staff_post_json (b : json_body) : HttpRequest := mkRequest "POST" (Some 7) ∅ b.

(** A measurement key: tooth number, surface, position. *)
Definition key : Type := Z * string * string.

(** The 192 combinations in the order the creation loops visit them. *)
Definition canonical_keys : list key :=
  t ← tooth_numbers; s ← surfaces; p ← positions; [(t, s, p)].

Definition measurement_key (m : ToothMeasurement.t) : key :=
  (ToothMeasurement.tooth_number m, ToothMeasurement.surface m, ToothMeasurement.position m).

(** The name of the form field of kind [kind] (depth, bleeding or
    calculus) for a combination, as a form is filled in:
    [depth_18_buccal_mesial] is the depth of tooth 18, buccal, mesial. *)
Definition field_name (kind : string) (k : key) : string :=
  kind +:+ "_" +:+ Py.str k.1.1 +:+ "_" +:+ k.1.2 +:+ "_" +:+ k.2.

(** What a form says about one combination: no depth (the field is missing
    or blank), a depth that is not an integer literal, a depth that is an
    integer beyond the 64 bits of the database, or a depth. *)
Inductive depth_entry : Set :=
  | Blank
  | Malformed
  | OutOfRange (n : Z)
  | Depth (n : Z).

Definition submitted (post : gmap string string) (k : key) : depth_entry :=
  match post !! field_name "depth" k with
  | None => Blank
  | Some d =>
      if Py.truthy d && Py.truthy (Py.str_strip d)
      then match Py.int d with
           | Some n =>
               if (-9223372036854775808 <=? n) && (n <=? 9223372036854775807)
               then Depth n else OutOfRange n
           | None => Malformed
           end
      else Blank
  end.

(** The exception at which the creation view stops on an entry. *)
Definition refusal (e : depth_entry) : option exn :=
  match e with
  | Malformed => Some ValueError
  | OutOfRange _ => Some OverflowError
  | Blank | Depth _ => None
  end.

(** A checkbox of the form: checked when it is submitted as 'on'. *)
Definition checked (post : gmap string string) (name : string) : bool :=
  bool_decide (post !! name = Some "on").

(** The measurement rows of exam [exam] for the combinations [keys] that
    carry a depth, with primary keys from [pk] on. *)
Fixpoint measurement_rows (post : gmap string string) (exam pk : Z) (keys : list key)
  : list ToothMeasurement.t :=
  match keys with
  | [] => []
  | (t, s, p) :: ks =>
      match submitted post (t, s, p) with
      | Depth n =>
          ToothMeasurement.mk pk exam t p s n
            (checked post (field_name "bleeding" (t, s, p)))
            (checked post (field_name "calculus" (t, s, p))) None
          :: measurement_rows post exam (pk + 1) ks
      | _ => measurement_rows post exam pk ks
      end
  end.

(** The depths of a form are plain text. *)
Definition plain_depths (post : gmap string string) : Prop :=
  forall k d, k ∈ canonical_keys -> post !! field_name "depth" k = Some d ->
              Py.plain d = true.

(** Referential integrity of the measurement table. *)
Definition measurements_reference_exams (db : Database) : Prop :=
  forall m, m ∈ tooth_measurements db ->
            ToothMeasurement.exam m ∈ PeriodontalExam.id <$> periodontal_exams db.

(** [db'] has the measurement rows of [db] and, after them, rows whose
    mobility is NULL. *)
Definition adds_null_mobility (db db' : Database) : Prop :=
  exists new, tooth_measurements db' = tooth_measurements db ++ new
              /\ Forall (fun m => ToothMeasurement.mobility m = None) new.

(** A form with a depth for 18 buccal mesial and a malformed depth for 17
    buccal mesial. *)
Definition post_malformed : gmap string string :=
  {[ "exam_date" := "2025-03-01";
     "depth_18_buccal_mesial" := "4";
     "depth_17_buccal_mesial" := "deep" ]}.

(** A form with a depth for 18 buccal mesial and, for 17 buccal mesial, a
    depth of two to the power 63. *)
Definition post_too_large : gmap string string :=
  {[ "exam_date" := "2025-03-01";
     "depth_18_buccal_mesial" := "4";
     "depth_17_buccal_mesial" := "9223372036854775808" ]}.

(** A form with two depths, one marked as bleeding, and a blank field. *)
Definition post_sparse : gmap string string :=
  {[ "exam_date" := "2025-03-01";
     "depth_18_buccal_mesial" := "3";
     "bleeding_18_buccal_mesial" := "on";
     "depth_18_buccal_middle" := " ";
     "depth_21_lingual_distal" := "5" ]}.

Definition staff_post (post : gmap string string) : HttpRequest :=
  mkRequest "POST" (Some 7) post BadJson.

(** The slot of a grid for one combination: the measurement it holds, or
    [None] when the tooth is not a key of the grid or the slot holds
    Python's [None]. *)
Definition slot (g : grid) (k : key) : option ToothMeasurement.t :=
  match g !! k.1.1 with
  | Some by_surface =>
      match by_surface !! k.1.2 with
      | Some by_position =>
          match by_position !! k.2 with
          | Some (Some m) => Some m
          | _ => None
          end
      | None => None
      end
  | None => None
  end.

(** Every entry of the grid has the two surface keys. *)
Definition grid_wf (g : grid) : Prop :=
  forall t by_surface, g !! t = Some by_surface ->
    is_Some (by_surface !! "buccal") /\ is_Some (by_surface !! "lingual").

(** The last measurement of a list with a given key. *)
Fixpoint latest (ms : list ToothMeasurement.t) (k : key) : option ToothMeasurement.t :=
  match ms with
  | [] => None
  | m :: ms' =>
      match latest ms' k with
      | Some x => Some x
      | None => if bool_decide (measurement_key m = k) then Some m else None
      end
  end.

(** The number of populated slots among the 192 combinations. *)
Definition populated (g : grid) : nat :=
  length (List.filter (fun k => bool_decide (is_Some (slot g k))) canonical_keys).

(** The number of combinations for which the form carries a depth. *)
Definition submitted_count (post : gmap string string) : nat :=
  length (List.filter (fun k => match submitted post k with Depth _ => true | _ => false end)
            canonical_keys).

(** The grid the read path builds for the exam with primary key [exam]. *)
Definition grid_of (db : Database) (exam : Z) : result grid :=
  organize ∅ (order_by measurement_le (exam_measurements exam db)).

(** Every measurement row has one of the two surfaces. *)
Definition surfaces_known (db : Database) : Prop :=
  forall m, m ∈ tooth_measurements db -> ToothMeasurement.surface m ∈ surfaces.

(** Two exams of patient 1, on days 100 and 200, and one of patient 2. *)
Definition exams_db : Database :=
  mkDatabase (patients clinic_db) [] []
    [ PeriodontalExam.mk 1 1 100 (Some 7) "" 1;
      PeriodontalExam.mk 2 2 150 (Some 7) "" 2;
      PeriodontalExam.mk 3 1 200 (Some 7) "" 3 ]
    [ ToothMeasurement.mk 1 1 18 "mesial" "buccal" 3 true false None;
      ToothMeasurement.mk 2 3 18 "mesial" "buccal" 5 false false None ].

(** Every field name the creation view reads for the 192 combinations. *)
Definition form_fields : list string :=
  k ← canonical_keys; [field_name "depth" k; field_name "bleeding" k; field_name "calculus" k].

(** Case analysis on membership in a list that is written out. *)
Ltac elem_cases H :=
  repeat (apply elem_of_cons in H as [->|H]); [..|by apply elem_of_nil in H].

(** ** Further definitions: more of the views, and the template filters *)

(** Every entry of the grid has the two surface keys and no other. *)
Definition grid_exact (g : grid) : Prop :=
  forall t by_surface, g !! t = Some by_surface ->
    forall s, is_Some (by_surface !! s) <-> s ∈ surfaces.

(** A measurement table with one row whose surface is misspelt. *)
Definition misspelt_db : Database :=
  mkDatabase (patients clinic_db) [] []
    [ PeriodontalExam.mk 1 1 100 (Some 7) "" 1 ]
    [ ToothMeasurement.mk 1 1 18 "mesial" "bucal" 3 false false None ].

(** The form of [post_sparse] as a browser sends it, with the token of the
    CSRF middleware and a field of a tooth that does not exist. *)
Definition post_sparse_with_token : gmap string string :=
  <["csrfmiddlewaretoken" := "k3y"]> (<["depth_19_buccal_mesial" := "9"]> post_sparse).

(** The identifiers with prefix [prefix] in [rows] are a prefix followed by
    a four-digit counter between 1 and 9998. *)
Definition counters_below_overflow {A : Type} (key : A -> string) (prefix : string)
    (rows : list A) : Prop :=
  forall r, r ∈ rows -> Py.startswith (key r) prefix = true ->
            exists c, 1 <= c <= 9998 /\ key r = prefix +:+ Py.format_04d c.

(** Rows of a patient table have a primary key, and no two the same key or
    the same identifier. *)
Definition patients_unique (rows : list Patient.t) : Prop :=
  (forall r, r ∈ rows -> is_Some (Patient.id r))
  /\ NoDup (Patient.id <$> rows) /\ NoDup (Patient.patient_id <$> rows).

(** A table in which an identifier of another origin is the highest of
    2025. *)
Definition patients_imported : list Patient.t :=
  [ Patient.mk (Some 1) "P20250001" "Hanako" "Sato" true;
    Patient.mk (Some 2) "P2025A001" "Ken" "Ito" true ].

(** The table of a year in which the counter has reached 9999. *)
Definition patients_full : list Patient.t :=
  [ Patient.mk (Some 1) "P20259998" "Hanako" "Sato" true;
    Patient.mk (Some 2) "P20259999" "Ken" "Ito" true ].

(** ** The exam list of [patient_detail] *)

(** An exam with the two attributes that [patient_detail] sets on it. *)
Record ExamWithCounts : Set := mkExamWithCounts {
  ec_exam : PeriodontalExam.t;
  bleeding_count : Z;
  calculus_count : Z
}.

(** The entry ['periodontal_exams'] of the context of [patient_detail]:
    the five most recent exams of the patient
    ([patient.periodontal_exams.all().order_by('-exam_date')[:5]]), each with
    [exam.measurements.filter(bleeding=True).count()] and
    [exam.measurements.filter(calculus=True).count()]. *)
Definition patient_periodontal_exams (patient_id : Z) (db : Database) : list ExamWithCounts :=
  let periodontal_exams_qs :=
    take 5 (order_by (fun a b => PeriodontalExam.exam_date b <=? PeriodontalExam.exam_date a)
              (List.filter (fun e => PeriodontalExam.patient e =? patient_id)
                 (periodontal_exams db))) in
  (fun exam =>
     mkExamWithCounts exam
       (Z.of_nat (length (List.filter ToothMeasurement.bleeding
                            (exam_measurements (PeriodontalExam.id exam) db))))
       (Z.of_nat (length (List.filter ToothMeasurement.calculus
                            (exam_measurements (PeriodontalExam.id exam) db)))))
  <$> periodontal_exams_qs.

(** The number of combinations for which the form carries a depth and has
    the checkbox of kind [kind] (bleeding or calculus) checked. *)
Definition checked_count (post : gmap string string) (kind : string) : Z :=
  Z.of_nat (length (List.filter
                      (fun k => match submitted post k with
                                | Depth _ => checked post (field_name kind k)
                                | _ => false
                                end) canonical_keys)).

(** ** [appointment_calendar] *)

Module Appointment.
Record t : Set := mk {
  id : Z;
  patient : Z;                 (* ForeignKey(Patient) *)
  appointment_date : Z;        (* DateField, as the day's ordinal *)
  appointment_time : Z;        (* TimeField, as the microsecond of the day *)
  status : string
}.
End Appointment.

(** [datetime.date] as the proleptic Gregorian ordinal of the day, from 1
    (0001-01-01) to [max_ordinal] (9999-12-31). *)
Module Date.
Definition max_ordinal : Z := 3652059.

(** [d.weekday()]: Monday is 0 and Sunday is 6. *)
Definition weekday (d : Z) : Z := (d + 6) mod 7.

(** [d + timedelta(days=n)] and [d - timedelta(days=-n)]; [None] stands
    for [OverflowError]. *)
Definition add_days (d n : Z) : option Z :=
  let o := d + n in
  if (0 <? o) && (o <=? max_ordinal) then Some o else None.
End Date.

Record CalendarContext : Set := mkCalendar {
  selected_date : Z;
  appointments : list Appointment.t;
  week_dates : list Z;
  total_count : Z;
  confirmed_count : Z;
  scheduled_count : Z;
  completed_count : Z
}.

(** What a call of [appointment_calendar] ends in: a response or one of
    the two exceptions it lets out. *)
Inductive CalendarOutcome : Type :=
  | CalendarResponse (r : HttpResponse CalendarContext)
  | CalendarValueError                       (* [strptime]: not a date *)
  | CalendarOverflowError.                   (* date arithmetic out of range *)

Section appointment_calendar.

(** [timezone.datetime.strptime(s, '%Y-%m-%d').date()] as the day's
    ordinal, or [None] when [strptime] raises [ValueError]. *)
Variable strptime_date : string -> option Z.

(** The selected date: the parameter [date] of the query string, and
    [today] when there is none ([strptime] reads [today.isoformat()] back
    as [today]). *)
Definition calendar_date (today : Z) (GET : gmap string string) : option Z :=
  match GET !! "date" with
  | Some date_str => strptime_date date_str
  | None => Some today
  end.

(** [appointment_calendar(request)] on the day [today], with the query
    string [GET] and the appointment table [table]. *)
Definition appointment_calendar (today : Z) (request : HttpRequest) (GET : gmap string string)
    (table : list Appointment.t) : CalendarOutcome :=
  match user request with
  | None => CalendarResponse RedirectToLogin
  | Some _ =>
      match calendar_date today GET with
      | None => CalendarValueError
      | Some selected_date =>
          let appointments :=
            order_by (fun a b => Appointment.appointment_time a <=? Appointment.appointment_time b)
              (List.filter (fun a => Appointment.appointment_date a =? selected_date) table) in
          let total_count := Z.of_nat (length appointments) in
          let count (status : string) :=
            Z.of_nat (length (List.filter (fun a => String.eqb (Appointment.status a) status)
                                appointments)) in
          match Date.add_days selected_date (- Date.weekday selected_date) with
          | None => CalendarOverflowError
          | Some week_start =>
              match mapM (fun i => Date.add_days week_start i) (Py.range 0 7 1) with
              | None => CalendarOverflowError
              | Some week_dates =>
                  CalendarResponse
                    (Render "dental/appointment_calendar.html"
                       (mkCalendar selected_date appointments week_dates total_count
                          (count "confirmed") (count "scheduled") (count "completed")))
              end
          end
      end
  end.
End appointment_calendar.

(** The appointments of a list whose status is none of the three that the
    calendar counts. *)
Definition other_status (a : Appointment.t) : bool :=
  negb (bool_decide (Appointment.status a ∈ ["confirmed"; "scheduled"; "completed"])).

(** Appointments of two days; 739311 is 2025-03-01, a Saturday. *)
Definition appointment_table : list Appointment.t :=
  [ Appointment.mk 1 1 739311 54000000000 "scheduled";
    Appointment.mk 2 2 739311 32400000000 "confirmed";
    Appointment.mk 3 1 739312 36000000000 "scheduled";
    Appointment.mk 4 2 739311 39600000000 "cancelled" ].

(** ** Template filters ([templatetags/dental_extras.py]) *)

(** The objects a template hands to the filters: [None], an [int], a
    [str], a [dict] whose keys are [int]s and [str]s (kept apart as the
    entries under [int] keys and the entries under [str] keys), or another
    object, such as a model instance. *)
#[warnings="-register-all"] Inductive pyobj (A : Type) : Type :=
  | PNone
  | PInt (n : Z)
  | PStr (s : string)
  | PDict (ints : gmap Z (pyobj A)) (strs : gmap string (pyobj A))
  | PObj (a : A).
Arguments PNone {A}.
Arguments PInt {A} n.
Arguments PStr {A} s.
Arguments PDict {A} ints strs.
Arguments PObj {A} a.

Fixpoint all_digits (s : string) : bool :=
  match s with
  | EmptyString => true
  | String c s' => bool_decide (is_Some (Py.digit_val c)) && all_digits s'
  end.

(** [s.isdigit()] on plain text: not empty, and digits only. *)
Definition isdigit (s : string) : bool := Py.truthy s && all_digits s.

(** [dictionary.get(key)].  Only a [dict] has the method; a [dict] is not
    hashable; [None] and the other objects are keys of no dictionary
    modelled here (an unsaved model instance is not hashable either, with
    the same outcome in [get_item]). *)
Definition dict_get {A : Type} (dictionary key : pyobj A) : result (pyobj A) :=
  match dictionary with
  | PDict ints strs =>
      match key with
      | PInt n => Ok (default PNone (ints !! n))
      | PStr s => Ok (default PNone (strs !! s))
      | PDict _ _ => Raise TypeError
      | PNone | PObj _ => Ok PNone
      end
  | _ => Raise AttributeError
  end.

(** The filter [get_item], for keys of plain text: on other text
    [isdigit] and [int] know further digits, and [int] may refuse a long
    string of digits with [ValueError], which the filter does not catch. *)
Definition get_item {A : Type} (dictionary key : pyobj A) : result (pyobj A) :=
  match dictionary with
  | PNone => Ok PNone
  | _ =>
      let converted :=
        match key with
        | PStr s =>
            if isdigit s
            then match Py.int s with
                 | Some n => Ok (PInt n)
                 | None => Raise ValueError
                 end
            else Ok key
        | _ => Ok key
        end in
      let body :=
        match converted with
        | Ok key => dict_get dictionary key
        | Raise e => Raise e
        end in
      match body with
      | Raise AttributeError | Raise TypeError => Ok PNone
      | r => r
      end
  end.

(** The grid of [periodontal_exam_detail] as the template receives it. *)
Definition grid_obj (g : grid) : pyobj ToothMeasurement.t :=
  PDict
    ((fun by_surface =>
        PDict ∅
          ((fun by_position =>
              PDict ∅ ((fun m => match m with Some m => PObj m | None => PNone end)
                         <$> by_position))
             <$> by_surface))
       <$> g)
    ∅.

(** A grid with one measurement, of tooth 18, and an empty slot. *)
Definition grid_18 : grid :=
  {[ 18 := {[ "buccal" := {[ "mesial" := Some (ToothMeasurement.mk 1 1 18 "mesial" "buccal" 3
                                                 true false None);
                             "middle" := None ]} ]} ]}.

Example int_ok : Py.int " 3 " = Some 3 /\ Py.int "-12" = Some (-12) /\ Py.int "1_0" = Some 10
  /\ Py.int "3a" = None /\ Py.int "" = None /\ Py.int "+" = None /\ Py.int "5_" = None.
Proof. vm_compute. auto 10. Qed.

(** [strip] drops the separators FS..US, [int] does not skip them. *)
Example int_spaces :
  Py.str_strip (String "031" "3") = "3" /\ Py.int (String "031" "3") = None
  /\ Py.int (String "011" "3 ") = Some 3 /\ Py.str_strip (String "028" " ") = "".
Proof. vm_compute. auto. Qed.

Example fmt_ok : Py.format_04d 7 = "0007" /\ Py.format_04d 10000 = "10000"
  /\ Py.format_04d (-5) = "-005" /\ Py.last4 "P20250012" = "0012" /\ Py.last4 "ab" = "ab".
Proof. vm_compute. auto 10. Qed.

Example save_three :
  let '(p1, r1) := Patient_save 2025 (new_patient "A" "B") [] in
  match r1 with
  | Ok t1 =>
      let '(p2, r2) := Patient_save 2025 (new_patient "C" "D") t1 in
      Patient.patient_id p1 = "P20250001" /\ Patient.patient_id p2 = "P20250002"
      /\ Patient.id p2 = Some 2
  | Raise _ => False
  end.
Proof. vm_compute. auto. Qed.

(** * Properties *)

(** ** Sorting *)

Section order_by_facts.
Context {A : Type} (le : A -> A -> bool).
Hypothesis le_total : forall a b, le a b = true \/ le b a = true.
Hypothesis le_trans : forall a b c, le a b = true -> le b c = true -> le a c = true.

Lemma insert_sorted_perm (x : A) (l : list A) : insert_sorted le x l ≡ₚ x :: l.
Proof.
  induction l as [|y l IH]; simpl; [done|].
  destruct (le x y); [done|]. rewrite IH. apply Permutation_swap.
Qed.

Lemma order_by_perm (l : list A) : order_by le l ≡ₚ l.
Proof.
  induction l as [|x l IH]; simpl; [done|].
  rewrite insert_sorted_perm. by rewrite IH.
Qed.

Lemma insert_sorted_StronglySorted (x : A) (l : list A) :
  StronglySorted (fun a b => le a b = true) l ->
  StronglySorted (fun a b => le a b = true) (insert_sorted le x l).
Proof.
  induction 1 as [|y l Hs IH Hy]; simpl.
  - repeat constructor.
  - destruct (le x y) eqn:Hxy.
    + constructor; [by constructor|].
      constructor; [done|].
      eapply Forall_impl; [exact Hy|]. intros z Hz. by eapply le_trans.
    + constructor; [done|].
      rewrite insert_sorted_perm. constructor; [|done].
      destruct (le_total x y); congruence.
Qed.

Lemma order_by_StronglySorted (l : list A) :
  StronglySorted (fun a b => le a b = true) (order_by le l).
Proof.
  induction l; simpl; [constructor|]. by apply insert_sorted_StronglySorted.
Qed.

Lemma le_refl_total (a : A) : le a a = true.
Proof. by destruct (le_total a a). Qed.

Lemma StronglySorted_head (l : list A) (x : A) :
  StronglySorted (fun a b => le a b = true) l ->
  head l = Some x -> forall y, y ∈ l -> le x y = true.
Proof.
  intros Hs Hh y Hy. destruct Hs as [|z l Hs Hz]; [done|].
  simpl in Hh. injection Hh as ->.
  apply elem_of_cons in Hy as [->|Hy]; [apply le_refl_total|].
  rewrite Forall_forall in Hz. by apply Hz.
Qed.

Lemma StronglySorted_last (l : list A) (x : A) :
  StronglySorted (fun a b => le a b = true) l ->
  last l = Some x -> forall y, y ∈ l -> le y x = true.
Proof.
  induction 1 as [|z l Hs IH Hz]; [done|].
  intros Hl y Hy. destruct l as [|w l].
  - simpl in Hl. injection Hl as ->.
    apply list_elem_of_singleton in Hy as ->. apply le_refl_total.
  - change (last (w :: l) = Some x) in Hl.
    apply elem_of_cons in Hy as [->|Hy]; [|by apply IH].
    rewrite Forall_forall in Hz. apply Hz.
    apply last_Some_elem_of in Hl. done.
Qed.

(** [qs.order_by(...).first()] is a least row of the query set. *)
Lemma order_by_head (l : list A) (x : A) :
  head (order_by le l) = Some x -> x ∈ l /\ forall y, y ∈ l -> le x y = true.
Proof.
  intros Hh. split.
  - rewrite <- order_by_perm. by apply head_Some_elem_of.
  - intros y Hy. eapply StronglySorted_head; eauto using order_by_StronglySorted.
    by rewrite order_by_perm.
Qed.

(** [qs.order_by(...).last()] is a greatest row of the query set. *)
Lemma order_by_last (l : list A) (x : A) :
  last (order_by le l) = Some x -> x ∈ l /\ forall y, y ∈ l -> le y x = true.
Proof.
  intros Hl. split.
  - rewrite <- order_by_perm. by apply last_Some_elem_of.
  - intros y Hy. eapply StronglySorted_last; eauto using order_by_StronglySorted.
    by rewrite order_by_perm.
Qed.

Lemma order_by_nil_inv (l : list A) : order_by le l = [] -> l = [].
Proof.
  intros H. apply Permutation_nil_r. rewrite <- H. symmetry. apply order_by_perm.
Qed.
End order_by_facts.

(** ** Sequential identifiers *)

Lemma string_leb_trans (a b c : string) :
  String.leb a b = true -> String.leb b c = true -> String.leb a c = true.
Proof.
  intros H1 H2. apply Is_true_true. apply Is_true_true in H1, H2.
  change (String.le a c). by trans b.
Qed.

Lemma highest_with_prefix_key {A : Type} (key : A -> string) prefix rows l l' :
  highest_with_prefix key prefix rows l -> highest_with_prefix key prefix rows l' ->
  key l = key l'.
Proof.
  intros (Hl & Hp & Hmax) (Hl' & Hp' & Hmax').
  apply String.leb_antisym; auto.
Qed.

Lemma elem_of_List_filter {A : Type} (f : A -> bool) (l : list A) (x : A) :
  x ∈ List.filter f l <-> x ∈ l /\ f x = true.
Proof. rewrite !list_elem_of_In. apply filter_In. Qed.

(** What [.filter(key__startswith=prefix).order_by(key).last()] returns. *)
Lemma filter_order_by_last {A : Type} (key : A -> string) (prefix : string) (rows : list A) :
  match last (order_by (fun a b => String.leb (key a) (key b))
                (List.filter (fun r => Py.startswith (key r) prefix) rows)) with
  | Some l => highest_with_prefix key prefix rows l
  | None => forall r, r ∈ rows -> Py.startswith (key r) prefix = false
  end.
Proof.
  set (le := fun a b => String.leb (key a) (key b)).
  assert (Htot : forall a b, le a b = true \/ le b a = true)
    by (intros; apply String.leb_total).
  assert (Htr : forall a b c, le a b = true -> le b c = true -> le a c = true)
    by (intros a b c; apply string_leb_trans).
  destruct (last _) as [l|] eqn:Hlast.
  - apply (order_by_last le Htot Htr) in Hlast as [Hin Hmax].
    apply elem_of_List_filter in Hin as [Hin Hp].
    split; [done|]. split; [done|].
    intros r Hr Hrp. apply Hmax. by apply elem_of_List_filter.
  - apply last_None in Hlast. apply order_by_nil_inv in Hlast.
    intros r Hr. destruct (Py.startswith (key r) prefix) eqn:Hp; [|done].
    assert (r ∈ List.filter (fun r => Py.startswith (key r) prefix) rows) as Hin
      by by apply elem_of_List_filter.
    rewrite Hlast in Hin. by apply elem_of_nil in Hin.
Qed.

(** The four-digit text of a counter reads back as the counter. *)
Lemma int_format_04d (c : Z) : 0 <= c <= 9999 -> Py.int (Py.format_04d c) = Some c.
Proof.
  intros Hc.
  assert (forallb (fun c => bool_decide (Py.int (Py.format_04d c) = Some c)) (seqZ 0 10000)
          = true) as Hall by (vm_compute; reflexivity).
  rewrite forallb_forall in Hall.
  specialize (Hall c). rewrite <- list_elem_of_In, elem_of_seqZ in Hall.
  apply bool_decide_eq_true in Hall; [done|lia].
Qed.

Lemma truthy_false (s : string) : Py.truthy s = false <-> s = "".
Proof. by destruct s. Qed.

Lemma Patient_super_save_patient_id self rows :
  Patient.patient_id (fst (Patient_super_save self rows)) = Patient.patient_id self.
Proof.
  unfold Patient_super_save. destruct (existsb _ rows); [done|].
  destruct (Patient.id self); [|done]. by destruct (existsb _ rows).
Qed.

Lemma Invoice_super_save_invoice_number self rows :
  Invoice.invoice_number (fst (Invoice_super_save self rows)) = Invoice.invoice_number self.
Proof.
  unfold Invoice_super_save. destruct (existsb _ rows); [done|].
  destruct (Invoice.id self); [|done]. by destruct (existsb _ rows).
Qed.

Lemma Patient_super_save_persists self rows rows' :
  snd (Patient_super_save self rows) = Ok rows' ->
  fst (Patient_super_save self rows) ∈ rows'.
Proof.
  unfold Patient_super_save. destruct (existsb _ rows); [done|].
  destruct (Patient.id self) as [pk|] eqn:Hpk; simpl.
  - destruct (existsb _ rows) eqn:Hex; simpl; intros [= <-].
    + apply existsb_exists in Hex as (r & Hr & Hid).
      apply list_elem_of_fmap. exists r. rewrite Hid. by rewrite list_elem_of_In.
    + apply elem_of_app. right. by apply list_elem_of_singleton.
  - intros [= <-]. apply elem_of_app. right. by apply list_elem_of_singleton.
Qed.

Lemma Invoice_super_save_persists self rows rows' :
  snd (Invoice_super_save self rows) = Ok rows' ->
  fst (Invoice_super_save self rows) ∈ rows'.
Proof.
  unfold Invoice_super_save. destruct (existsb _ rows); [done|].
  destruct (Invoice.id self) as [pk|] eqn:Hpk; simpl.
  - destruct (existsb _ rows) eqn:Hex; simpl; intros [= <-].
    + apply existsb_exists in Hex as (r & Hr & Hid).
      apply list_elem_of_fmap. exists r. rewrite Hid. by rewrite list_elem_of_In.
    + apply elem_of_app. right. by apply list_elem_of_singleton.
  - intros [= <-]. apply elem_of_app. right. by apply list_elem_of_singleton.
Qed.

(** The identifier [Patient.save] leaves on the instance. *)
Lemma Patient_save_patient_id year self rows :
  Patient.patient_id (fst (Patient_save year self rows)) =
  if Py.truthy (Patient.patient_id self) then Patient.patient_id self
  else match last (order_by (fun a b => String.leb (Patient.patient_id a) (Patient.patient_id b))
                     (List.filter (fun p => Py.startswith (Patient.patient_id p)
                                              ("P" +:+ Py.str year)) rows)) with
       | None => "P" +:+ Py.str year +:+ Py.format_04d 1
       | Some lp =>
           match Py.int (Py.last4 (Patient.patient_id lp)) with
           | Some n => "P" +:+ Py.str year +:+ Py.format_04d (n + 1)
           | None => Patient.patient_id self
           end
       end.
Proof.
  unfold Patient_save. destruct (Py.truthy _); simpl.
  - apply Patient_super_save_patient_id.
  - destruct (last _) as [lp|]; [destruct (Py.int _)|]; simpl;
      by rewrite ?Patient_super_save_patient_id.
Qed.

Lemma Invoice_save_invoice_number year self rows :
  Invoice.invoice_number (fst (Invoice_save year self rows)) =
  if Py.truthy (Invoice.invoice_number self) then Invoice.invoice_number self
  else match last (order_by (fun a b => String.leb (Invoice.invoice_number a)
                                          (Invoice.invoice_number b))
                     (List.filter (fun p => Py.startswith (Invoice.invoice_number p)
                                              ("INV" +:+ Py.str year)) rows)) with
       | None => "INV" +:+ Py.str year +:+ Py.format_04d 1
       | Some lp =>
           match Py.int (Py.last4 (Invoice.invoice_number lp)) with
           | Some n => "INV" +:+ Py.str year +:+ Py.format_04d (n + 1)
           | None => Invoice.invoice_number self
           end
       end.
Proof.
  unfold Invoice_save. destruct (Py.truthy _); simpl.
  - apply Invoice_super_save_invoice_number.
  - destruct (last _) as [lp|]; [destruct (Py.int _)|]; simpl;
      by rewrite ?Invoice_super_save_invoice_number.
Qed.

(** The identifier read off a table: [prefix] and the next counter. *)
Lemma next_identifier {A : Type} (key : A -> string) (prefix : string) (rows : list A) :
  (forall l c, highest_with_prefix key prefix rows l -> 0 <= c <= 9999 ->
     Py.last4 (key l) = Py.format_04d c ->
     exists lp, last (order_by (fun a b => String.leb (key a) (key b))
                        (List.filter (fun r => Py.startswith (key r) prefix) rows)) = Some lp
                /\ Py.int (Py.last4 (key lp)) = Some c)
  /\ ((forall r, r ∈ rows -> Py.startswith (key r) prefix = false) ->
      last (order_by (fun a b => String.leb (key a) (key b))
              (List.filter (fun r => Py.startswith (key r) prefix) rows)) = None).
Proof.
  pose proof (filter_order_by_last key prefix rows) as Hq.
  split.
  - intros l c Hl Hc Hlast. destruct (last _) as [lp|].
    + exists lp. split; [done|].
      rewrite <- (highest_with_prefix_key _ _ _ _ _ Hl Hq), Hlast.
      by apply int_format_04d.
    + destruct Hl as (Hin & Hp & _). rewrite (Hq _ Hin) in Hp. done.
  - intros Hnone. destruct (last _) as [lp|]; [|done].
    destruct Hq as (Hin & Hp & _). rewrite (Hnone _ Hin) in Hp. done.
Qed.

Lemma Patient_save_persists year self rows rows' :
  snd (Patient_save year self rows) = Ok rows' -> fst (Patient_save year self rows) ∈ rows'.
Proof.
  unfold Patient_save. destruct (negb _).
  - destruct (last _) as [lp|]; [destruct (Py.int _)|]; simpl;
      try done; apply Patient_super_save_persists.
  - apply Patient_super_save_persists.
Qed.

Lemma Invoice_save_persists year self rows rows' :
  snd (Invoice_save year self rows) = Ok rows' -> fst (Invoice_save year self rows) ∈ rows'.
Proof.
  unfold Invoice_save. destruct (negb _).
  - destruct (last _) as [lp|]; [destruct (Py.int _)|]; simpl;
      try done; apply Invoice_super_save_persists.
  - apply Invoice_super_save_persists.
Qed.

Lemma Patient_super_save_fresh self rows :
  (forall r, r ∈ rows -> Patient.patient_id r <> Patient.patient_id self) ->
  exists rows', snd (Patient_super_save self rows) = Ok rows'.
Proof.
  intros Hfresh. unfold Patient_super_save.
  destruct (existsb _ rows) eqn:Hex.
  - apply existsb_exists in Hex as (r & Hr & Hc).
    apply andb_true_iff in Hc as [Hc _]. apply String.eqb_eq in Hc.
    apply list_elem_of_In in Hr. by destruct (Hfresh r Hr).
  - clear Hex. destruct (Patient.id self); [destruct (existsb _ rows)|]; simpl; eexists; reflexivity.
Qed.

Lemma Invoice_super_save_fresh self rows :
  (forall r, r ∈ rows -> Invoice.invoice_number r <> Invoice.invoice_number self) ->
  exists rows', snd (Invoice_super_save self rows) = Ok rows'.
Proof.
  intros Hfresh. unfold Invoice_super_save.
  destruct (existsb _ rows) eqn:Hex.
  - apply existsb_exists in Hex as (r & Hr & Hc).
    apply andb_true_iff in Hc as [Hc _]. apply String.eqb_eq in Hc.
    apply list_elem_of_In in Hr. by destruct (Hfresh r Hr).
  - clear Hex. destruct (Invoice.id self); [destruct (existsb _ rows)|]; simpl; eexists; reflexivity.
Qed.

(** C3. A save of a patient (an invoice) whose identifier is unset assigns
    the prefix [P<year>] ([INV<year>]) followed by the counter padded with
    zeros to four digits: 1 when no identifier with the prefix exists, and
    otherwise one more than the counter in the last four digits of the
    highest identifier with the prefix.  A save of an instance whose
    identifier is set leaves it as it is, and a save that succeeds stores
    the instance under the identifier it carries. *)
Theorem sequential_identifier_generation (year : Z) :
  (forall (self : Patient.t) (rows : list Patient.t),
     (Patient.patient_id self = "" ->
        ((forall r, r ∈ rows ->
                    Py.startswith (Patient.patient_id r) ("P" +:+ Py.str year) = false) ->
         Patient.patient_id (fst (Patient_save year self rows))
         = "P" +:+ Py.str year +:+ "0001")
        /\ (forall l c,
              highest_with_prefix Patient.patient_id ("P" +:+ Py.str year) rows l ->
              0 <= c <= 9999 -> Py.last4 (Patient.patient_id l) = Py.format_04d c ->
              Patient.patient_id (fst (Patient_save year self rows))
              = "P" +:+ Py.str year +:+ Py.format_04d (c + 1)))
     /\ (Patient.patient_id self <> "" ->
         Patient.patient_id (fst (Patient_save year self rows)) = Patient.patient_id self)
     /\ (forall rows', snd (Patient_save year self rows) = Ok rows' ->
                       fst (Patient_save year self rows) ∈ rows'))
  /\ (forall (self : Invoice.t) (rows : list Invoice.t),
     (Invoice.invoice_number self = "" ->
        ((forall r, r ∈ rows ->
                    Py.startswith (Invoice.invoice_number r) ("INV" +:+ Py.str year) = false) ->
         Invoice.invoice_number (fst (Invoice_save year self rows))
         = "INV" +:+ Py.str year +:+ "0001")
        /\ (forall l c,
              highest_with_prefix Invoice.invoice_number ("INV" +:+ Py.str year) rows l ->
              0 <= c <= 9999 -> Py.last4 (Invoice.invoice_number l) = Py.format_04d c ->
              Invoice.invoice_number (fst (Invoice_save year self rows))
              = "INV" +:+ Py.str year +:+ Py.format_04d (c + 1)))
     /\ (Invoice.invoice_number self <> "" ->
         Invoice.invoice_number (fst (Invoice_save year self rows))
         = Invoice.invoice_number self)
     /\ (forall rows', snd (Invoice_save year self rows) = Ok rows' ->
                       fst (Invoice_save year self rows) ∈ rows')).
Proof.
  split; intros self rows.
  - destruct (next_identifier Patient.patient_id ("P" +:+ Py.str year) rows) as [Hsome Hnone].
    split; [|split].
    + intros Hunset. split.
      * intros Hno. rewrite Patient_save_patient_id, Hunset. simpl. by rewrite (Hnone Hno).
      * intros l c Hl Hc Hlast. rewrite Patient_save_patient_id, Hunset. simpl.
        destruct (Hsome l c Hl Hc Hlast) as (lp & -> & ->). done.
    + intros Hset. rewrite Patient_save_patient_id.
      destruct (Py.truthy _) eqn:Ht; [done|]. by apply truthy_false in Ht.
    + apply Patient_save_persists.
  - destruct (next_identifier Invoice.invoice_number ("INV" +:+ Py.str year) rows)
      as [Hsome Hnone].
    split; [|split].
    + intros Hunset. split.
      * intros Hno. rewrite Invoice_save_invoice_number, Hunset. simpl. by rewrite (Hnone Hno).
      * intros l c Hl Hc Hlast. rewrite Invoice_save_invoice_number, Hunset. simpl.
        destruct (Hsome l c Hl Hc Hlast) as (lp & -> & ->). done.
    + intros Hset. rewrite Invoice_save_invoice_number.
      destruct (Py.truthy _) eqn:Ht; [done|]. by apply truthy_false in Ht.
    + apply Invoice_save_persists.
Qed.


Lemma sequential_identifier_generation_witness :
  Patient.patient_id (fst (Patient_save 2025 (new_patient "Yui" "Abe") patients_2025))
  = "P20250008"
  /\ Patient.patient_id (fst (Patient_save 2026 (new_patient "Yui" "Abe") patients_2025))
     = "P20260001"
  /\ Patient.patient_id
       (fst (Patient_save 2026 (Patient.mk (Some 2) "P20250001" "Hanako" "Kato" true)
               patients_2025)) = "P20250001"
  /\ Invoice.invoice_number (fst (Invoice_save 2025 (Invoice.mk None "" 1 "draft") invoices_2025))
     = "INV20250003"
  /\ Invoice.invoice_number (fst (Invoice_save 2025 (Invoice.mk None "" 1 "draft") []))
     = "INV20250001"
  /\ Invoice.invoice_number
       (fst (Invoice_save 2025 (Invoice.mk (Some 1) "INV20250001" 2 "paid") invoices_2025))
     = "INV20250001".
Proof.
  destruct (sequential_identifier_generation 2025) as [HP25 HI25].
  destruct (sequential_identifier_generation 2026) as [HP26 _].
  refine (conj _ (conj _ (conj _ (conj _ (conj _ _))))).
  - destruct (HP25 (new_patient "Yui" "Abe") patients_2025) as (Hunset & _ & _).
    destruct (Hunset eq_refl) as [_ Hsome].
    rewrite (Hsome (Patient.mk (Some 3) "P20250007" "Ken" "Ito" true) 7).
    + reflexivity.
    + split; [|split].
      * do 2 apply list_elem_of_further. apply list_elem_of_here.
      * reflexivity.
      * intros r Hr _. unfold patients_2025 in Hr. elem_cases Hr; reflexivity.
    + lia.
    + reflexivity.
  - destruct (HP26 (new_patient "Yui" "Abe") patients_2025) as (Hunset & _ & _).
    destruct (Hunset eq_refl) as [Hnone _]. rewrite Hnone; [reflexivity|].
    intros r Hr. unfold patients_2025 in Hr. elem_cases Hr; reflexivity.
  - destruct (HP26 (Patient.mk (Some 2) "P20250001" "Hanako" "Kato" true) patients_2025)
      as (_ & Hset & _).
    apply Hset. discriminate.
  - destruct (HI25 (Invoice.mk None "" 1 "draft") invoices_2025) as (Hunset & _ & _).
    destruct (Hunset eq_refl) as [_ Hsome].
    rewrite (Hsome (Invoice.mk (Some 2) "INV20250002" 3 "sent") 2).
    + reflexivity.
    + split; [|split].
      * apply list_elem_of_further. apply list_elem_of_here.
      * reflexivity.
      * intros r Hr _. unfold invoices_2025 in Hr. elem_cases Hr; reflexivity.
    + lia.
    + reflexivity.
  - destruct (HI25 (Invoice.mk None "" 1 "draft") []) as (Hunset & _ & _).
    destruct (Hunset eq_refl) as [Hnone _]. rewrite Hnone; [reflexivity|].
    intros r Hr. by apply elem_of_nil in Hr.
  - destruct (HI25 (Invoice.mk (Some 1) "INV20250001" 2 "paid") invoices_2025)
      as (_ & Hset & _).
    apply Hset. discriminate.
Defined.

(** C9. When the highest identifier of the year ends in the counter 9999,
    the save neither fails nor saturates in generating the identifier: it
    assigns the prefix followed by the five characters [10000], and, when
    no row carries that identifier yet, stores the instance under it. *)
Theorem counter_overflow_five_digits (year : Z) :
  (forall (self : Patient.t) (rows : list Patient.t) (l : Patient.t),
     Patient.patient_id self = "" ->
     highest_with_prefix Patient.patient_id ("P" +:+ Py.str year) rows l ->
     Py.last4 (Patient.patient_id l) = "9999" ->
     Patient.patient_id (fst (Patient_save year self rows)) = "P" +:+ Py.str year +:+ "10000"
     /\ ((forall r, r ∈ rows -> Patient.patient_id r <> "P" +:+ Py.str year +:+ "10000") ->
         exists rows', snd (Patient_save year self rows) = Ok rows'
                       /\ fst (Patient_save year self rows) ∈ rows'))
  /\ (forall (self : Invoice.t) (rows : list Invoice.t) (l : Invoice.t),
     Invoice.invoice_number self = "" ->
     highest_with_prefix Invoice.invoice_number ("INV" +:+ Py.str year) rows l ->
     Py.last4 (Invoice.invoice_number l) = "9999" ->
     Invoice.invoice_number (fst (Invoice_save year self rows))
     = "INV" +:+ Py.str year +:+ "10000"
     /\ ((forall r, r ∈ rows -> Invoice.invoice_number r <> "INV" +:+ Py.str year +:+ "10000") ->
         exists rows', snd (Invoice_save year self rows) = Ok rows'
                       /\ fst (Invoice_save year self rows) ∈ rows')).
Proof.
  split; intros self rows l Hunset Hl Hlast.
  - destruct (next_identifier Patient.patient_id ("P" +:+ Py.str year) rows) as [Hsome _].
    destruct (Hsome l 9999 Hl ltac:(lia) Hlast) as (lp & Hlp & Hint).
    split.
    + rewrite Patient_save_patient_id, Hunset. simpl. by rewrite Hlp, Hint.
    + intros Hfresh.
      assert (exists rows', snd (Patient_save year self rows) = Ok rows') as [rows' Hok].
      { unfold Patient_save. rewrite Hunset. simpl. rewrite Hlp, Hint.
        apply Patient_super_save_fresh. intros r Hr. simpl. by apply Hfresh. }
      exists rows'. split; [done|]. by apply Patient_save_persists.
  - destruct (next_identifier Invoice.invoice_number ("INV" +:+ Py.str year) rows) as [Hsome _].
    destruct (Hsome l 9999 Hl ltac:(lia) Hlast) as (lp & Hlp & Hint).
    split.
    + rewrite Invoice_save_invoice_number, Hunset. simpl. by rewrite Hlp, Hint.
    + intros Hfresh.
      assert (exists rows', snd (Invoice_save year self rows) = Ok rows') as [rows' Hok].
      { unfold Invoice_save. rewrite Hunset. simpl. rewrite Hlp, Hint.
        apply Invoice_super_save_fresh. intros r Hr. simpl. by apply Hfresh. }
      exists rows'. split; [done|]. by apply Invoice_save_persists.
Qed.

Lemma counter_overflow_five_digits_witness :
  Patient.patient_id
    (fst (Patient_save 2025 (new_patient "Yui" "Abe")
            [Patient.mk (Some 1) "P20259998" "A" "B" true;
             Patient.mk (Some 2) "P20259999" "C" "D" true])) = "P202510000"
  /\ Invoice.invoice_number
       (fst (Invoice_save 2025 (Invoice.mk None "" 1 "draft")
               [Invoice.mk (Some 1) "INV20259999" 1 "paid"])) = "INV202510000".
Proof.
  destruct (counter_overflow_five_digits 2025) as [HP HI]. split.
  - refine (proj1 (HP (new_patient "Yui" "Abe")
                      [Patient.mk (Some 1) "P20259998" "A" "B" true;
                       Patient.mk (Some 2) "P20259999" "C" "D" true]
                      (Patient.mk (Some 2) "P20259999" "C" "D" true) eq_refl _ eq_refl)).
    split; [apply list_elem_of_further, list_elem_of_here|]. split; [reflexivity|].
    intros r Hr _. elem_cases Hr; reflexivity.
  - refine (proj1 (HI (Invoice.mk None "" 1 "draft")
                      [Invoice.mk (Some 1) "INV20259999" 1 "paid"]
                      (Invoice.mk (Some 1) "INV20259999" 1 "paid") eq_refl _ eq_refl)).
    split; [apply list_elem_of_here|]. split; [reflexivity|].
    intros r Hr _. elem_cases Hr; reflexivity.
Defined.

(** ** The monad and the tables *)

Lemma bind_Ok {A B : Type} (m : View A) (f : A -> View B) db db' a :
  m db = (db', Ok a) -> (m ≫= f) db = f a db'.
Proof. intros H. unfold mbind, View_bind. by rewrite H. Qed.

Lemma bind_Raise {A B : Type} (m : View A) (f : A -> View B) db db' e :
  m db = (db', Raise e) -> (m ≫= f) db = (db', Raise e).
Proof. intros H. unfold mbind, View_bind. by rewrite H. Qed.

Lemma for_app {A : Type} (l1 l2 : list A) (body : A -> View unit) db :
  for_ (l1 ++ l2) body db =
  match for_ l1 body db with
  | (db', Ok _) => for_ l2 body db'
  | (db', Raise e) => (db', Raise e)
  end.
Proof.
  revert db. induction l1 as [|x l1 IH]; intros db; simpl; [done|].
  unfold mbind, View_bind. destruct (body x db) as [db1 [[]|e]]; [apply IH|done].
Qed.

Lemma foldr_max_nonneg (l : list Z) : 0 <= foldr Z.max 0 l.
Proof. induction l; simpl; lia. Qed.

Lemma foldr_max_app (l1 l2 : list Z) :
  foldr Z.max 0 (l1 ++ l2) = Z.max (foldr Z.max 0 l1) (foldr Z.max 0 l2).
Proof.
  induction l1; simpl; [pose proof (foldr_max_nonneg l2); lia|]. rewrite IHl1. lia.
Qed.

(** After an insert the next key is one more. *)
Lemma next_pk_snoc (pks : list Z) : next_pk (pks ++ [next_pk pks]) = next_pk pks + 1.
Proof.
  unfold next_pk. rewrite foldr_max_app. simpl.
  pose proof (foldr_max_nonneg pks). lia.
Qed.

(** A fresh key is larger than every key of the table. *)
Lemma next_pk_fresh (pks : list Z) (k : Z) : k ∈ pks -> k < next_pk pks.
Proof.
  unfold next_pk. induction pks as [|x pks IH]; intros Hk; [by apply elem_of_nil in Hk|].
  simpl. apply elem_of_cons in Hk as [->|Hk]; [lia|]. specialize (IH Hk). lia.
Qed.

Lemma set_teeth_set_teeth v w db : set_teeth v (set_teeth w db) = set_teeth v db.
Proof. done. Qed.

Lemma set_teeth_id db : set_teeth (teeth db) db = db.
Proof. by destruct db. Qed.

(** ** Lazy chart initialization *)

Lemma for_create_teeth now patient nums db :
  NoDup nums ->
  (forall t, t ∈ teeth db -> Tooth.patient t = patient -> Tooth.tooth_number t ∉ nums) ->
  for_ nums (fun n => Tooth_objects_create now patient n "healthy" ≫= fun _ => mret tt) db
  = (set_teeth (teeth db ++ created_teeth now patient (next_pk (Tooth.id <$> teeth db)) nums) db,
     Ok tt).
Proof.
  revert db. induction nums as [|n ns IH]; intros db Hnd Hfree; simpl.
  - by rewrite app_nil_r, set_teeth_id.
  - apply NoDup_cons in Hnd as [Hn Hnd].
    assert (existsb (fun t => (Tooth.patient t =? patient) && (Tooth.tooth_number t =? n))
              (teeth db) = false) as Hex.
    { apply not_true_is_false. intros Hex. apply existsb_exists in Hex as (t & Ht & Hc).
      apply andb_true_iff in Hc as [Hp Hc]. apply Z.eqb_eq in Hp, Hc.
      apply list_elem_of_In in Ht. apply (Hfree t Ht Hp). rewrite Hc. apply list_elem_of_here. }
    set (row := Tooth.mk (next_pk (Tooth.id <$> teeth db)) patient n "healthy" "" now).
    erewrite bind_Ok; cycle 1.
    { erewrite bind_Ok; [reflexivity|]. unfold Tooth_objects_create. rewrite Hex. reflexivity. }
    fold row. rewrite IH; [|done|].
    + simpl. rewrite set_teeth_set_teeth. f_equal. f_equal.
      rewrite fmap_app. simpl. rewrite next_pk_snoc. by rewrite <- app_assoc.
    + simpl. intros t Ht Hp. apply elem_of_app in Ht as [Ht|Ht].
      * intros Hin. apply (Hfree t Ht Hp). by apply list_elem_of_further.
      * apply list_elem_of_singleton in Ht as ->. done.
Qed.

Lemma created_teeth_columns now patient pk nums :
  (fun t => (Tooth.patient t, Tooth.tooth_number t, Tooth.status t, Tooth.notes t))
    <$> created_teeth now patient pk nums
  = (fun n => (patient, n, "healthy", "")) <$> nums.
Proof. revert pk. induction nums; intros pk; simpl; [done|]. by rewrite IHnums. Qed.

Lemma created_teeth_patient now patient pk nums t :
  t ∈ created_teeth now patient pk nums -> Tooth.patient t = patient.
Proof.
  revert pk. induction nums; intros pk Ht; simpl in Ht; [by apply elem_of_nil in Ht|].
  apply elem_of_cons in Ht as [->|Ht]; [done|eauto].
Qed.

Lemma created_teeth_filter now patient pk nums :
  List.filter (fun t => Tooth.patient t =? patient) (created_teeth now patient pk nums) = [] ->
  nums = [].
Proof.
  destruct nums as [|n ns]; [done|]. simpl. rewrite Z.eqb_refl. discriminate.
Qed.

Lemma tooth_numbers_fdi : tooth_numbers = fdi_order.
Proof. reflexivity. Qed.

Lemma NoDup_tooth_numbers : NoDup tooth_numbers.
Proof.
  rewrite tooth_numbers_fdi.
  apply (bool_decide_unpack (NoDup fdi_order)). vm_compute. exact I.
Qed.

Lemma patient_teeth_nil patient db : patient_teeth patient db = [] <-> teeth_of patient db = [].
Proof.
  unfold patient_teeth. fold (teeth_of patient db). split.
  - apply order_by_nil_inv.
  - by intros ->.
Qed.

(** What [patient_detail] does for a logged-in user and an existing patient. *)
Lemma patient_detail_run now request patient_id db u p :
  user request = Some u ->
  find (fun p => bool_decide (Patient.id p = Some patient_id)) (patients db) = Some p ->
  patient_detail now request patient_id db =
  if bool_decide (teeth_of patient_id db = []) then
    let db' := set_teeth (teeth db ++ created_teeth now patient_id
                                        (next_pk (Tooth.id <$> teeth db)) tooth_numbers) db in
    (db', Ok (Render "dental/patient_detail.html"
                (mkPatientDetail p (teeth_dict_of (patient_teeth patient_id db'))
                   (bool_decide (patient_teeth patient_id db' <> [])))))
  else
    (db, Ok (Render "dental/patient_detail.html"
               (mkPatientDetail p (teeth_dict_of (patient_teeth patient_id db))
                  (bool_decide (patient_teeth patient_id db <> []))))).
Proof.
  intros Hu Hp. unfold patient_detail. rewrite Hu.
  erewrite bind_Ok; [|unfold get_Patient_or_404; by rewrite Hp].
  erewrite bind_Ok; [|reflexivity].
  destruct (decide (teeth_of patient_id db = [])) as [Hnil|Hne].
  - rewrite (bool_decide_eq_true_2 _ Hnil).
    apply patient_teeth_nil in Hnil as Hqs.
    rewrite (bool_decide_eq_false_2 (patient_teeth patient_id db <> [])) by tauto.
    cbn [negb].
    erewrite bind_Ok; [reflexivity|].
    erewrite bind_Ok; [reflexivity|].
    apply for_create_teeth; [apply NoDup_tooth_numbers|].
    intros t Ht Hpt. exfalso.
    assert (t ∈ teeth_of patient_id db) as Hin.
    { apply elem_of_List_filter. split; [done|]. by apply Z.eqb_eq. }
    rewrite Hnil in Hin. by apply elem_of_nil in Hin.
  - rewrite (bool_decide_eq_false_2 _ Hne).
    assert (patient_teeth patient_id db <> []) as Hqs by by rewrite patient_teeth_nil.
    rewrite (bool_decide_eq_true_2 _ Hqs). cbn [negb].
    erewrite bind_Ok; [|reflexivity].
    unfold mret, View_ret. by rewrite (bool_decide_eq_true_2 _ Hqs).
Qed.

(** C4. Viewing the chart of a patient without tooth rows inserts exactly
    32 rows for that patient, with status 'healthy' and empty notes, in
    the order 18..11, 21..28, 48..41, 31..38, and nothing else; viewing the
    chart of a patient with at least one tooth row changes nothing; so a
    second view after the first inserts no row. *)
Theorem lazy_chart_initialization (now : Z) (request : HttpRequest) (patient_id : Z)
    (db : Database) (u : Z) (p : Patient.t) :
  user request = Some u ->
  find (fun p => bool_decide (Patient.id p = Some patient_id)) (patients db) = Some p ->
  (exists ctx, snd (patient_detail now request patient_id db)
               = Ok (Render "dental/patient_detail.html" ctx))
  /\ (teeth_of patient_id db = [] ->
      exists new,
        fst (patient_detail now request patient_id db) = set_teeth (teeth db ++ new) db
        /\ length new = 32%nat
        /\ (fun t => (Tooth.patient t, Tooth.tooth_number t, Tooth.status t, Tooth.notes t))
             <$> new
           = (fun n => (patient_id, n, "healthy", "")) <$> fdi_order)
  /\ (teeth_of patient_id db <> [] -> fst (patient_detail now request patient_id db) = db)
  /\ (forall now',
        fst (patient_detail now' request patient_id
               (fst (patient_detail now request patient_id db)))
        = fst (patient_detail now request patient_id db)).
Proof.
  intros Hu Hp. rewrite (patient_detail_run _ _ _ _ _ _ Hu Hp).
  split; [|split; [|split]].
  - case_bool_decide; cbn [fst snd]; eauto.
  - intros Hnil. rewrite (bool_decide_eq_true_2 _ Hnil). cbn [fst snd].
    exists (created_teeth now patient_id (next_pk (Tooth.id <$> teeth db)) tooth_numbers).
    split; [reflexivity|]. split.
    + pose proof (created_teeth_columns now patient_id
                    (next_pk (Tooth.id <$> teeth db)) tooth_numbers) as Hc.
      apply (f_equal length) in Hc. rewrite !length_fmap in Hc. rewrite Hc. reflexivity.
    + by rewrite created_teeth_columns.
  - intros Hne. by rewrite (bool_decide_eq_false_2 _ Hne).
  - intros now'. destruct (decide (teeth_of patient_id db = [])) as [Hnil|Hne].
    + rewrite (bool_decide_eq_true_2 _ Hnil). cbn [fst snd].
      rewrite (patient_detail_run _ _ _ _ u p); [|done|done].
      rewrite bool_decide_eq_false_2; [done|].
      unfold teeth_of. cbn [teeth set_teeth]. rewrite List.filter_app. intros Hf.
      apply app_eq_nil in Hf as [_ Hf].
      by apply created_teeth_filter in Hf.
    + rewrite (bool_decide_eq_false_2 _ Hne). cbn [fst snd].
      rewrite (patient_detail_run _ _ _ _ u p); [|done|done].
      by rewrite (bool_decide_eq_false_2 _ Hne).
Qed.

Lemma lazy_chart_initialization_witness :
  length (teeth (fst (patient_detail 100 staff_get 1 clinic_db))) = 32%nat
  /\ fst (patient_detail 200 staff_get 1 (fst (patient_detail 100 staff_get 1 clinic_db)))
     = fst (patient_detail 100 staff_get 1 clinic_db).
Proof.
  destruct (lazy_chart_initialization 100 staff_get 1 clinic_db 7
              (Patient.mk (Some 1) "P20250001" "Hanako" "Sato" true) eq_refl eq_refl)
    as (_ & Hfirst & _ & Hsecond).
  split; [|apply Hsecond].
  destruct (Hfirst eq_refl) as (new & -> & Hlen & _). simpl. exact Hlen.
Defined.


(** ** Tooth status update *)

Lemma canonical_statuses_choices : Tooth.TOOTH_STATUS_CHOICES.*1 = canonical_statuses.
Proof. reflexivity. Qed.

Lemma valid_status_iff (s : string) :
  existsb (fun c => String.eqb (fst c) s) Tooth.TOOTH_STATUS_CHOICES = true
  <-> s ∈ canonical_statuses.
Proof.
  rewrite existsb_exists, <- canonical_statuses_choices, list_elem_of_fmap. split.
  - intros (c & Hc & He). apply String.eqb_eq in He. exists c.
    by rewrite list_elem_of_In.
  - intros (c & -> & Hc). exists c. rewrite String.eqb_refl. by rewrite <- list_elem_of_In.
Qed.

Lemma status_body_lookup new_status notes :
  match status_body new_status notes with
  | JObject data =>
      data !! "status" = Some (JStr new_status)
      /\ default (JStr "") (data !! "notes") = JStr (default "" notes)
  | _ => False
  end.
Proof.
  unfold status_body. split; [by rewrite lookup_insert_eq|].
  rewrite lookup_insert_ne by done. destruct notes; [by rewrite lookup_singleton_eq|done].
Qed.

(** The run of [tooth_update] on a request of a logged-in user, by POST,
    for an existing tooth, whose body carries a status string and notes
    that are a string or are missing. *)
Lemma tooth_update_run now request tooth_id db u tooth new_status notes :
  user request = Some u -> method request = "POST" ->
  find (fun t => Tooth.id t =? tooth_id) (teeth db) = Some tooth ->
  body request = status_body new_status notes ->
  tooth_update now request tooth_id db =
  if bool_decide (new_status ∈ canonical_statuses) then
    (set_teeth (replace_tooth tooth_id
                  (updated_tooth now tooth new_status (default "" notes)) (teeth db)) db,
     Ok (inr (JsonSuccess (Tooth.tooth_number tooth) new_status
                (get_status_display new_status)
                (JStr (if Py.truthy (default "" notes) then default "" notes
                       else Tooth.notes tooth)))))
  else (db, Ok (inr (JsonError 400 "Invalid tooth status"))).
Proof.
  intros Hu Hm Hfind Hbody. unfold tooth_update. rewrite Hu, Hm.
  change (negb ("POST" =? "POST")%string) with false. cbv beta iota.
  unfold tooth_update_try.
  erewrite bind_Ok; [|unfold get_Tooth_or_404; by rewrite Hfind].
  rewrite Hbody.
  pose proof (status_body_lookup new_status notes) as Hl.
  destruct (status_body new_status notes) as [| |data]; [done|done|].
  destruct Hl as [-> ->].
  assert (Tooth.id tooth = tooth_id) as Hid.
  { apply find_some in Hfind as [_ Hid]. by apply Z.eqb_eq in Hid. }
  destruct (existsb _ Tooth.TOOTH_STATUS_CHOICES) eqn:Hvalid; cbn [negb].
  - apply valid_status_iff in Hvalid. rewrite (bool_decide_eq_true_2 _ Hvalid).
    unfold updated_tooth, replace_tooth, jvalue_truthy, jvalue_text.
    destruct (Py.truthy (default "" notes)); cbn; by rewrite Hid.
  - rewrite bool_decide_eq_false_2; [done|].
    intros Hin. apply valid_status_iff in Hin. congruence.
Qed.

(** C5. A requested status that is not one of the eight status values is
    refused (the JSON response with status 400, 'Invalid tooth status') and
    the database stays as it was; a requested status that is one of them is
    stored on the tooth, with the notes when the supplied notes are
    non-empty, and is returned with its display label. *)
Theorem tooth_status_update_validation (now : Z) (request : HttpRequest) (tooth_id : Z)
    (db : Database) (u : Z) (tooth : Tooth.t) (new_status : string) (notes : option string) :
  user request = Some u -> method request = "POST" ->
  find (fun t => Tooth.id t =? tooth_id) (teeth db) = Some tooth ->
  body request = status_body new_status notes ->
  (new_status ∉ canonical_statuses ->
     tooth_update now request tooth_id db
     = (db, Ok (inr (JsonError 400 "Invalid tooth status"))))
  /\ (new_status ∈ canonical_statuses ->
      exists label stored,
        (new_status, label) ∈ Tooth.TOOTH_STATUS_CHOICES
        /\ Tooth.status stored = new_status
        /\ Tooth.notes stored = (if bool_decide (default "" notes = "")
                                 then Tooth.notes tooth else default "" notes)
        /\ Tooth.id stored = tooth_id
        /\ find (fun t => Tooth.id t =? tooth_id)
             (teeth (fst (tooth_update now request tooth_id db))) = Some stored
        /\ tooth_update now request tooth_id db
           = (set_teeth (replace_tooth tooth_id stored (teeth db)) db,
              Ok (inr (JsonSuccess (Tooth.tooth_number tooth) new_status label
                         (JStr (Tooth.notes stored)))))).
Proof.
  intros Hu Hm Hfind Hbody.
  rewrite (tooth_update_run _ _ _ _ _ _ _ _ Hu Hm Hfind Hbody).
  split; intros Hs.
  - by rewrite (bool_decide_eq_false_2 _ Hs).
  - rewrite (bool_decide_eq_true_2 _ Hs).
    assert (Tooth.id tooth = tooth_id) as Hid.
    { apply find_some in Hfind as [_ Hid]. by apply Z.eqb_eq in Hid. }
    assert (forall n, (if Py.truthy n then n else Tooth.notes tooth)
                      = (if bool_decide (n = "") then Tooth.notes tooth else n)) as Hn.
    { intros [|c n]; [done|]. by rewrite bool_decide_eq_false_2. }
    exists (get_status_display new_status),
           (updated_tooth now tooth new_status (default "" notes)).
    split; [|split; [done|split; [apply Hn|split; [done|split]]]].
    + apply (bool_decide_unpack _).
      repeat (apply elem_of_cons in Hs as [->|Hs]; [by vm_compute|]).
      by apply elem_of_nil in Hs.
    + cbn [fst teeth set_teeth]. unfold replace_tooth.
      clear -Hfind Hid. induction (teeth db) as [|t l IH]; [done|].
      simpl in Hfind |- *. destruct (Tooth.id t =? tooth_id) eqn:Ht.
      * simpl. by rewrite Hid, Z.eqb_refl.
      * rewrite Ht. by apply IH.
    + reflexivity.
Qed.

Lemma tooth_status_update_validation_witness :
  (exists label stored,
     ("crown", label) ∈ Tooth.TOOTH_STATUS_CHOICES
     /\ Tooth.status stored = "crown" /\ Tooth.notes stored = "zirconia"
     /\ fst (tooth_update 20 (staff_post_json (status_body "crown" (Some "zirconia"))) 1
               chart_db)
        = set_teeth (replace_tooth 1 stored (teeth chart_db)) chart_db)
  /\ tooth_update 20 (staff_post_json (status_body "broken" None)) 1 chart_db
     = (chart_db, Ok (inr (JsonError 400 "Invalid tooth status"))).
Proof.
  split.
  - destruct (tooth_status_update_validation 20
                (staff_post_json (status_body "crown" (Some "zirconia"))) 1 chart_db 7
                (Tooth.mk 1 1 18 "healthy" "" 10) "crown" (Some "zirconia")
                eq_refl eq_refl eq_refl eq_refl) as [_ Hok].
    destruct Hok as (label & stored & Hl & Hs & Hn & _ & _ & Hrun).
    + apply (bool_decide_unpack _). by vm_compute.
    + exists label, stored. rewrite Hrun. auto.
  - refine (proj1 (tooth_status_update_validation 20
                     (staff_post_json (status_body "broken" None)) 1 chart_db 7
                     (Tooth.mk 1 1 18 "healthy" "" 10) "broken" None
                     eq_refl eq_refl eq_refl eq_refl) _).
    apply (bool_decide_unpack _). by vm_compute.
Defined.


Lemma find_replace_tooth pk row rows t :
  find (fun t => Tooth.id t =? pk) rows = Some t -> Tooth.id row = pk ->
  find (fun t => Tooth.id t =? pk) (replace_tooth pk row rows) = Some row.
Proof.
  intros Hfind Hid. unfold replace_tooth.
  induction rows as [|x l IH]; [done|].
  simpl in Hfind |- *. destruct (Tooth.id x =? pk) eqn:Hx.
  - by rewrite Hid, Z.eqb_refl.
  - rewrite Hx. by apply IH.
Qed.

Lemma replace_tooth_twice pk row1 row2 rows :
  Tooth.id row1 = pk ->
  replace_tooth pk row2 (replace_tooth pk row1 rows) = replace_tooth pk row2 rows.
Proof.
  intros Hid. unfold replace_tooth. rewrite <- list_fmap_compose.
  apply list_fmap_ext. intros _ t _. simpl.
  destruct (Tooth.id t =? pk) eqn:Ht; [|by rewrite Ht].
  by rewrite Hid, Z.eqb_refl.
Qed.

Lemma replace_tooth_columns pk row1 row2 rows :
  tooth_columns row1 = tooth_columns row2 ->
  tooth_columns <$> replace_tooth pk row1 rows = tooth_columns <$> replace_tooth pk row2 rows.
Proof.
  intros Hc. unfold replace_tooth. rewrite <- !list_fmap_compose.
  apply list_fmap_ext. intros _ t _. simpl. by destruct (Tooth.id t =? pk).
Qed.

(** The claim of C8 fails at two different clock readings: the second
    application moves [last_updated] of the tooth from 20 to 30. *)
Lemma tooth_update_twice_differs :
  fst (tooth_update 30 (staff_post_json (status_body "crown" None)) 1
         (fst (tooth_update 20 (staff_post_json (status_body "crown" None)) 1 chart_db)))
  <> fst (tooth_update 20 (staff_post_json (status_body "crown" None)) 1 chart_db).
Proof. vm_compute. discriminate. Qed.

Lemma replace_tooth_restamp pk now1 now2 tooth new_status notes rows :
  Tooth.id tooth = pk ->
  replace_tooth pk (updated_tooth now2 tooth new_status notes) rows
  = (fun t => if Tooth.id t =? pk then restamp now2 t else t)
      <$> replace_tooth pk (updated_tooth now1 tooth new_status notes) rows.
Proof.
  intros Hid. unfold replace_tooth. rewrite <- list_fmap_compose.
  apply list_fmap_ext. intros _ t _. cbn [compose].
  destruct (Tooth.id t =? pk) eqn:Ht; [|by rewrite Ht].
  cbn [updated_tooth Tooth.id]. by rewrite Hid, Z.eqb_refl.
Qed.

(** C8, amended. Applying an update with a valid status twice in a row,
    at times [now1] and [now2], leaves the database that one application
    at time [now2] leaves.  Against the state after the first application,
    the tooth table after the second is the same list of rows, each row
    identical, except that the row of the tooth has its [last_updated] set
    to [now2]: no status, no notes, no other column, no other row and no
    other table changes; the two responses are equal, and at equal times
    the second application changes nothing at all. *)
Theorem tooth_update_idempotent_up_to_last_updated (now1 now2 : Z) (request : HttpRequest)
    (tooth_id : Z) (db : Database) (u : Z) (tooth : Tooth.t) (new_status : string)
    (notes : option string) :
  user request = Some u -> method request = "POST" ->
  find (fun t => Tooth.id t =? tooth_id) (teeth db) = Some tooth ->
  body request = status_body new_status notes ->
  new_status ∈ canonical_statuses ->
  let once := tooth_update now1 request tooth_id db in
  let twice := tooth_update now2 request tooth_id (fst once) in
  fst twice = fst (tooth_update now2 request tooth_id db)
  /\ snd twice = snd once
  /\ teeth (fst twice)
     = (fun t => if Tooth.id t =? tooth_id then restamp now2 t else t) <$> teeth (fst once)
  /\ tooth_columns <$> teeth (fst twice) = tooth_columns <$> teeth (fst once)
  /\ fst twice = set_teeth (teeth (fst twice)) (fst once)
  /\ (exists stored, find (fun t => Tooth.id t =? tooth_id) (teeth (fst twice)) = Some stored
                     /\ Tooth.last_updated stored = now2)
  /\ (now1 = now2 -> fst twice = fst once).
Proof.
  intros Hu Hm Hfind Hbody Hvalid once twice. subst twice once.
  assert (Tooth.id tooth = tooth_id) as Hid.
  { apply find_some in Hfind as [_ Hid]. by apply Z.eqb_eq in Hid. }
  rewrite !(tooth_update_run _ _ _ db _ _ _ _ Hu Hm Hfind Hbody).
  rewrite (bool_decide_eq_true_2 _ Hvalid). cbn [fst snd].
  set (n := default "" notes).
  set (row1 := updated_tooth now1 tooth new_status n).
  assert (find (fun t => Tooth.id t =? tooth_id)
            (teeth (set_teeth (replace_tooth tooth_id row1 (teeth db)) db)) = Some row1)
    as Hfind1 by (by eapply find_replace_tooth).
  rewrite (tooth_update_run _ _ _ _ _ _ _ _ Hu Hm Hfind1 Hbody).
  rewrite (bool_decide_eq_true_2 _ Hvalid). cbn [fst snd teeth set_teeth]. fold n.
  assert (updated_tooth now2 row1 new_status n = updated_tooth now2 tooth new_status n)
    as Hrow.
  { unfold updated_tooth, row1. simpl. by destruct (Py.truthy n). }
  rewrite Hrow, replace_tooth_twice by done.
  split; [done|]. split.
  { unfold row1. simpl. by destruct (Py.truthy n). }
  split; [by apply replace_tooth_restamp|].
  split; [by apply replace_tooth_columns|].
  split; [done|]. split.
  - exists (updated_tooth now2 tooth new_status n). split; [|done].
    by eapply find_replace_tooth.
  - intros ->. done.
Qed.

Lemma tooth_update_idempotent_up_to_last_updated_witness :
  teeth (fst (tooth_update 30 (staff_post_json (status_body "crown" None)) 1
                (fst (tooth_update 20 (staff_post_json (status_body "crown" None)) 1
                        chart_db))))
  = (fun t => if Tooth.id t =? 1 then restamp 30 t else t)
      <$> teeth (fst (tooth_update 20 (staff_post_json (status_body "crown" None)) 1 chart_db)).
Proof.
  refine (proj1 (proj2 (proj2 (tooth_update_idempotent_up_to_last_updated 20 30
            (staff_post_json (status_body "crown" None)) 1 chart_db 7
            (Tooth.mk 1 1 18 "healthy" "" 10) "crown" None
            eq_refl eq_refl eq_refl eq_refl _)))).
  apply (bool_decide_unpack _). by vm_compute.
Defined.

(** After the two applications of the witness the row of tooth 17 is the
    one the table had, with its time of 10. *)
Example tooth_update_twice_keeps_other_rows :
  teeth (fst (tooth_update 30 (staff_post_json (status_body "crown" None)) 1
                (fst (tooth_update 20 (staff_post_json (status_body "crown" None)) 1
                        chart_db))))
  = [Tooth.mk 1 1 18 "crown" "" 30; Tooth.mk 2 1 17 "filled" "amalgam" 10].
Proof. by vm_compute. Qed.


(** ** Exam creation *)

Lemma for_bind {A B : Type} (l : list A) (f : A -> list B) (body : B -> View unit) db :
  for_ (l ≫= f) body db = for_ l (fun x => for_ (f x) body) db.
Proof.
  revert db. induction l as [|x l IH]; intros db; [done|].
  change ((x :: l) ≫= f) with (f x ++ (l ≫= f)). rewrite for_app. simpl.
  unfold mbind at 2, View_bind.
  destruct (for_ (f x) body db) as [db1 [[]|e]]; [apply IH|done].
Qed.

Lemma for_ext {A : Type} (l : list A) (body1 body2 : A -> View unit) db :
  (forall x db, body1 x db = body2 x db) -> for_ l body1 db = for_ l body2 db.
Proof.
  intros Hext. revert db. induction l as [|x l IH]; intros db; [done|].
  simpl. unfold mbind, View_bind. rewrite Hext.
  destruct (body2 x db) as [db1 [[]|e]]; [apply IH|done].
Qed.

(** The three nested loops visit the combinations of [canonical_keys]. *)
Lemma nested_loops_canonical (body : Z -> string -> string -> View unit) db :
  for_ tooth_numbers (fun t => for_ surfaces (fun s => for_ positions (fun p => body t s p))) db
  = for_ canonical_keys (fun k => body k.1.1 k.1.2 k.2) db.
Proof.
  unfold canonical_keys. rewrite for_bind. apply for_ext. intros t db1.
  rewrite for_bind. apply for_ext. intros s db2.
  rewrite for_bind. apply for_ext. intros p db3.
  simpl. unfold mbind, View_bind. by destruct (body t s p db3) as [db4 [[]|e]].
Qed.

Lemma set_tooth_measurements_id db : set_tooth_measurements (tooth_measurements db) db = db.
Proof. by destruct db. Qed.

Lemma field_name_depth t s p : field_name "depth" (t, s, p) = depth_field t s p.
Proof. reflexivity. Qed.

Lemma field_name_bleeding t s p : field_name "bleeding" (t, s, p) = bleeding_field t s p.
Proof. reflexivity. Qed.

Lemma field_name_calculus t s p : field_name "calculus" (t, s, p) = calculus_field t s p.
Proof. reflexivity. Qed.

Lemma sqlite_integer_bounds n :
  sqlite_integer n = (-9223372036854775808 <=? n) && (n <=? 9223372036854775807).
Proof.
  unfold sqlite_integer. change (- 2 ^ 63) with (-9223372036854775808).
  change (2 ^ 63) with 9223372036854775808.
  apply eq_true_iff_eq. rewrite !andb_true_iff, !Z.leb_le, Z.ltb_lt. lia.
Qed.

(** One turn of the innermost loop, by what the form says. *)
Lemma process_measurement_run post exam t s p db :
  (forall m, m ∈ tooth_measurements db -> ToothMeasurement.exam m = exam ->
             measurement_key m <> (t, s, p)) ->
  process_measurement post exam t s p db =
  match submitted post (t, s, p) with
  | Blank => (db, Ok tt)
  | Malformed => (db, Raise ValueError)
  | OutOfRange _ => (db, Raise OverflowError)
  | Depth n =>
      (set_tooth_measurements
         (tooth_measurements db
          ++ [ToothMeasurement.mk (next_pk (ToothMeasurement.id <$> tooth_measurements db))
                exam t p s n (checked post (field_name "bleeding" (t, s, p)))
                (checked post (field_name "calculus" (t, s, p))) None]) db, Ok tt)
  end.
Proof.
  intros Hfree. unfold process_measurement, submitted.
  rewrite field_name_depth, field_name_bleeding, field_name_calculus.
  destruct (post !! depth_field t s p) as [d|]; [|done].
  destruct (Py.truthy d && Py.truthy (Py.str_strip d)); [|done].
  destruct (Py.int d) as [n|]; [|done].
  rewrite <- sqlite_integer_bounds.
  destruct (sqlite_integer n) eqn:Hrange.
  2:{ erewrite bind_Raise; [reflexivity|].
      unfold ToothMeasurement_objects_create. by rewrite Hrange. }
  erewrite bind_Ok; [reflexivity|].
  unfold ToothMeasurement_objects_create. rewrite Hrange. cbn [negb].
  destruct (existsb _ (tooth_measurements db)) eqn:Hex; [exfalso|done].
  apply existsb_exists in Hex as (m & Hm & Hc).
  repeat (apply andb_true_iff in Hc as [Hc ?]).
  apply list_elem_of_In in Hm. apply (Hfree m Hm).
  - by apply Z.eqb_eq.
  - unfold measurement_key. f_equal; [f_equal|].
    + by apply Z.eqb_eq.
    + by apply String.eqb_eq.
    + by apply String.eqb_eq.
Qed.

Lemma measurement_rows_keys post exam pk keys m :
  m ∈ measurement_rows post exam pk keys ->
  ToothMeasurement.exam m = exam /\ measurement_key m ∈ keys
  /\ ToothMeasurement.mobility m = None.
Proof.
  revert pk. induction keys as [|[[t s] p] ks IH]; intros pk Hm; cbn [measurement_rows] in Hm.
  - by apply elem_of_nil in Hm.
  - assert (forall pk', m ∈ measurement_rows post exam pk' ks ->
              ToothMeasurement.exam m = exam /\ measurement_key m ∈ (t, s, p) :: ks
              /\ ToothMeasurement.mobility m = None) as IH'.
    { intros pk' H'. destruct (IH pk' H') as (? & ? & ?).
      split; [done|]. split; [by apply list_elem_of_further|done]. }
    destruct (submitted post (t, s, p)); eauto.
    apply elem_of_cons in Hm as [->|Hm]; [|eauto].
    split; [done|]. split; [apply list_elem_of_here|done].
Qed.

(** The loop over combinations none of which is refused inserts the rows
    of [measurement_rows] and ends normally. *)
Lemma for_process_well_formed post exam keys db :
  NoDup keys ->
  (forall k, k ∈ keys -> refusal (submitted post k) = None) ->
  (forall m, m ∈ tooth_measurements db -> ToothMeasurement.exam m = exam ->
             measurement_key m ∉ keys) ->
  for_ keys (fun k => process_measurement post exam k.1.1 k.1.2 k.2) db
  = (set_tooth_measurements
       (tooth_measurements db
        ++ measurement_rows post exam (next_pk (ToothMeasurement.id <$> tooth_measurements db))
             keys) db, Ok tt).
Proof.
  revert db. induction keys as [|[[t s] p] ks IH]; intros db Hnd Hwf Hfree.
  - simpl. by rewrite app_nil_r, set_tooth_measurements_id.
  - apply NoDup_cons in Hnd as [Hk Hnd].
    cbn [for_ fst snd].
    pose proof (process_measurement_run post exam t s p db) as Hrun.
    lapply Hrun; [clear Hrun; intros Hrun|].
    2:{ intros m Hm He Hkey. apply (Hfree m Hm He). rewrite Hkey. apply list_elem_of_here. }
    pose proof (Hwf (t, s, p) (list_elem_of_here _ _)) as Hnm.
    cbn [measurement_rows].
    destruct (submitted post (t, s, p)) as [| |n|n]; [|done|done|].
    + erewrite bind_Ok; [|exact Hrun]. apply IH; [done| |].
      * intros k Hk'. apply Hwf. by apply list_elem_of_further.
      * intros m Hm He Hin. apply (Hfree m Hm He). by apply list_elem_of_further.
    + erewrite bind_Ok; [|exact Hrun]. rewrite IH; [|done| |].
      * cbn [tooth_measurements set_tooth_measurements]. f_equal.
        unfold set_tooth_measurements. cbn. f_equal.
        rewrite fmap_app. cbn [fmap list_fmap ToothMeasurement.id].
        rewrite next_pk_snoc. by rewrite <- app_assoc.
      * intros k Hk'. apply Hwf. by apply list_elem_of_further.
      * cbn [tooth_measurements set_tooth_measurements]. intros m Hm He Hin.
        apply elem_of_app in Hm as [Hm|Hm].
        -- apply (Hfree m Hm He). by apply list_elem_of_further.
        -- apply list_elem_of_singleton in Hm as ->. by apply Hk.
Qed.

(** The loop over combinations the first refused of which is [k] inserts
    the rows of the combinations before [k] and raises the exception of
    [k]. *)
Lemma for_process_malformed post exam pre k suf db e :
  NoDup (pre ++ k :: suf) ->
  (forall k', k' ∈ pre -> refusal (submitted post k') = None) ->
  refusal (submitted post k) = Some e ->
  (forall m, m ∈ tooth_measurements db -> ToothMeasurement.exam m = exam ->
             measurement_key m ∉ pre ++ k :: suf) ->
  for_ (pre ++ k :: suf) (fun k => process_measurement post exam k.1.1 k.1.2 k.2) db
  = (set_tooth_measurements
       (tooth_measurements db
        ++ measurement_rows post exam (next_pk (ToothMeasurement.id <$> tooth_measurements db))
             pre) db, Raise e).
Proof.
  intros Hnd Hwf Hk Hfree. rewrite for_app.
  apply NoDup_app in Hnd as (Hnd1 & Hdisj & Hnd2).
  rewrite for_process_well_formed; [|done|done|].
  2:{ intros m Hm He Hin. apply (Hfree m Hm He). apply elem_of_app. by left. }
  cbn [for_]. erewrite bind_Raise; [reflexivity|].
  destruct k as [[t s] p]. cbn [fst snd].
  rewrite process_measurement_run.
  { destruct (submitted post (t, s, p)); cbn [refusal] in Hk; by simplify_eq. }
  cbn [tooth_measurements set_tooth_measurements]. intros m Hm He Hkey.
  apply elem_of_app in Hm as [Hm|Hm].
  - apply (Hfree m Hm He). rewrite Hkey. apply elem_of_app. right. apply list_elem_of_here.
  - apply measurement_rows_keys in Hm as (_ & Hin & _).
    apply (Hdisj _ Hin). rewrite Hkey. apply list_elem_of_here.
Qed.

Lemma NoDup_canonical_keys : NoDup canonical_keys.
Proof. apply (bool_decide_unpack (NoDup canonical_keys)). vm_compute. exact I. Qed.

Lemma length_canonical_keys : length canonical_keys = 192%nat.
Proof. reflexivity. Qed.

(** The combinations are the 32 tooth numbers by the two surfaces by the
    three positions. *)
Lemma elem_of_canonical_keys (t : Z) (s p : string) :
  (t, s, p) ∈ canonical_keys
  <-> t ∈ fdi_order /\ s ∈ ["buccal"; "lingual"] /\ p ∈ ["mesial"; "middle"; "distal"].
Proof.
  unfold canonical_keys. rewrite <- tooth_numbers_fdi.
  change ["buccal"; "lingual"] with surfaces.
  change ["mesial"; "middle"; "distal"] with positions.
  rewrite list_elem_of_bind. split.
  - intros (t' & Hin & Ht). apply list_elem_of_bind in Hin as (s' & Hin & Hs).
    apply list_elem_of_bind in Hin as (p' & Hin & Hp).
    apply list_elem_of_singleton in Hin. by simplify_eq.
  - intros (Ht & Hs & Hp). exists t. split; [|done].
    apply list_elem_of_bind. exists s. split; [|done].
    apply list_elem_of_bind. exists p. split; [|done].
    by apply list_elem_of_singleton.
Qed.

Section exam_create_facts.
Variable to_python_date : string -> option Z.

(** The run of [periodontal_exam_create] up to the loops: a logged-in user
    posts the form for an existing patient with a date Django accepts. *)
Lemma periodontal_exam_create_loops now request patient_id db u pat text d :
  user request = Some u ->
  find (fun p => bool_decide (Patient.id p = Some patient_id)) (patients db) = Some pat ->
  method request = "POST" ->
  POST request !! "exam_date" = Some text -> to_python_date text = Some d ->
  periodontal_exam_create to_python_date now request patient_id db =
  let exam := PeriodontalExam.mk (next_pk (PeriodontalExam.id <$> periodontal_exams db))
                patient_id d (Some u) (default "" (POST request !! "notes")) now in
  match for_ canonical_keys
          (fun k => process_measurement (POST request) (PeriodontalExam.id exam) k.1.1 k.1.2 k.2)
          (set_periodontal_exams (periodontal_exams db ++ [exam]) db) with
  | (db', Ok _) => (db', Ok (Redirect "periodontal_exam_detail" (PeriodontalExam.id exam)))
  | (db', Raise e) => (db', Raise e)
  end.
Proof.
  intros Hu Hp Hm Hdate Hd. unfold periodontal_exam_create. rewrite Hu.
  erewrite bind_Ok; [|unfold get_Patient_or_404; by rewrite Hp].
  rewrite Hm. change (("POST" =? "POST")%string) with true. cbv beta iota.
  erewrite bind_Ok; [|unfold PeriodontalExam_objects_create; by rewrite Hdate, Hd].
  cbv zeta. unfold mbind at 1, View_bind at 1.
  rewrite nested_loops_canonical. cbn [PeriodontalExam.id].
  by destruct (for_ canonical_keys _ _) as [db' [[]|e]].
Qed.

(** A date Django rejects: nothing is written. *)
Lemma periodontal_exam_create_bad_date now request patient_id db u pat text :
  user request = Some u ->
  find (fun p => bool_decide (Patient.id p = Some patient_id)) (patients db) = Some pat ->
  method request = "POST" ->
  POST request !! "exam_date" = Some text -> to_python_date text = None ->
  periodontal_exam_create to_python_date now request patient_id db = (db, Raise ValidationError).
Proof.
  intros Hu Hp Hm Hdate Hd. unfold periodontal_exam_create. rewrite Hu.
  erewrite bind_Ok; [|unfold get_Patient_or_404; by rewrite Hp].
  rewrite Hm. change (("POST" =? "POST")%string) with true. cbv beta iota.
  erewrite bind_Raise; [reflexivity|].
  unfold PeriodontalExam_objects_create. by rewrite Hdate, Hd.
Qed.

(** No measurement of the table belongs to the exam about to be created. *)
Lemma new_exam_has_no_measurements db m :
  measurements_reference_exams db -> m ∈ tooth_measurements db ->
  ToothMeasurement.exam m <> next_pk (PeriodontalExam.id <$> periodontal_exams db).
Proof.
  intros Hfk Hm He. specialize (Hfk m Hm). apply next_pk_fresh in Hfk. lia.
Qed.

(** The run when no submitted depth is malformed. *)
Lemma periodontal_exam_create_well_formed now request patient_id db u pat text d :
  user request = Some u ->
  find (fun p => bool_decide (Patient.id p = Some patient_id)) (patients db) = Some pat ->
  method request = "POST" ->
  POST request !! "exam_date" = Some text -> to_python_date text = Some d ->
  measurements_reference_exams db ->
  (forall k, k ∈ canonical_keys -> refusal (submitted (POST request) k) = None) ->
  periodontal_exam_create to_python_date now request patient_id db =
  let e := next_pk (PeriodontalExam.id <$> periodontal_exams db) in
  (mkDatabase (patients db) (invoices db) (teeth db)
     (periodontal_exams db
      ++ [PeriodontalExam.mk e patient_id d (Some u) (default "" (POST request !! "notes")) now])
     (tooth_measurements db
      ++ measurement_rows (POST request) e
           (next_pk (ToothMeasurement.id <$> tooth_measurements db)) canonical_keys),
   Ok (Redirect "periodontal_exam_detail" e)).
Proof.
  intros Hu Hp Hm Hdate Hd Hfk Hwf.
  rewrite (periodontal_exam_create_loops _ _ _ _ _ _ _ _ Hu Hp Hm Hdate Hd).
  cbv zeta. cbn [PeriodontalExam.id].
  rewrite for_process_well_formed; [done|apply NoDup_canonical_keys|done|].
  cbn [tooth_measurements set_periodontal_exams]. intros m Hin He.
  by destruct (new_exam_has_no_measurements db m Hfk Hin).
Qed.

(** The run when [k] is the first combination with a refused depth. *)
Lemma periodontal_exam_create_malformed now request patient_id db u pat text d pre k suf ex :
  user request = Some u ->
  find (fun p => bool_decide (Patient.id p = Some patient_id)) (patients db) = Some pat ->
  method request = "POST" ->
  POST request !! "exam_date" = Some text -> to_python_date text = Some d ->
  measurements_reference_exams db ->
  canonical_keys = pre ++ k :: suf ->
  (forall k', k' ∈ pre -> refusal (submitted (POST request) k') = None) ->
  refusal (submitted (POST request) k) = Some ex ->
  periodontal_exam_create to_python_date now request patient_id db =
  let e := next_pk (PeriodontalExam.id <$> periodontal_exams db) in
  (mkDatabase (patients db) (invoices db) (teeth db)
     (periodontal_exams db
      ++ [PeriodontalExam.mk e patient_id d (Some u) (default "" (POST request !! "notes")) now])
     (tooth_measurements db
      ++ measurement_rows (POST request) e
           (next_pk (ToothMeasurement.id <$> tooth_measurements db)) pre),
   Raise ex).
Proof.
  intros Hu Hp Hm Hdate Hd Hfk Hsplit Hwf Hk.
  rewrite (periodontal_exam_create_loops _ _ _ _ _ _ _ _ Hu Hp Hm Hdate Hd).
  cbv zeta. cbn [PeriodontalExam.id]. rewrite Hsplit.
  rewrite (for_process_malformed _ _ _ _ _ _ ex); [done| |done|done|].
  - rewrite <- Hsplit. apply NoDup_canonical_keys.
  - cbn [tooth_measurements set_periodontal_exams]. intros m Hin He.
    by destruct (new_exam_has_no_measurements db m Hfk Hin).
Qed.

End exam_create_facts.

(** ** Rows written by exam creation *)

Lemma adds_null_mobility_refl db : adds_null_mobility db db.
Proof. exists []. by rewrite app_nil_r. Qed.

Lemma adds_null_mobility_trans db1 db2 db3 :
  adds_null_mobility db1 db2 -> adds_null_mobility db2 db3 -> adds_null_mobility db1 db3.
Proof.
  intros (n1 & H1 & F1) (n2 & H2 & F2). exists (n1 ++ n2).
  split; [by rewrite H2, H1, app_assoc|by apply Forall_app].
Qed.

Lemma bind_adds_null_mobility {A B : Type} (m : View A) (f : A -> View B) db :
  adds_null_mobility db (fst (m db)) ->
  (forall a db1, adds_null_mobility db1 (fst (f a db1))) ->
  adds_null_mobility db (fst ((m ≫= f) db)).
Proof.
  intros Hm Hf. unfold mbind, View_bind. destruct (m db) as [db1 [a|e]]; [|done].
  eapply adds_null_mobility_trans; [exact Hm|apply Hf].
Qed.

Lemma for_adds_null_mobility {A : Type} (l : list A) (body : A -> View unit) db :
  (forall x db1, adds_null_mobility db1 (fst (body x db1))) ->
  adds_null_mobility db (fst (for_ l body db)).
Proof.
  intros Hbody. revert db. induction l as [|x l IH]; intros db.
  - apply adds_null_mobility_refl.
  - simpl. apply bind_adds_null_mobility; [apply Hbody|]. intros _ db1. apply IH.
Qed.

Lemma create_measurement_adds_null_mobility exam t s p n b c db :
  adds_null_mobility db (fst (ToothMeasurement_objects_create exam t s p n b c db)).
Proof.
  unfold ToothMeasurement_objects_create.
  destruct (negb _); [apply adds_null_mobility_refl|].
  destruct (existsb _ _); [apply adds_null_mobility_refl|].
  eexists. split; [reflexivity|]. by repeat constructor.
Qed.

Lemma process_measurement_adds_null_mobility post exam t s p db :
  adds_null_mobility db (fst (process_measurement post exam t s p db)).
Proof.
  unfold process_measurement.
  destruct (post !! depth_field t s p) as [d|]; [|apply adds_null_mobility_refl].
  destruct (Py.truthy d && Py.truthy (Py.str_strip d)); [|apply adds_null_mobility_refl].
  destruct (Py.int d) as [n|]; [|apply adds_null_mobility_refl].
  apply bind_adds_null_mobility; [apply create_measurement_adds_null_mobility|].
  intros _ db1. apply adds_null_mobility_refl.
Qed.

(** C10. Whatever the request, the measurement rows that
    [periodontal_exam_create] leaves in the table beyond those that were
    there all have mobility NULL: the view never passes a mobility. *)
Theorem created_measurements_have_null_mobility (to_python_date : string -> option Z)
    (now : Z) (request : HttpRequest) (patient_id : Z) (db : Database) :
  exists new,
    tooth_measurements (fst (periodontal_exam_create to_python_date now request patient_id db))
    = tooth_measurements db ++ new
    /\ forall m, m ∈ new -> ToothMeasurement.mobility m = None.
Proof.
  assert (adds_null_mobility db
            (fst (periodontal_exam_create to_python_date now request patient_id db)))
    as (new & Hnew & Hall).
  { unfold periodontal_exam_create. destruct (user request) as [u|];
      [|apply adds_null_mobility_refl].
    apply bind_adds_null_mobility.
    { unfold get_Patient_or_404. destruct (find _ _); apply adds_null_mobility_refl. }
    intros pat db1. destruct (String.eqb _ _); [|apply adds_null_mobility_refl].
    apply bind_adds_null_mobility.
    { unfold PeriodontalExam_objects_create.
      destruct (POST request !! "exam_date") as [text|]; [|apply adds_null_mobility_refl].
      destruct (to_python_date text); [|apply adds_null_mobility_refl].
      exists []. by rewrite app_nil_r. }
    intros exam db2. apply bind_adds_null_mobility; [|intros; apply adds_null_mobility_refl].
    apply for_adds_null_mobility. intros t db3.
    apply for_adds_null_mobility. intros s db4.
    apply for_adds_null_mobility. intros p db5.
    apply process_measurement_adds_null_mobility. }
  exists new. split; [done|]. by apply Forall_forall.
Qed.

(** ** The keys of the rows of a created exam *)

(** Either no combination of [keys] is refused, or there is a first
    refused one. *)
Lemma first_malformed post (keys : list key) :
  (forall k, k ∈ keys -> refusal (submitted post k) = None)
  \/ exists pre k suf ex, keys = pre ++ k :: suf
                          /\ (forall k', k' ∈ pre -> refusal (submitted post k') = None)
                          /\ refusal (submitted post k) = Some ex
                          /\ (ex = ValueError \/ ex = OverflowError).
Proof.
  induction keys as [|k ks IH].
  - left. intros k Hk. by apply elem_of_nil in Hk.
  - destruct (refusal (submitted post k)) as [ex|] eqn:Hk.
    + right. exists [], k, ks, ex. split; [done|]. split.
      { intros k' Hk'. by apply elem_of_nil in Hk'. }
      split; [done|]. destruct (submitted post k); cbn [refusal] in Hk; simplify_eq; auto.
    + destruct IH as [IH|(pre & k0 & suf & ex & -> & Hpre & Hk0 & Hex)].
      * left. intros k' Hk'. apply elem_of_cons in Hk' as [->|Hk']; auto.
      * right. exists (k :: pre), k0, suf, ex. split; [done|]. split; [|done].
        intros k' Hk'. apply elem_of_cons in Hk' as [->|Hk']; auto.
Qed.

Lemma measurement_rows_sublist post exam pk keys :
  measurement_key <$> measurement_rows post exam pk keys `sublist_of` keys.
Proof.
  revert pk. induction keys as [|[[t s] p] ks IH]; intros pk; cbn [measurement_rows].
  - constructor.
  - destruct (submitted post (t, s, p)).
    + by apply sublist_cons.
    + by apply sublist_cons.
    + by apply sublist_cons.
    + simpl. by apply sublist_skip.
Qed.

Lemma filter_exam_rows post exam pk keys :
  List.filter (fun m => ToothMeasurement.exam m =? exam) (measurement_rows post exam pk keys)
  = measurement_rows post exam pk keys.
Proof.
  revert pk. induction keys as [|[[t s] p] ks IH]; intros pk; cbn [measurement_rows]; [done|].
  destruct (submitted post (t, s, p)); [done|done|done|].
  simpl. by rewrite Z.eqb_refl, IH.
Qed.

Lemma filter_none {A : Type} (f : A -> bool) (l : list A) :
  (forall x, x ∈ l -> f x = false) -> List.filter f l = [].
Proof.
  induction l as [|x l IH]; intros Hf; [done|]. simpl.
  rewrite (Hf x (list_elem_of_here _ _)). apply IH.
  intros y Hy. apply Hf. by apply list_elem_of_further.
Qed.

Section exam_rows.
Variable to_python_date : string -> option Z.

(** What a creation that got past the date leaves behind: the exam row and
    the measurement rows of a prefix of the combinations, all of them when
    the view returns its redirect. *)
Lemma periodontal_exam_create_outcome now request patient_id db u pat text d :
  user request = Some u ->
  find (fun p => bool_decide (Patient.id p = Some patient_id)) (patients db) = Some pat ->
  method request = "POST" ->
  POST request !! "exam_date" = Some text -> to_python_date text = Some d ->
  measurements_reference_exams db ->
  let e := next_pk (PeriodontalExam.id <$> periodontal_exams db) in
  let r := periodontal_exam_create to_python_date now request patient_id db in
  exists pre suf,
    canonical_keys = pre ++ suf
    /\ fst r = mkDatabase (patients db) (invoices db) (teeth db)
                 (periodontal_exams db
                  ++ [PeriodontalExam.mk e patient_id d (Some u)
                        (default "" (POST request !! "notes")) now])
                 (tooth_measurements db
                  ++ measurement_rows (POST request) e
                       (next_pk (ToothMeasurement.id <$> tooth_measurements db)) pre)
    /\ exam_measurements e (fst r)
       = measurement_rows (POST request) e
           (next_pk (ToothMeasurement.id <$> tooth_measurements db)) pre
    /\ (snd r = Ok (Redirect "periodontal_exam_detail" e) /\ suf = []
        \/ (snd r = Raise ValueError \/ snd r = Raise OverflowError) /\ suf <> []).
Proof.
  intros Hu Hp Hm Hdate Hd Hfk e r.
  assert (forall ks, exam_measurements e
            (mkDatabase (patients db) (invoices db) (teeth db)
               (periodontal_exams db
                ++ [PeriodontalExam.mk e patient_id d (Some u)
                      (default "" (POST request !! "notes")) now])
               (tooth_measurements db
                ++ measurement_rows (POST request) e
                     (next_pk (ToothMeasurement.id <$> tooth_measurements db)) ks))
          = measurement_rows (POST request) e
              (next_pk (ToothMeasurement.id <$> tooth_measurements db)) ks) as Hrows.
  { intros ks. unfold exam_measurements. cbn [tooth_measurements].
    rewrite List.filter_app, filter_exam_rows, filter_none; [done|].
    intros m Hin. apply Z.eqb_neq. by apply new_exam_has_no_measurements. }
  destruct (first_malformed (POST request) canonical_keys)
    as [Hwf|(pre & k & suf & ex & Hsplit & Hpre & Hk & Hex)].
  - exists canonical_keys, []. subst r.
    rewrite (periodontal_exam_create_well_formed _ _ _ _ _ _ _ _ _ Hu Hp Hm Hdate Hd Hfk Hwf).
    cbv zeta. cbn [fst snd]. rewrite app_nil_r, Hrows.
    split; [done|]. split; [done|]. split; [done|]. by left.
  - exists pre, (k :: suf). subst r.
    rewrite (periodontal_exam_create_malformed _ _ _ _ _ _ _ _ _ _ _ _ _
               Hu Hp Hm Hdate Hd Hfk Hsplit Hpre Hk).
    cbv zeta. cbn [fst snd]. rewrite Hrows.
    split; [done|]. split; [done|]. split; [done|]. right.
    split; [|done]. destruct Hex as [->| ->]; auto.
Qed.

(** C7. The measurement rows of an exam that [periodontal_exam_create]
    produced have pairwise different keys (tooth number, surface,
    position), and each key is one of the 192 combinations of the 32 tooth
    numbers with the surfaces buccal and lingual and the positions mesial,
    middle and distal. *)
Theorem measurement_keys_canonical_and_distinct (now : Z) (request : HttpRequest)
    (patient_id : Z) (db : Database) (u : Z) (pat : Patient.t) (text : string) (d : Z) :
  user request = Some u ->
  find (fun p => bool_decide (Patient.id p = Some patient_id)) (patients db) = Some pat ->
  method request = "POST" ->
  POST request !! "exam_date" = Some text -> to_python_date text = Some d ->
  measurements_reference_exams db ->
  let e := next_pk (PeriodontalExam.id <$> periodontal_exams db) in
  let db' := fst (periodontal_exam_create to_python_date now request patient_id db) in
  (exists exam, exam ∈ periodontal_exams db' /\ PeriodontalExam.id exam = e)
  /\ NoDup (measurement_key <$> exam_measurements e db')
  /\ (forall m, m ∈ exam_measurements e db' ->
        ToothMeasurement.tooth_number m ∈ fdi_order
        /\ ToothMeasurement.surface m ∈ ["buccal"; "lingual"]
        /\ ToothMeasurement.position m ∈ ["mesial"; "middle"; "distal"])
  /\ (length (exam_measurements e db') <= 192)%nat.
Proof.
  intros Hu Hp Hm Hdate Hd Hfk e db'.
  destruct (periodontal_exam_create_outcome now request patient_id db u pat text d
              Hu Hp Hm Hdate Hd Hfk) as (pre & suf & Hsplit & Hdb & Hrows & _).
  fold e in Hdb, Hrows. fold db' in Hdb, Hrows. rewrite Hrows.
  assert (measurement_key <$> measurement_rows (POST request) e
            (next_pk (ToothMeasurement.id <$> tooth_measurements db)) pre
          `sublist_of` canonical_keys) as Hsub.
  { rewrite Hsplit. apply sublist_inserts_r, measurement_rows_sublist. }
  split; [|split; [|split]].
  - rewrite Hdb. cbn [periodontal_exams].
    exists (PeriodontalExam.mk e patient_id d (Some u)
              (default "" (POST request !! "notes")) now).
    split; [|reflexivity]. apply elem_of_app. right. by apply list_elem_of_singleton.
  - eapply sublist_NoDup; [apply NoDup_canonical_keys|exact Hsub].
  - intros m Hin. apply elem_of_canonical_keys.
    eapply elem_of_sublist; [|exact Hsub].
    apply list_elem_of_fmap. by exists m.
  - apply sublist_length in Hsub. by rewrite length_fmap in Hsub.
Qed.

End exam_rows.

Lemma clinic_db_references : measurements_reference_exams clinic_db.
Proof. intros m Hm. by apply elem_of_nil in Hm. Qed.

Lemma measurement_keys_canonical_and_distinct_witness :
  NoDup (measurement_key
           <$> exam_measurements 1
                 (fst (periodontal_exam_create IsoDate.to_python 100 (staff_post post_sparse) 1
                         clinic_db)))
  /\ (length (exam_measurements 1
                (fst (periodontal_exam_create IsoDate.to_python 100 (staff_post post_sparse) 1
                        clinic_db))) <= 192)%nat.
Proof.
  destruct (measurement_keys_canonical_and_distinct IsoDate.to_python 100
              (staff_post post_sparse) 1 clinic_db 7
              (Patient.mk (Some 1) "P20250001" "Hanako" "Sato" true) "2025-03-01" 739311
              eq_refl eq_refl eq_refl eq_refl eq_refl clinic_db_references)
    as (_ & Hnd & _ & Hlen).
  split; [exact Hnd|exact Hlen].
Defined.

(** ** Atomicity of creation *)

(** The claim of C6 fails on a form whose second depth is malformed: the
    view raises [ValueError], and the exam row and the measurement row of
    the depth before the malformed one are in the database. *)
Lemma malformed_depth_leaves_partial_exam :
  let r := periodontal_exam_create IsoDate.to_python 100 (staff_post post_malformed) 1
             clinic_db in
  snd r = Raise ValueError
  /\ periodontal_exams (fst r) = [PeriodontalExam.mk 1 1 739311 (Some 7) "" 100]
  /\ tooth_measurements (fst r)
     = [ToothMeasurement.mk 1 1 18 "mesial" "buccal" 4 false false None]
  /\ fst r <> clinic_db.
Proof. vm_compute. repeat split. discriminate. Qed.

Lemma plain_depths_sample (post : gmap string string) :
  forallb (fun k => match post !! field_name "depth" k with
                    | Some d => Py.plain d
                    | None => true
                    end) canonical_keys = true ->
  plain_depths post.
Proof.
  intros Hall k d Hk Hd. rewrite forallb_forall in Hall.
  apply list_elem_of_In in Hk. specialize (Hall k Hk). by rewrite Hd in Hall.
Qed.

Lemma post_malformed_plain : plain_depths post_malformed.
Proof. apply plain_depths_sample. by vm_compute. Qed.

Lemma post_too_large_plain : plain_depths post_too_large.
Proof. apply plain_depths_sample. by vm_compute. Qed.

(** A depth beyond the integers of the database stops the creation in the
    same way, with [OverflowError]. *)
Example too_large_depth_leaves_partial_exam :
  let r := periodontal_exam_create IsoDate.to_python 100 (staff_post post_too_large) 1
             clinic_db in
  snd r = Raise OverflowError
  /\ periodontal_exams (fst r) = [PeriodontalExam.mk 1 1 739311 (Some 7) "" 100]
  /\ tooth_measurements (fst r)
     = [ToothMeasurement.mk 1 1 18 "mesial" "buccal" 4 false false None].
Proof. vm_compute. repeat split. Qed.

Section atomicity.
Variable to_python_date : string -> option Z.

(** C6, amended. Exam creation writes row by row and nothing is rolled
    back.  For a form whose depths are plain text: with a date Django
    rejects, the creation fails with [ValidationError] before anything is
    written.  Otherwise the exam row is written; when every submitted depth
    is an integer literal within the integers of the database, all
    measurement rows follow and the view redirects; when some depth is
    refused, the view fails, with [ValueError] at a malformed depth and
    with [OverflowError] at an integer beyond the database's, and the exam
    row and the measurement rows of the combinations before the first
    refused one stay.  Chart initialization, whatever the request, writes
    its 32 rows or none. *)
Theorem creation_commits_row_by_row (now : Z) :
  (forall (request : HttpRequest) (patient_id : Z) (db : Database) (u : Z) (pat : Patient.t)
          (text : string),
     user request = Some u ->
     find (fun p => bool_decide (Patient.id p = Some patient_id)) (patients db) = Some pat ->
     method request = "POST" ->
     POST request !! "exam_date" = Some text ->
     measurements_reference_exams db ->
     plain_depths (POST request) ->
     let e := next_pk (PeriodontalExam.id <$> periodontal_exams db) in
     let pk := next_pk (ToothMeasurement.id <$> tooth_measurements db) in
     let r := periodontal_exam_create to_python_date now request patient_id db in
     (to_python_date text = None -> r = (db, Raise ValidationError))
     /\ (forall d, to_python_date text = Some d ->
           let exam := PeriodontalExam.mk e patient_id d (Some u)
                         (default "" (POST request !! "notes")) now in
           ((forall k, k ∈ canonical_keys -> refusal (submitted (POST request) k) = None) ->
              r = (mkDatabase (patients db) (invoices db) (teeth db)
                     (periodontal_exams db ++ [exam])
                     (tooth_measurements db
                      ++ measurement_rows (POST request) e pk canonical_keys),
                   Ok (Redirect "periodontal_exam_detail" e)))
           /\ (forall pre k suf,
                 canonical_keys = pre ++ k :: suf ->
                 (forall k', k' ∈ pre -> refusal (submitted (POST request) k') = None) ->
                 let partial :=
                   mkDatabase (patients db) (invoices db) (teeth db)
                     (periodontal_exams db ++ [exam])
                     (tooth_measurements db ++ measurement_rows (POST request) e pk pre) in
                 (submitted (POST request) k = Malformed -> r = (partial, Raise ValueError))
                 /\ (forall n, submitted (POST request) k = OutOfRange n ->
                               r = (partial, Raise OverflowError)))))
  /\ (forall (request : HttpRequest) (patient_id : Z) (db : Database),
        fst (patient_detail now request patient_id db) = db
        \/ exists new, fst (patient_detail now request patient_id db)
                       = set_teeth (teeth db ++ new) db
                       /\ length new = 32%nat).
Proof.
  split.
  - intros request patient_id db u pat text Hu Hp Hm Hdate Hfk _ e pk r. subst r. split.
    + intros Hd. by eapply periodontal_exam_create_bad_date.
    + intros d Hd exam. split.
      * intros Hwf. by eapply periodontal_exam_create_well_formed.
      * intros pre k suf Hsplit Hpre partial. split.
        -- intros Hk. eapply periodontal_exam_create_malformed; eauto. by rewrite Hk.
        -- intros n Hk. eapply periodontal_exam_create_malformed; eauto. by rewrite Hk.
  - intros request patient_id db.
    destruct (user request) as [u|] eqn:Hu.
    2:{ left. unfold patient_detail. by rewrite Hu. }
    destruct (find (fun p => bool_decide (Patient.id p = Some patient_id)) (patients db))
      as [pat|] eqn:Hp.
    2:{ left. unfold patient_detail. rewrite Hu.
        erewrite bind_Raise; [reflexivity|]. unfold get_Patient_or_404. by rewrite Hp. }
    rewrite (patient_detail_run _ _ _ _ _ _ Hu Hp). case_bool_decide; [right|by left].
    cbn [fst]. eexists. split; [reflexivity|].
    pose proof (created_teeth_columns now patient_id
                  (next_pk (Tooth.id <$> teeth db)) tooth_numbers) as Hc.
    apply (f_equal length) in Hc. rewrite !length_fmap in Hc. rewrite Hc. reflexivity.
Qed.

End atomicity.

Lemma creation_commits_row_by_row_witness :
  periodontal_exam_create IsoDate.to_python 100 (staff_post post_malformed) 1 clinic_db
  = (mkDatabase (patients clinic_db) [] []
       [PeriodontalExam.mk 1 1 739311 (Some 7) "" 100]
       [ToothMeasurement.mk 1 1 18 "mesial" "buccal" 4 false false None],
     Raise ValueError)
  /\ periodontal_exam_create IsoDate.to_python 100 (staff_post post_too_large) 1 clinic_db
     = (mkDatabase (patients clinic_db) [] []
          [PeriodontalExam.mk 1 1 739311 (Some 7) "" 100]
          [ToothMeasurement.mk 1 1 18 "mesial" "buccal" 4 false false None],
        Raise OverflowError).
Proof.
  destruct (creation_commits_row_by_row IsoDate.to_python 100) as [Hexam _].
  assert (canonical_keys
          = [(18, "buccal", "mesial"); (18, "buccal", "middle"); (18, "buccal", "distal");
             (18, "lingual", "mesial"); (18, "lingual", "middle"); (18, "lingual", "distal")]
            ++ (17, "buccal", "mesial") :: drop 7 canonical_keys) as Hsplit by reflexivity.
  split.
  - destruct (Hexam (staff_post post_malformed) 1 clinic_db 7
                (Patient.mk (Some 1) "P20250001" "Hanako" "Sato" true) "2025-03-01"
                eq_refl eq_refl eq_refl eq_refl clinic_db_references post_malformed_plain)
      as [_ Hrun].
    destruct (Hrun 739311 eq_refl) as [_ Hbad].
    refine (proj1 (Hbad _ (17, "buccal", "mesial") _ Hsplit _) _).
    + intros k Hk. elem_cases Hk; by vm_compute.
    + by vm_compute.
  - destruct (Hexam (staff_post post_too_large) 1 clinic_db 7
                (Patient.mk (Some 1) "P20250001" "Hanako" "Sato" true) "2025-03-01"
                eq_refl eq_refl eq_refl eq_refl clinic_db_references post_too_large_plain)
      as [_ Hrun].
    destruct (Hrun 739311 eq_refl) as [_ Hbad].
    refine (proj2 (Hbad _ (17, "buccal", "mesial") _ Hsplit _) 9223372036854775808 _).
    + intros k Hk. elem_cases Hk; by vm_compute.
    + by vm_compute.
Defined.

(** ** Reading an exam back: the grid *)

Lemma slot_empty (k : key) : slot ∅ k = None.
Proof. unfold slot. by rewrite lookup_empty. Qed.

Lemma empty_slots_surface (s : string) :
  s ∈ surfaces -> empty_slots !! s
                  = Some {[ "mesial" := None; "middle" := None; "distal" := None ]}.
Proof.
  intros Hs. unfold surfaces in Hs. elem_cases Hs; by vm_compute.
Qed.

Lemma slot_fresh_entry (g : grid) (t : Z) (k : key) :
  g !! t = None -> slot (<[t := empty_slots]> g) k = slot g k.
Proof.
  intros Hfresh. destruct k as [[t' s'] p']. unfold slot. cbn [fst snd].
  destruct (decide (t = t')) as [<-|Hne]; [|by rewrite lookup_insert_ne].
  rewrite lookup_insert_eq, Hfresh. unfold empty_slots.
  destruct (decide (s' = "buccal")) as [->|Hb].
  { rewrite lookup_insert_eq.
    destruct (decide (p' = "mesial")) as [->|?]; [by rewrite lookup_insert_eq|].
    rewrite lookup_insert_ne by done.
    destruct (decide (p' = "middle")) as [->|?]; [by rewrite lookup_insert_eq|].
    rewrite lookup_insert_ne by done.
    destruct (decide (p' = "distal")) as [->|?]; [by rewrite lookup_singleton_eq|].
    by rewrite lookup_singleton_ne. }
  rewrite lookup_insert_ne by done.
  destruct (decide (s' = "lingual")) as [->|Hl]; [|by rewrite lookup_singleton_ne].
  rewrite lookup_singleton_eq.
  destruct (decide (p' = "mesial")) as [->|?]; [by rewrite lookup_insert_eq|].
  rewrite lookup_insert_ne by done.
  destruct (decide (p' = "middle")) as [->|?]; [by rewrite lookup_insert_eq|].
  rewrite lookup_insert_ne by done.
  destruct (decide (p' = "distal")) as [->|?]; [by rewrite lookup_singleton_eq|].
  by rewrite lookup_singleton_ne.
Qed.

(** The assignment [tooth_data[t][s][p] = m] on an entry that is there. *)
Lemma slot_assign (g : grid) (t : Z) (s p : string) by_surface by_position m (k : key) :
  g !! t = Some by_surface -> by_surface !! s = Some by_position ->
  slot (<[t := <[s := <[p := Some m]> by_position]> by_surface]> g) k
  = if bool_decide (k = (t, s, p)) then Some m else slot g k.
Proof.
  intros Hg Hs. destruct k as [[t' s'] p']. unfold slot. cbn [fst snd].
  destruct (decide (t = t')) as [<-|Ht].
  - rewrite lookup_insert_eq, Hg.
    destruct (decide (s = s')) as [<-|Hs'].
    + rewrite lookup_insert_eq, Hs.
      destruct (decide (p = p')) as [<-|Hp].
      * rewrite lookup_insert_eq. by rewrite bool_decide_eq_true_2.
      * rewrite lookup_insert_ne by done. rewrite bool_decide_eq_false_2; [done|congruence].
    + rewrite lookup_insert_ne by done. rewrite bool_decide_eq_false_2; [done|congruence].
  - rewrite lookup_insert_ne by done. rewrite bool_decide_eq_false_2; [done|congruence].
Qed.

Lemma grid_wf_empty : grid_wf ∅.
Proof. intros t e He. by rewrite lookup_empty in He. Qed.

Lemma grid_wf_insert (g : grid) t e :
  grid_wf g -> is_Some (e !! "buccal") -> is_Some (e !! "lingual") -> grid_wf (<[t := e]> g).
Proof.
  intros Hwf Hb Hl t' e' He'. destruct (decide (t = t')) as [<-|Hne].
  - rewrite lookup_insert_eq in He'. by simplify_eq.
  - rewrite lookup_insert_ne in He' by done. by eapply Hwf.
Qed.

(** One turn of the organizing loop on a measurement with a known surface. *)
Lemma organize_step_run (g : grid) (m : ToothMeasurement.t) :
  grid_wf g -> ToothMeasurement.surface m ∈ surfaces ->
  exists g', organize_step g m = Ok g'
             /\ grid_wf g'
             /\ dom g' = {[ToothMeasurement.tooth_number m]} ∪ dom g
             /\ forall k, slot g' k
                          = if bool_decide (k = measurement_key m) then Some m else slot g k.
Proof.
  intros Hwf Hs. unfold organize_step.
  set (t := ToothMeasurement.tooth_number m). set (s := ToothMeasurement.surface m).
  set (p := ToothMeasurement.position m).
  set (g1 := if bool_decide (g !! t = None) then <[t := empty_slots]> g else g).
  assert (exists e bp, g1 !! t = Some e /\ e !! s = Some bp /\ grid_wf g1
                       /\ dom g1 = {[t]} ∪ dom g /\ forall k, slot g1 k = slot g k)
    as (e & bp & He & Hbp & Hwf1 & Hdom1 & Hslot1).
  { subst g1. case_bool_decide as Hg.
    - exists empty_slots. eexists. split; [by rewrite lookup_insert_eq|].
      split; [by apply empty_slots_surface|]. split; [|split].
      + apply grid_wf_insert; [done|eexists; by vm_compute|eexists; by vm_compute].
      + by rewrite dom_insert_L.
      + intros k. by apply slot_fresh_entry.
    - destruct (g !! t) as [e|] eqn:He; [|done].
      assert (is_Some (e !! s)) as [bp Hbp].
      { destruct (Hwf t e He) as [Hb Hl]. subst s. unfold surfaces in Hs.
        apply elem_of_cons in Hs as [Hs|Hs]; [by rewrite Hs|].
        apply list_elem_of_singleton in Hs. by rewrite Hs. }
      exists e, bp. split; [done|]. split; [done|]. split; [done|]. split; [|done].
      assert (t ∈ dom g) by (apply elem_of_dom; eauto). set_solver. }
  rewrite He, Hbp. eexists. split; [reflexivity|]. split; [|split].
  - apply grid_wf_insert; [done| |].
    + destruct (Hwf1 t e He) as [Hb _].
      destruct (decide (s = "buccal")) as [->|?];
        [by rewrite lookup_insert_eq|by rewrite lookup_insert_ne].
    + destruct (Hwf1 t e He) as [_ Hl].
      destruct (decide (s = "lingual")) as [->|?];
        [by rewrite lookup_insert_eq|by rewrite lookup_insert_ne].
  - rewrite dom_insert_L, Hdom1. set_solver.
  - intros k. rewrite (slot_assign g1 t s p e bp m k He Hbp). by rewrite Hslot1.
Qed.

(** The organizing loop on measurements with known surfaces. *)
Lemma organize_run (ms : list ToothMeasurement.t) (g : grid) :
  grid_wf g ->
  (forall m, m ∈ ms -> ToothMeasurement.surface m ∈ surfaces) ->
  exists g', organize g ms = Ok g'
             /\ grid_wf g'
             /\ dom g' = list_to_set (ToothMeasurement.tooth_number <$> ms) ∪ dom g
             /\ forall k, slot g' k = match latest ms k with
                                      | Some m => Some m
                                      | None => slot g k
                                      end.
Proof.
  revert g. induction ms as [|m ms IH]; intros g Hwf Hs.
  - exists g. split; [done|]. split; [done|]. split; [set_solver|done].
  - destruct (organize_step_run g m Hwf) as (g1 & Hstep & Hwf1 & Hdom1 & Hslot1).
    { apply Hs, list_elem_of_here. }
    destruct (IH g1 Hwf1) as (g' & Hrun & Hwf' & Hdom' & Hslot').
    { intros m' Hm'. by apply Hs, list_elem_of_further. }
    exists g'. cbn [organize]. rewrite Hstep. split; [done|]. split; [done|]. split.
    + rewrite Hdom', Hdom1. cbn [fmap list_fmap list_to_set]. set_solver.
    + intros k. rewrite Hslot'. cbn [latest].
      destruct (latest ms k); [done|]. rewrite Hslot1.
      destruct (decide (measurement_key m = k)) as [<-|Hne].
      * by rewrite !bool_decide_eq_true_2.
      * rewrite !bool_decide_eq_false_2; [done|done|congruence].
Qed.

Lemma latest_Some ms k m :
  latest ms k = Some m -> m ∈ ms /\ measurement_key m = k.
Proof.
  induction ms as [|x ms IH]; [done|]. cbn [latest].
  destruct (latest ms k) as [y|].
  - intros [= <-]. destruct (IH eq_refl). split; [by apply list_elem_of_further|done].
  - case_bool_decide; [|done]. intros [= <-]. split; [apply list_elem_of_here|done].
Qed.

Lemma latest_NoDup ms k m :
  NoDup (measurement_key <$> ms) -> m ∈ ms -> measurement_key m = k -> latest ms k = Some m.
Proof.
  induction ms as [|x ms IH]; intros Hnd Hin Hk; [by apply elem_of_nil in Hin|].
  cbn [fmap list_fmap] in Hnd. apply NoDup_cons in Hnd as [Hx Hnd]. cbn [latest].
  apply elem_of_cons in Hin as [->|Hin].
  - destruct (latest ms k) as [y|] eqn:Hy.
    + apply latest_Some in Hy as [Hy Hyk]. destruct Hx.
      rewrite Hk, <- Hyk. apply list_elem_of_fmap. by exists y.
    + by rewrite bool_decide_eq_true_2.
  - by rewrite (IH Hnd Hin Hk).
Qed.

Lemma latest_None ms k :
  latest ms k = None -> forall m, m ∈ ms -> measurement_key m <> k.
Proof.
  induction ms as [|x ms IH]; intros Hl m Hin; [by apply elem_of_nil in Hin|].
  cbn [latest] in Hl. destruct (latest ms k) eqn:Hms; [done|].
  case_bool_decide as Hx; [done|].
  apply elem_of_cons in Hin as [->|Hin]; [done|by apply IH].
Qed.

Lemma elem_of_exam_measurements db e m :
  m ∈ exam_measurements e db <-> m ∈ tooth_measurements db /\ ToothMeasurement.exam m = e.
Proof. unfold exam_measurements. rewrite elem_of_List_filter. by rewrite Z.eqb_eq. Qed.

(** The grid of an exam: its teeth and its slots. *)
Lemma grid_of_run db e :
  surfaces_known db ->
  exists g, grid_of db e = Ok g
            /\ (forall t, t ∈ dom g
                          <-> exists m, m ∈ exam_measurements e db
                                        /\ ToothMeasurement.tooth_number m = t)
            /\ (forall k m, slot g k = Some m ->
                            m ∈ exam_measurements e db /\ measurement_key m = k)
            /\ (NoDup (measurement_key <$> exam_measurements e db) ->
                forall k m, m ∈ exam_measurements e db -> measurement_key m = k ->
                            slot g k = Some m).
Proof.
  intros Hknown. unfold grid_of.
  set (ms := order_by measurement_le (exam_measurements e db)).
  assert (ms ≡ₚ exam_measurements e db) as Hperm by apply order_by_perm.
  destruct (organize_run ms ∅ grid_wf_empty) as (g & Hrun & _ & Hdom & Hslot).
  { intros m Hm. rewrite Hperm in Hm. apply elem_of_exam_measurements in Hm as [Hm _].
    by apply Hknown. }
  exists g. split; [done|]. split; [|split].
  - intros t. rewrite Hdom, dom_empty_L, (right_id_L ∅ (∪)).
    rewrite elem_of_list_to_set, list_elem_of_fmap. split.
    + intros (m & -> & Hm). exists m. by rewrite <- Hperm.
    + intros (m & Hm & <-). exists m. by rewrite Hperm.
  - intros k m. rewrite Hslot, slot_empty. destruct (latest ms k) as [x|] eqn:Hx; [|done].
    intros [= ->]. apply latest_Some in Hx as [Hin Hk]. by rewrite <- Hperm.
  - intros Hnd k m Hin Hk. rewrite Hslot.
    rewrite (latest_NoDup ms k m); [done| |by rewrite Hperm|done].
    by rewrite Hperm.
Qed.

Lemma periodontal_exam_detail_run request exam_id db u exam :
  user request = Some u ->
  find (fun e => PeriodontalExam.id e =? exam_id) (periodontal_exams db) = Some exam ->
  surfaces_known db ->
  exists td pd,
    periodontal_exam_detail request exam_id db
    = (db, Ok (Render "dental/periodontal_exam_detail.html"
                 (mkExamDetail exam (PeriodontalExam.patient exam) td
                    (previous_exam_of exam db) pd)))
    /\ grid_of db (PeriodontalExam.id exam) = Ok td
    /\ match previous_exam_of exam db with
       | Some prev => grid_of db (PeriodontalExam.id prev) = Ok pd
       | None => pd = ∅
       end.
Proof.
  intros Hu Hfind Hknown.
  destruct (grid_of_run db (PeriodontalExam.id exam) Hknown) as (td & Htd & _).
  assert (exists pd, match previous_exam_of exam db with
                     | Some prev => grid_of db (PeriodontalExam.id prev) = Ok pd
                     | None => pd = ∅
                     end) as [pd Hpd].
  { destruct (previous_exam_of exam db) as [prev|]; [|by exists ∅].
    destruct (grid_of_run db (PeriodontalExam.id prev) Hknown) as (pd & Hpd & _).
    by exists pd. }
  exists td, pd. split; [|done].
  unfold periodontal_exam_detail. rewrite Hu.
  erewrite bind_Ok; [|unfold get_PeriodontalExam_or_404; by rewrite Hfind].
  erewrite bind_Ok; [|reflexivity].
  erewrite bind_Ok; [|unfold lift_result; by rewrite <- Htd].
  erewrite bind_Ok; [|reflexivity].
  destruct (previous_exam_of exam db) as [prev|].
  - erewrite bind_Ok; [reflexivity|].
    erewrite bind_Ok; [|reflexivity]. unfold lift_result. by rewrite <- Hpd.
  - subst pd. erewrite bind_Ok; reflexivity.
Qed.

(** ** The previous exam *)

Lemma previous_exam_of_spec exam db :
  match previous_exam_of exam db with
  | Some prev =>
      prev ∈ periodontal_exams db
      /\ PeriodontalExam.patient prev = PeriodontalExam.patient exam
      /\ PeriodontalExam.exam_date prev < PeriodontalExam.exam_date exam
      /\ forall x, x ∈ periodontal_exams db ->
                   PeriodontalExam.patient x = PeriodontalExam.patient exam ->
                   PeriodontalExam.exam_date x < PeriodontalExam.exam_date exam ->
                   PeriodontalExam.exam_date x <= PeriodontalExam.exam_date prev
  | None =>
      forall x, x ∈ periodontal_exams db ->
                PeriodontalExam.patient x = PeriodontalExam.patient exam ->
                ~ PeriodontalExam.exam_date x < PeriodontalExam.exam_date exam
  end.
Proof.
  unfold previous_exam_of.
  set (le := fun a b => PeriodontalExam.exam_date b <=? PeriodontalExam.exam_date a).
  set (earlier := fun e => (PeriodontalExam.patient e =? PeriodontalExam.patient exam)
                           && (PeriodontalExam.exam_date e <? PeriodontalExam.exam_date exam)).
  assert (forall x, earlier x = true
                    <-> PeriodontalExam.patient x = PeriodontalExam.patient exam
                        /\ PeriodontalExam.exam_date x < PeriodontalExam.exam_date exam)
    as Hearlier.
  { intros x. unfold earlier. by rewrite andb_true_iff, Z.eqb_eq, Z.ltb_lt. }
  destruct (head _) as [prev|] eqn:Hhead.
  - apply (order_by_head le) in Hhead as [Hin Hmax].
    + apply elem_of_List_filter in Hin as [Hin Hprev]. apply Hearlier in Hprev as [Hp Hd].
      split; [done|]. split; [done|]. split; [done|].
      intros x Hx Hxp Hxd. apply Z.leb_le. apply (Hmax x).
      apply elem_of_List_filter. split; [done|]. by apply Hearlier.
    + intros a b. unfold le. rewrite !Z.leb_le. lia.
    + intros a b c. unfold le. rewrite !Z.leb_le. lia.
  - apply head_None in Hhead. apply order_by_nil_inv in Hhead.
    intros x Hx Hxp Hxd.
    assert (x ∈ List.filter earlier (periodontal_exams db)) as Hin.
    { apply elem_of_List_filter. split; [done|]. by apply Hearlier. }
    rewrite Hhead in Hin. by apply elem_of_nil in Hin.
Qed.

(** With unique primary keys, a row is found by its key. *)
Lemma find_exam_by_pk (exams : list PeriodontalExam.t) (x : PeriodontalExam.t) :
  NoDup (PeriodontalExam.id <$> exams) -> x ∈ exams ->
  find (fun e => PeriodontalExam.id e =? PeriodontalExam.id x) exams = Some x.
Proof.
  induction exams as [|y l IH]; intros Hnd Hin; [by apply elem_of_nil in Hin|].
  cbn [fmap list_fmap] in Hnd. apply NoDup_cons in Hnd as [Hy Hnd]. simpl.
  apply elem_of_cons in Hin as [->|Hin]; [by rewrite Z.eqb_refl|].
  destruct (PeriodontalExam.id y =? PeriodontalExam.id x) eqn:Hyx; [|by apply IH].
  apply Z.eqb_eq in Hyx. destruct Hy. rewrite Hyx. apply list_elem_of_fmap. by exists x.
Qed.

(** C2. Reading an exam selects as previous exam an exam of the same
    patient with an earlier date, such that no exam of the patient with an
    earlier date is later than it, and shows the grid of that exam as the
    previous grid; exams of the same or a later date are not selected, and
    when no exam of the patient has an earlier date no exam is selected and
    the previous grid is empty.  In particular, when A and B are the exams
    of a patient and A's date is earlier than B's, reading B shows A and
    A's grid, and reading A shows no previous exam and an empty grid. *)
Theorem previous_exam_selection (request : HttpRequest) (db : Database) (u : Z) :
  user request = Some u ->
  NoDup (PeriodontalExam.id <$> periodontal_exams db) ->
  surfaces_known db ->
  (forall exam, exam ∈ periodontal_exams db ->
     exists ctx,
       periodontal_exam_detail request (PeriodontalExam.id exam) db
       = (db, Ok (Render "dental/periodontal_exam_detail.html" ctx))
       /\ ed_exam ctx = exam
       /\ grid_of db (PeriodontalExam.id exam) = Ok (tooth_data ctx)
       /\ match previous_exam ctx with
          | Some prev =>
              prev ∈ periodontal_exams db
              /\ PeriodontalExam.patient prev = PeriodontalExam.patient exam
              /\ PeriodontalExam.exam_date prev < PeriodontalExam.exam_date exam
              /\ (forall x, x ∈ periodontal_exams db ->
                            PeriodontalExam.patient x = PeriodontalExam.patient exam ->
                            PeriodontalExam.exam_date x < PeriodontalExam.exam_date exam ->
                            PeriodontalExam.exam_date x <= PeriodontalExam.exam_date prev)
              /\ grid_of db (PeriodontalExam.id prev) = Ok (previous_data ctx)
          | None =>
              (forall x, x ∈ periodontal_exams db ->
                         PeriodontalExam.patient x = PeriodontalExam.patient exam ->
                         ~ PeriodontalExam.exam_date x < PeriodontalExam.exam_date exam)
              /\ previous_data ctx = ∅
          end)
  /\ (forall A B,
        A ∈ periodontal_exams db -> B ∈ periodontal_exams db ->
        PeriodontalExam.patient A = PeriodontalExam.patient B ->
        PeriodontalExam.exam_date A < PeriodontalExam.exam_date B ->
        (forall x, x ∈ periodontal_exams db ->
                   PeriodontalExam.patient x = PeriodontalExam.patient A -> x = A \/ x = B) ->
        exists ctxA ctxB,
          periodontal_exam_detail request (PeriodontalExam.id A) db
          = (db, Ok (Render "dental/periodontal_exam_detail.html" ctxA))
          /\ periodontal_exam_detail request (PeriodontalExam.id B) db
             = (db, Ok (Render "dental/periodontal_exam_detail.html" ctxB))
          /\ previous_exam ctxB = Some A /\ previous_data ctxB = tooth_data ctxA
          /\ previous_exam ctxA = None /\ previous_data ctxA = ∅).
Proof.
  intros Hu Hpk Hknown.
  assert (forall exam, exam ∈ periodontal_exams db ->
            exists td pd,
              periodontal_exam_detail request (PeriodontalExam.id exam) db
              = (db, Ok (Render "dental/periodontal_exam_detail.html"
                           (mkExamDetail exam (PeriodontalExam.patient exam) td
                              (previous_exam_of exam db) pd)))
              /\ grid_of db (PeriodontalExam.id exam) = Ok td
              /\ match previous_exam_of exam db with
                 | Some prev => grid_of db (PeriodontalExam.id prev) = Ok pd
                 | None => pd = ∅
                 end) as Hread.
  { intros exam Hin. eapply periodontal_exam_detail_run; [done| |done].
    by apply find_exam_by_pk. }
  split.
  - intros exam Hin. destruct (Hread exam Hin) as (td & pd & Hrun & Htd & Hpd).
    eexists. split; [exact Hrun|]. cbn [ed_exam tooth_data previous_exam previous_data].
    split; [done|]. split; [done|].
    pose proof (previous_exam_of_spec exam db) as Hspec.
    destruct (previous_exam_of exam db) as [prev|]; [|done].
    destruct Hspec as (? & ? & ? & ?). done.
  - intros A B HA HB Hpat Hdate Honly.
    destruct (Hread A HA) as (tdA & pdA & HrunA & HtdA & HpdA).
    destruct (Hread B HB) as (tdB & pdB & HrunB & HtdB & HpdB).
    eexists _, _. split; [exact HrunA|]. split; [exact HrunB|].
    cbn [tooth_data previous_exam previous_data].
    pose proof (previous_exam_of_spec A db) as HspecA.
    pose proof (previous_exam_of_spec B db) as HspecB.
    assert (previous_exam_of B db = Some A) as HprevB.
    { destruct (previous_exam_of B db) as [prev|].
      - destruct HspecB as (Hin & Hp & Hd & _).
        destruct (Honly prev Hin) as [->| ->]; [congruence|done|lia].
      - by destruct (HspecB A HA Hpat). }
    assert (previous_exam_of A db = None) as HprevA.
    { destruct (previous_exam_of A db) as [prev|]; [|done].
      destruct HspecA as (Hin & Hp & Hd & _).
      destruct (Honly prev Hin Hp) as [->| ->]; lia. }
    rewrite HprevB in HpdB |- *. rewrite HprevA in HpdA |- *.
    split; [done|]. split; [congruence|]. done.
Qed.

Lemma previous_exam_selection_witness :
  exists ctxA ctxB,
    periodontal_exam_detail staff_get 1 exams_db
    = (exams_db, Ok (Render "dental/periodontal_exam_detail.html" ctxA))
    /\ periodontal_exam_detail staff_get 3 exams_db
       = (exams_db, Ok (Render "dental/periodontal_exam_detail.html" ctxB))
    /\ previous_exam ctxB = Some (PeriodontalExam.mk 1 1 100 (Some 7) "" 1)
    /\ previous_data ctxB = tooth_data ctxA
    /\ previous_exam ctxA = None /\ previous_data ctxA = ∅.
Proof.
  assert (NoDup (PeriodontalExam.id <$> periodontal_exams exams_db)) as Hpk.
  { apply (bool_decide_unpack _). by vm_compute. }
  assert (surfaces_known exams_db) as Hknown.
  { intros m Hm. unfold exams_db in Hm. cbn [tooth_measurements] in Hm.
    elem_cases Hm; apply list_elem_of_here. }
  destruct (previous_exam_selection staff_get exams_db 7 eq_refl Hpk Hknown) as [_ Hab].
  apply (Hab (PeriodontalExam.mk 1 1 100 (Some 7) "" 1)
             (PeriodontalExam.mk 3 1 200 (Some 7) "" 3)).
  - apply list_elem_of_here.
  - do 2 apply list_elem_of_further. apply list_elem_of_here.
  - reflexivity.
  - cbn. lia.
  - intros x Hx Hp. unfold exams_db in Hx. cbn [periodontal_exams] in Hx.
    elem_cases Hx; [by left|discriminate Hp|by right].
Defined.

(** ** The round trip through creation and reading *)

Lemma measurement_rows_mem post exam pk keys m :
  m ∈ measurement_rows post exam pk keys ->
  measurement_key m ∈ keys
  /\ ToothMeasurement.exam m = exam
  /\ submitted post (measurement_key m) = Depth (ToothMeasurement.pocket_depth m)
  /\ ToothMeasurement.bleeding m = checked post (field_name "bleeding" (measurement_key m))
  /\ ToothMeasurement.calculus m = checked post (field_name "calculus" (measurement_key m)).
Proof.
  revert pk. induction keys as [|[[t s] p] ks IH]; intros pk Hm; cbn [measurement_rows] in Hm.
  - by apply elem_of_nil in Hm.
  - assert (forall pk', m ∈ measurement_rows post exam pk' ks ->
              measurement_key m ∈ (t, s, p) :: ks
              /\ ToothMeasurement.exam m = exam
              /\ submitted post (measurement_key m) = Depth (ToothMeasurement.pocket_depth m)
              /\ ToothMeasurement.bleeding m
                 = checked post (field_name "bleeding" (measurement_key m))
              /\ ToothMeasurement.calculus m
                 = checked post (field_name "calculus" (measurement_key m)))
      as IH'.
    { intros pk' H'. destruct (IH pk' H') as (? & ?). split; [by apply list_elem_of_further|done]. }
    destruct (submitted post (t, s, p)) as [| |n|n] eqn:Hsub; eauto.
    apply elem_of_cons in Hm as [->|Hm]; [|eauto].
    split; [apply list_elem_of_here|]. split; [done|]. split; [exact Hsub|]. done.
Qed.

Lemma measurement_rows_has post exam pk keys k n :
  k ∈ keys -> submitted post k = Depth n ->
  exists m, m ∈ measurement_rows post exam pk keys /\ measurement_key m = k.
Proof.
  revert pk. induction keys as [|[[t s] p] ks IH]; intros pk Hk Hsub.
  - by apply elem_of_nil in Hk.
  - cbn [measurement_rows]. apply elem_of_cons in Hk as [->|Hk].
    + rewrite Hsub. eexists. split; [apply list_elem_of_here|done].
    + destruct (submitted post (t, s, p)).
      * by apply IH.
      * by apply IH.
      * by apply IH.
      * destruct (IH (pk + 1) Hk Hsub) as (m & Hm & Hkey).
        exists m. split; [by apply list_elem_of_further|done].
Qed.

Lemma filter_ext_in {A : Type} (f g : A -> bool) (l : list A) :
  (forall x, x ∈ l -> f x = g x) -> List.filter f l = List.filter g l.
Proof.
  induction l as [|x l IH]; intros Hfg; [done|]. simpl.
  rewrite (Hfg x (list_elem_of_here _ _)), IH; [done|].
  intros y Hy. apply Hfg. by apply list_elem_of_further.
Qed.

Lemma find_created_exam (exams : list PeriodontalExam.t) (row : PeriodontalExam.t) :
  PeriodontalExam.id row = next_pk (PeriodontalExam.id <$> exams) ->
  find (fun e => PeriodontalExam.id e =? PeriodontalExam.id row) (exams ++ [row]) = Some row.
Proof.
  intros Hid.
  assert (forall x, x ∈ exams -> PeriodontalExam.id x <> PeriodontalExam.id row) as Hfresh.
  { intros x Hx. rewrite Hid.
    assert (PeriodontalExam.id x < next_pk (PeriodontalExam.id <$> exams)); [|lia].
    apply next_pk_fresh. apply list_elem_of_fmap. by exists x. }
  clear Hid. induction exams as [|y l IH]; simpl.
  - by rewrite Z.eqb_refl.
  - rewrite (proj2 (Z.eqb_neq _ _)); [|apply Hfresh, list_elem_of_here].
    apply IH. intros x Hx. by apply Hfresh, list_elem_of_further.
Qed.

Lemma length_measurement_rows post exam pk keys :
  length (measurement_rows post exam pk keys)
  = length (List.filter (fun k => match submitted post k with Depth _ => true | _ => false end)
              keys).
Proof.
  revert pk. induction keys as [|[[t s] p] ks IH]; intros pk; [done|].
  cbn [measurement_rows List.filter].
  destruct (submitted post (t, s, p)); [apply IH|apply IH|apply IH|].
  cbn [length]. by rewrite IH.
Qed.

(** A combination is blank when its depth field is missing, empty or white
    space only. *)
Lemma submitted_blank_iff post (k : key) :
  submitted post k = Blank
  <-> post !! field_name "depth" k = None
      \/ exists d, post !! field_name "depth" k = Some d /\ Py.str_strip d = "".
Proof.
  unfold submitted. destruct (post !! field_name "depth" k) as [d|]; [|by split; auto].
  split.
  - destruct (Py.truthy d) eqn:Hd; simpl.
    + destruct (Py.truthy (Py.str_strip d)) eqn:Hs.
      * destruct (Py.int d) as [n|]; [|done]. by destruct (_ && _).
      * intros _. right. exists d. split; [done|]. by apply truthy_false.
    + intros _. right. exists d. split; [done|]. apply truthy_false in Hd. by subst d.
  - intros [?|(d' & [= <-] & Hs)]; [done|].
    rewrite Hs. by rewrite andb_false_r.
Qed.

Section round_trip.
Variable to_python_date : string -> option Z.

(** C1. A form whose depths are plain text, each of them blank or an
    integer literal within the integers of the database, is posted for a
    patient, and the exam it creates is read back.  The grid then has, for
    each of the 192 combinations for which the form carries a depth, a
    measurement with that depth, with bleeding and calculus set when the
    form carries the flag as 'on' and unset otherwise; the slot of every
    other combination, and every slot outside the 192, is absent; the number
    of populated slots is the number of submitted depths, and so is the
    number of measurement rows of the exam, none of which belongs to a
    combination without depth; and a tooth is a key of the grid only when
    one of its combinations carries a depth. *)
Theorem grid_round_trip (now : Z) (request reader : HttpRequest) (patient_id : Z)
    (db : Database) (u v : Z) (pat : Patient.t) (text : string) (d : Z) :
  user request = Some u ->
  find (fun p => bool_decide (Patient.id p = Some patient_id)) (patients db) = Some pat ->
  method request = "POST" ->
  POST request !! "exam_date" = Some text -> to_python_date text = Some d ->
  measurements_reference_exams db -> surfaces_known db ->
  plain_depths (POST request) ->
  (forall k, k ∈ canonical_keys -> refusal (submitted (POST request) k) = None) ->
  user reader = Some v ->
  let e := next_pk (PeriodontalExam.id <$> periodontal_exams db) in
  let r := periodontal_exam_create to_python_date now request patient_id db in
  snd r = Ok (Redirect "periodontal_exam_detail" e)
  /\ length (exam_measurements e (fst r)) = submitted_count (POST request)
  /\ (forall m, m ∈ exam_measurements e (fst r) ->
                exists n, submitted (POST request) (measurement_key m) = Depth n)
  /\ exists ctx,
       periodontal_exam_detail reader e (fst r)
       = (fst r, Ok (Render "dental/periodontal_exam_detail.html" ctx))
       /\ PeriodontalExam.id (ed_exam ctx) = e
       /\ PeriodontalExam.patient (ed_exam ctx) = patient_id
       /\ (forall t s p, (t, s, p) ∈ canonical_keys ->
             match submitted (POST request) (t, s, p) with
             | Depth n =>
                 exists m, slot (tooth_data ctx) (t, s, p) = Some m
                           /\ measurement_key m = (t, s, p)
                           /\ ToothMeasurement.pocket_depth m = n
                           /\ ToothMeasurement.bleeding m
                              = bool_decide (POST request !! field_name "bleeding" (t, s, p)
                                             = Some "on")
                           /\ ToothMeasurement.calculus m
                              = bool_decide (POST request !! field_name "calculus" (t, s, p)
                                             = Some "on")
             | _ => slot (tooth_data ctx) (t, s, p) = None
             end)
       /\ (forall k, k ∉ canonical_keys -> slot (tooth_data ctx) k = None)
       /\ populated (tooth_data ctx) = submitted_count (POST request)
       /\ (submitted_count (POST request) <= 192)%nat
       /\ (forall t, t ∈ dom (tooth_data ctx)
                     <-> exists s p n, (t, s, p) ∈ canonical_keys
                                       /\ submitted (POST request) (t, s, p) = Depth n).
Proof.
  intros Hu Hp Hpost Hdate Hd Hfk Hknown _ Hwf Hv e r. subst r.
  rewrite (periodontal_exam_create_well_formed _ _ _ _ _ _ _ _ _ Hu Hp Hpost Hdate Hd Hfk Hwf).
  cbv zeta. fold e. cbn [fst snd]. split; [done|].
  set (exam := PeriodontalExam.mk e patient_id d (Some u)
                 (default "" (POST request !! "notes")) now).
  set (rows := measurement_rows (POST request) e
                 (next_pk (ToothMeasurement.id <$> tooth_measurements db)) canonical_keys).
  set (db' := mkDatabase (patients db) (invoices db) (teeth db)
                (periodontal_exams db ++ [exam]) (tooth_measurements db ++ rows)).
  assert (exam_measurements e db' = rows) as Hrows.
  { unfold exam_measurements, db'. cbn [tooth_measurements].
    rewrite List.filter_app. unfold rows. rewrite filter_exam_rows, filter_none; [done|].
    intros m Hin. apply Z.eqb_neq. by apply new_exam_has_no_measurements. }
  assert (surfaces_known db') as Hknown'.
  { intros m Hin. unfold db' in Hin. cbn [tooth_measurements] in Hin.
    apply elem_of_app in Hin as [Hin|Hin]; [by apply Hknown|].
    apply measurement_rows_mem in Hin as [Hkey _].
    apply elem_of_canonical_keys in Hkey as (_ & Hs & _). exact Hs. }
  assert (find (fun x => PeriodontalExam.id x =? e) (periodontal_exams db') = Some exam)
    as Hfind by (by apply (find_created_exam (periodontal_exams db) exam)).
  split; [rewrite Hrows; apply length_measurement_rows|].
  split.
  { intros m Hin. rewrite Hrows in Hin.
    apply measurement_rows_mem in Hin as (_ & _ & Hsub & _). eauto. }
  destruct (periodontal_exam_detail_run reader e db' v exam Hv Hfind Hknown')
    as (td & pd & Hrun & Htd & _).
  destruct (grid_of_run db' e Hknown') as (g & Hg & Hdom & Hslot & Hfill).
  change (PeriodontalExam.id exam) with e in Htd.
  assert (g = td) as -> by congruence. rewrite Hrows in Hdom, Hslot, Hfill.
  assert (NoDup (measurement_key <$> rows)) as Hnd.
  { eapply sublist_NoDup; [apply NoDup_canonical_keys|apply measurement_rows_sublist]. }
  specialize (Hfill Hnd).
  assert (forall k, k ∈ canonical_keys ->
            is_Some (slot td k) <-> exists n, submitted (POST request) k = Depth n) as Hpop.
  { intros k Hk. split.
    - intros [m Hm]. apply Hslot in Hm as [Hin <-].
      apply measurement_rows_mem in Hin as (_ & _ & Hsub & _). eauto.
    - intros [n Hsub].
      destruct (measurement_rows_has (POST request) e
                  (next_pk (ToothMeasurement.id <$> tooth_measurements db))
                  canonical_keys k n Hk Hsub) as (m & Hin & Hkey).
      exists m. by apply Hfill. }
  eexists. split; [exact Hrun|].
  cbn [ed_exam tooth_data]. split; [done|]. split; [done|].
  split; [|split; [|split; [|split]]].
  - intros t s p Hk.
    destruct (submitted (POST request) (t, s, p)) as [| |n|n] eqn:Hsub.
    + destruct (slot td (t, s, p)) as [m|] eqn:Hm; [|done].
      destruct (proj1 (Hpop _ Hk)) as [n Hn]; [by eexists|congruence].
    + destruct (slot td (t, s, p)) as [m|] eqn:Hm; [|done].
      destruct (proj1 (Hpop _ Hk)) as [n Hn]; [by eexists|congruence].
    + destruct (slot td (t, s, p)) as [m|] eqn:Hm; [|done].
      destruct (proj1 (Hpop _ Hk)) as [n' Hn]; [by eexists|congruence].
    + destruct (proj2 (Hpop _ Hk)) as [m Hm]; [by eexists|].
      exists m. split; [done|]. apply Hslot in Hm as [Hin Hkey].
      apply measurement_rows_mem in Hin as (_ & _ & Hsub' & Hb & Hc).
      split; [done|]. rewrite Hkey in Hsub', Hb, Hc. rewrite Hsub in Hsub'.
      injection Hsub' as Hn. by rewrite Hb, Hc.
  - intros k Hk. destruct (slot td k) as [m|] eqn:Hm; [|done].
    apply Hslot in Hm as [Hin <-]. apply measurement_rows_mem in Hin as [Hkey _]. done.
  - unfold populated, submitted_count. f_equal. apply filter_ext_in. intros k Hk.
    destruct (submitted (POST request) k) as [| |n|n] eqn:Hsub.
    + apply bool_decide_eq_false_2. intros Hs. apply (Hpop k Hk) in Hs as [n Hn]. congruence.
    + apply bool_decide_eq_false_2. intros Hs. apply (Hpop k Hk) in Hs as [n Hn]. congruence.
    + apply bool_decide_eq_false_2. intros Hs. apply (Hpop k Hk) in Hs as [n' Hn]. congruence.
    + apply bool_decide_eq_true_2. apply (Hpop k Hk). by exists n.
  - unfold submitted_count. rewrite <- length_canonical_keys. apply List.filter_length_le.
  - intros t. rewrite Hdom. split.
    + intros (m & Hin & <-). apply measurement_rows_mem in Hin as (Hkey & _ & Hsub & _).
      by exists (ToothMeasurement.surface m), (ToothMeasurement.position m),
                (ToothMeasurement.pocket_depth m).
    + intros (s & p & n & Hk & Hsub).
      destruct (measurement_rows_has (POST request) e
                  (next_pk (ToothMeasurement.id <$> tooth_measurements db))
                  canonical_keys (t, s, p) n Hk Hsub) as (m & Hin & Hkey).
      exists m. split; [done|]. by injection Hkey.
Qed.

End round_trip.

Lemma post_sparse_well_formed k :
  k ∈ canonical_keys -> refusal (submitted post_sparse k) = None.
Proof.
  intros Hk.
  assert (forallb (fun k => bool_decide (refusal (submitted post_sparse k) = None))
            canonical_keys = true) as Hall by (vm_compute; reflexivity).
  rewrite forallb_forall in Hall. apply list_elem_of_In in Hk.
  specialize (Hall k Hk). by apply bool_decide_eq_true in Hall.
Qed.

Lemma post_sparse_plain : plain_depths post_sparse.
Proof. apply plain_depths_sample. by vm_compute. Qed.

Lemma clinic_db_surfaces_known : surfaces_known clinic_db.
Proof. intros m Hm. by apply elem_of_nil in Hm. Qed.

Lemma grid_round_trip_witness :
  exists ctx,
    periodontal_exam_detail staff_get 1
      (fst (periodontal_exam_create IsoDate.to_python 100 (staff_post post_sparse) 1 clinic_db))
    = (fst (periodontal_exam_create IsoDate.to_python 100 (staff_post post_sparse) 1 clinic_db),
       Ok (Render "dental/periodontal_exam_detail.html" ctx))
    /\ (exists m, slot (tooth_data ctx) (18, "buccal", "mesial") = Some m
                  /\ ToothMeasurement.pocket_depth m = 3
                  /\ ToothMeasurement.bleeding m = true
                  /\ ToothMeasurement.calculus m = false)
    /\ (exists m, slot (tooth_data ctx) (21, "lingual", "distal") = Some m
                  /\ ToothMeasurement.pocket_depth m = 5
                  /\ ToothMeasurement.bleeding m = false
                  /\ ToothMeasurement.calculus m = false)
    /\ slot (tooth_data ctx) (18, "buccal", "middle") = None
    /\ populated (tooth_data ctx) = 2%nat.
Proof.
  destruct (grid_round_trip IsoDate.to_python 100 (staff_post post_sparse) staff_get 1
              clinic_db 7 7 (Patient.mk (Some 1) "P20250001" "Hanako" "Sato" true)
              "2025-03-01" 739311 eq_refl eq_refl eq_refl eq_refl eq_refl
              clinic_db_references clinic_db_surfaces_known post_sparse_plain
              post_sparse_well_formed eq_refl)
    as (_ & _ & _ & ctx & Hread & _ & _ & Hslots & _ & Hcount & _).
  change (POST (staff_post post_sparse)) with post_sparse in Hslots, Hcount.
  exists ctx. split; [exact Hread|]. split; [|split; [|split]].
  - pose proof (Hslots 18 "buccal" "mesial") as Hslot.
    assert (submitted post_sparse (18, "buccal", "mesial") = Depth 3) as Hs by (by vm_compute).
    rewrite Hs in Hslot. destruct Hslot as (m & Hm & _ & Hdepth & Hb & Hc).
    { apply elem_of_canonical_keys. split; [apply list_elem_of_here|].
      split; apply list_elem_of_here. }
    exists m. split; [exact Hm|]. split; [exact Hdepth|].
    split; [rewrite Hb|rewrite Hc]; by vm_compute.
  - pose proof (Hslots 21 "lingual" "distal") as Hslot.
    assert (submitted post_sparse (21, "lingual", "distal") = Depth 5) as Hs by (by vm_compute).
    rewrite Hs in Hslot. destruct Hslot as (m & Hm & _ & Hdepth & Hb & Hc).
    { apply elem_of_canonical_keys. split; [do 8 apply list_elem_of_further; apply list_elem_of_here|].
      split; [apply list_elem_of_further, list_elem_of_here|].
      do 2 apply list_elem_of_further. apply list_elem_of_here. }
    exists m. split; [exact Hm|]. split; [exact Hdepth|].
    split; [rewrite Hb|rewrite Hc]; by vm_compute.
  - apply (Hslots 18 "buccal" "middle").
    apply elem_of_canonical_keys. split; [apply list_elem_of_here|].
    split; [apply list_elem_of_here|apply list_elem_of_further, list_elem_of_here].
  - rewrite Hcount. by vm_compute.
Defined.

(** The example of the specification: depth 3 with bleeding for 18 buccal
    mesial, 18 buccal middle left blank. *)
Example grid_of_sparse_form :
  match snd (periodontal_exam_detail staff_get 1
               (fst (periodontal_exam_create IsoDate.to_python 100 (staff_post post_sparse) 1
                       clinic_db))) with
  | Ok (Render _ ctx) =>
      slot (tooth_data ctx) (18, "buccal", "mesial")
      = Some (ToothMeasurement.mk 1 1 18 "mesial" "buccal" 3 true false None)
      /\ slot (tooth_data ctx) (18, "buccal", "middle") = None
      /\ slot (tooth_data ctx) (21, "lingual", "distal")
         = Some (ToothMeasurement.mk 2 1 21 "distal" "lingual" 5 false false None)
      /\ dom (tooth_data ctx) = {[18; 21]}
      /\ populated (tooth_data ctx) = 2%nat
  | _ => False
  end.
Proof. vm_compute. repeat split. Qed.

(** The field names of the 192 combinations are pairwise different, so the
    entries of different combinations do not interfere in a form. *)
Lemma form_fields_distinct : NoDup form_fields /\ length form_fields = 576%nat.
Proof.
  split; [|reflexivity]. apply (bool_decide_unpack (NoDup form_fields)). vm_compute. exact I.
Qed.


(** * Further properties of the views *)

(** ** [tooth_update]: outcomes and frame *)

(** What a call of [tooth_update] does to the database: nothing, or it
    replaces the rows of the tooth by one that has the same primary key,
    patient and tooth number, and answers with the success response. *)
Lemma tooth_update_effect now request tooth_id db :
  (exists resp, tooth_update now request tooth_id db = (db, Ok resp)
                /\ forall n s l v, resp <> inr (JsonSuccess n s l v))
  \/ (exists tooth row n s l v,
        find (fun t => Tooth.id t =? tooth_id) (teeth db) = Some tooth
        /\ tooth_update now request tooth_id db
           = (set_teeth (replace_tooth tooth_id row (teeth db)) db,
              Ok (inr (JsonSuccess n s l v)))
        /\ Tooth.id row = tooth_id /\ Tooth.patient row = Tooth.patient tooth
        /\ Tooth.tooth_number row = Tooth.tooth_number tooth
        /\ Tooth.last_updated row = now).
Proof.
  assert (forall resp : HttpResponse unit + ToothUpdateResponse,
            (forall n s l v, resp <> inr (JsonSuccess n s l v)) ->
            (exists resp', (db, Ok resp) = (db, Ok resp')
                           /\ forall n s l v, resp' <> inr (JsonSuccess n s l v))
            \/ (exists tooth row n s l v,
                  find (fun t => Tooth.id t =? tooth_id) (teeth db) = Some tooth
                  /\ (db, Ok resp)
                     = (set_teeth (replace_tooth tooth_id row (teeth db)) db,
                        Ok (inr (JsonSuccess n s l v)))
                  /\ Tooth.id row = tooth_id /\ Tooth.patient row = Tooth.patient tooth
                  /\ Tooth.tooth_number row = Tooth.tooth_number tooth
                  /\ Tooth.last_updated row = now)) as Hreject.
  { intros resp Hno. left. by exists resp. }
  unfold tooth_update. destruct (user request) as [u|]; [|by apply Hreject].
  destruct (negb _); [by apply Hreject|].
  unfold tooth_update_try, mbind, View_bind, get_Tooth_or_404.
  destruct (find _ (teeth db)) as [tooth|] eqn:Hfind; [|by apply Hreject].
  assert (Tooth.id tooth = tooth_id) as Hid.
  { apply find_some in Hfind as [_ Hid]. by apply Z.eqb_eq in Hid. }
  destruct (body request) as [| |data]; [by apply Hreject..|].
  destruct (data !! "status") as [[new_status|[] tr tx]|]; [|by apply Hreject..].
  destruct (negb _); [by apply Hreject|].
  clear Hreject. right. unfold Tooth_save, replace_tooth.
  destruct (jvalue_truthy _); cbn; rewrite Hid;
    eexists tooth, _, _, _, _, _; (split; [done|]); (split; [reflexivity|]); done.
Qed.

(** X1. [tooth_update] never lets an exception out: every call ends in a
    response, and every call that does not answer with the success response
    leaves the database as it was. *)
Theorem tooth_update_answers_and_rejects_without_writing (now : Z) (request : HttpRequest)
    (tooth_id : Z) (db : Database) :
  exists resp,
    snd (tooth_update now request tooth_id db) = Ok resp
    /\ ((forall n s l v, resp <> inr (JsonSuccess n s l v)) ->
        fst (tooth_update now request tooth_id db) = db).
Proof.
  destruct (tooth_update_effect now request tooth_id db)
    as [(resp & -> & Hno)|(tooth & row & n & s & l & v & _ & -> & _)].
  - exists resp. done.
  - eexists. split; [reflexivity|]. intros Hno. by destruct (Hno n s l v).
Qed.

Lemma find_tooth_unique (rows : list Tooth.t) (pk : Z) (t tooth : Tooth.t) :
  NoDup (Tooth.id <$> rows) -> find (fun t => Tooth.id t =? pk) rows = Some tooth ->
  t ∈ rows -> Tooth.id t = pk -> t = tooth.
Proof.
  induction rows as [|x l IH]; intros Hnd Hfind Hin Hid; [by apply elem_of_nil in Hin|].
  cbn [fmap list_fmap] in Hnd. apply NoDup_cons in Hnd as [Hx Hnd]. simpl in Hfind.
  destruct (Tooth.id x =? pk) eqn:Hxp.
  - injection Hfind as <-. apply Z.eqb_eq in Hxp.
    apply elem_of_cons in Hin as [->|Hin]; [done|].
    destruct Hx. rewrite Hxp, <- Hid. apply list_elem_of_fmap. by exists t.
  - apply elem_of_cons in Hin as [->|Hin]; [|by apply IH].
    apply Z.eqb_neq in Hxp. done.
Qed.

(** X2. Whatever the request, [tooth_update] keeps the tooth table row for
    row when primary keys are unique: the primary key, the patient and the
    tooth number of every row stay, the rows of other teeth stay as they
    are, and the other tables are not touched. *)
Theorem tooth_update_frame (now : Z) (request : HttpRequest) (tooth_id : Z) (db : Database) :
  NoDup (Tooth.id <$> teeth db) ->
  let db' := fst (tooth_update now request tooth_id db) in
  patients db' = patients db /\ invoices db' = invoices db
  /\ periodontal_exams db' = periodontal_exams db
  /\ tooth_measurements db' = tooth_measurements db
  /\ Forall2 (fun t t' => Tooth.id t' = Tooth.id t /\ Tooth.patient t' = Tooth.patient t
                          /\ Tooth.tooth_number t' = Tooth.tooth_number t
                          /\ (Tooth.id t <> tooth_id -> t' = t))
       (teeth db) (teeth db').
Proof.
  intros Hpk db'. subst db'.
  destruct (tooth_update_effect now request tooth_id db)
    as [(resp & -> & Hno)|(tooth & row & n & s & l & v & Hfind & -> & Hid & Hp & Hn & _)];
    cbn [fst].
  - repeat (split; [done|]). apply Forall_Forall2_diag, Forall_forall. done.
  - repeat (split; [done|]). cbn [teeth set_teeth]. unfold replace_tooth.
    apply Forall2_fmap_r, Forall_Forall2_diag, Forall_forall. intros t Ht.
    unfold compose. cbv beta.
    destruct (Tooth.id t =? tooth_id) eqn:Heq.
    + apply Z.eqb_eq in Heq.
      assert (t = tooth) as -> by by eapply find_tooth_unique.
      split; [congruence|]. split; [done|]. split; [done|]. done.
    + done.
Qed.

Lemma tooth_update_frame_witness :
  tooth_measurements
    (fst (tooth_update 20 (staff_post_json (status_body "crown" None)) 1 chart_db)) = []
  /\ length (teeth (fst (tooth_update 20 (staff_post_json (status_body "crown" None)) 1
                          chart_db))) = 2%nat.
Proof.
  assert (NoDup (Tooth.id <$> teeth chart_db)) as Hpk.
  { apply (bool_decide_unpack _). by vm_compute. }
  destruct (tooth_update_frame 20 (staff_post_json (status_body "crown" None)) 1 chart_db Hpk)
    as (_ & _ & _ & Hm & Hteeth).
  split; [exact Hm|]. apply Forall2_length in Hteeth. by rewrite <- Hteeth.
Defined.

(** X3. The error responses of [tooth_update] for a logged-in POST: a tooth
    that does not exist (for a key within the integers of the database) is
    answered with status 500 (the [Http404] is caught by the catch-all
    handler), also when the body is not JSON, because the tooth is looked
    up first; a body that is not JSON with 400 'Invalid JSON
    data'; a JSON value that is not an object with 500; a missing status
    with 400 'Invalid tooth status'; an unhashable status with 500. *)
Theorem tooth_update_error_responses (now : Z) (request : HttpRequest) (tooth_id : Z)
    (db : Database) (u : Z) :
  user request = Some u -> method request = "POST" ->
  (find (fun t => Tooth.id t =? tooth_id) (teeth db) = None ->
   0 <= tooth_id <= 9223372036854775807 ->
     tooth_update now request tooth_id db = (db, Ok (inr (JsonException Http404))))
  /\ (forall tooth, find (fun t => Tooth.id t =? tooth_id) (teeth db) = Some tooth ->
        (body request = BadJson ->
           tooth_update now request tooth_id db
           = (db, Ok (inr (JsonError 400 "Invalid JSON data"))))
        /\ (body request = NotAnObject ->
            tooth_update now request tooth_id db
            = (db, Ok (inr (JsonException AttributeError))))
        /\ (forall data, body request = JObject data -> data !! "status" = None ->
              tooth_update now request tooth_id db
              = (db, Ok (inr (JsonError 400 "Invalid tooth status"))))
        /\ (forall data truthy text, body request = JObject data ->
              data !! "status" = Some (JOther false truthy text) ->
              tooth_update now request tooth_id db
              = (db, Ok (inr (JsonException TypeError))))).
Proof.
  intros Hu Hm. unfold tooth_update. rewrite Hu, Hm.
  change (negb ("POST" =? "POST")%string) with false. cbv beta iota.
  unfold tooth_update_try, mbind, View_bind, get_Tooth_or_404. split.
  - by intros -> _.
  - intros tooth ->. split; [by intros ->|]. split; [by intros ->|]. split.
    + intros data -> Hs. by rewrite Hs.
    + intros data truthy text -> Hs. by rewrite Hs.
Qed.

Lemma tooth_update_error_responses_witness :
  tooth_update 20 (staff_post_json BadJson) 99 chart_db
  = (chart_db, Ok (inr (JsonException Http404)))
  /\ tooth_update 20 (staff_post_json BadJson) 1 chart_db
     = (chart_db, Ok (inr (JsonError 400 "Invalid JSON data")))
  /\ tooth_update 20 (staff_post_json (JObject ∅)) 1 chart_db
     = (chart_db, Ok (inr (JsonError 400 "Invalid tooth status"))).
Proof.
  split; [|split].
  - apply (proj1 (tooth_update_error_responses 20 (staff_post_json BadJson) 99 chart_db 7
                    eq_refl eq_refl) eq_refl). lia.
  - destruct (tooth_update_error_responses 20 (staff_post_json BadJson) 1 chart_db 7
                eq_refl eq_refl) as [_ Hfound].
    exact (proj1 (Hfound (Tooth.mk 1 1 18 "healthy" "" 10) eq_refl) eq_refl).
  - destruct (tooth_update_error_responses 20 (staff_post_json (JObject ∅)) 1 chart_db 7
                eq_refl eq_refl) as [_ Hfound].
    destruct (Hfound (Tooth.mk 1 1 18 "healthy" "" 10) eq_refl) as (_ & _ & Hmissing & _).
    exact (Hmissing ∅ eq_refl eq_refl).
Defined.

(** ** [periodontal_exam_detail]: a read that writes nothing and may fail *)

Lemma bind_keeps {A B : Type} (m : View A) (f : A -> View B) db :
  fst (m db) = db -> (forall a, fst (f a db) = db) -> fst ((m ≫= f) db) = db.
Proof.
  intros Hm Hf. unfold mbind, View_bind. destruct (m db) as [db1 [a|e]]; simpl in Hm; subst db1.
  - apply Hf.
  - done.
Qed.

(** X4. [periodontal_exam_detail] is a pure read: whatever the request
    and whatever it answers or raises, it leaves the database as it was. *)
Theorem periodontal_exam_detail_writes_nothing (request : HttpRequest) (exam_id : Z)
    (db : Database) :
  fst (periodontal_exam_detail request exam_id db) = db.
Proof.
  unfold periodontal_exam_detail. destruct (user request); [|done].
  apply bind_keeps.
  { unfold get_PeriodontalExam_or_404. by destruct (find _ _). }
  intros exam. apply bind_keeps; [done|]. intros ms.
  apply bind_keeps; [done|]. intros td.
  apply bind_keeps; [done|]. intros prev.
  apply bind_keeps; [|done].
  destruct prev as [prev|]; [|done].
  apply bind_keeps; [done|]. done.
Qed.

Lemma empty_slots_exact (s : string) : is_Some (empty_slots !! s) <-> s ∈ surfaces.
Proof.
  unfold empty_slots, surfaces.
  destruct (decide (s = "buccal")) as [->|Hb].
  { rewrite lookup_insert_eq. split; [intros _; apply list_elem_of_here|eauto]. }
  rewrite lookup_insert_ne by done.
  destruct (decide (s = "lingual")) as [->|Hl].
  { rewrite lookup_singleton_eq.
    split; [intros _; apply list_elem_of_further, list_elem_of_here|eauto]. }
  rewrite lookup_singleton_ne by done. split; [by intros [? ?]|].
  intros Hin. apply elem_of_cons in Hin as [->|Hin]; [done|].
  apply list_elem_of_singleton in Hin. done.
Qed.

Lemma grid_exact_empty : grid_exact ∅.
Proof. intros t e He. by rewrite lookup_empty in He. Qed.

(** One turn of the organizing loop, by the surface of the measurement. *)
Lemma organize_step_outcome (g : grid) (m : ToothMeasurement.t) :
  grid_exact g ->
  if bool_decide (ToothMeasurement.surface m ∈ surfaces)
  then exists g', organize_step g m = Ok g' /\ grid_exact g'
  else organize_step g m = Raise KeyError.
Proof.
  intros Hex. unfold organize_step.
  set (t := ToothMeasurement.tooth_number m). set (s := ToothMeasurement.surface m).
  set (g1 := if bool_decide (g !! t = None) then <[t := empty_slots]> g else g).
  assert (grid_exact g1 /\ is_Some (g1 !! t)) as [Hex1 [e He]].
  { subst g1. case_bool_decide as Hg.
    - split; [|by rewrite lookup_insert_eq].
      intros t' e'. destruct (decide (t = t')) as [<-|Hne].
      + rewrite lookup_insert_eq. intros [= <-]. apply empty_slots_exact.
      + rewrite lookup_insert_ne by done. apply Hex.
    - split; [done|]. by destruct (g !! t); [eexists|]. }
  rewrite He. pose proof (Hex1 t e He s) as Hs.
  case_bool_decide as Hknown.
  - destruct (proj2 Hs Hknown) as [bp Hbp]. rewrite Hbp. eexists. split; [reflexivity|].
    intros t' e'. destruct (decide (t = t')) as [<-|Hne].
    + rewrite lookup_insert_eq. intros [= <-] s'.
      destruct (decide (s = s')) as [<-|Hs'].
      * rewrite lookup_insert_eq. split; [done|eauto].
      * rewrite lookup_insert_ne by done. apply (Hex1 t e He).
    + rewrite lookup_insert_ne by done. apply Hex1.
  - destruct (e !! s) as [bp|] eqn:Hbp; [|done]. destruct Hknown. apply Hs. eauto.
Qed.

(** The organizing loop succeeds exactly when every measurement has one of
    the two surfaces; otherwise it raises [KeyError]. *)
Lemma organize_outcome (ms : list ToothMeasurement.t) (g : grid) :
  grid_exact g ->
  if bool_decide (Forall (fun m => ToothMeasurement.surface m ∈ surfaces) ms)
  then exists g', organize g ms = Ok g'
  else organize g ms = Raise KeyError.
Proof.
  revert g. induction ms as [|m ms IH]; intros g Hex.
  - rewrite bool_decide_eq_true_2 by constructor. by exists g.
  - pose proof (organize_step_outcome g m Hex) as Hstep. cbn [organize].
    case_bool_decide as Hm.
    + destruct Hstep as (g1 & -> & Hex1). specialize (IH g1 Hex1).
      case_bool_decide as Hms.
      * rewrite bool_decide_eq_true_2 by by constructor. done.
      * rewrite bool_decide_eq_false_2; [done|]. intros Hall. apply Hms.
        by apply Forall_cons in Hall as [_ ?].
    + rewrite Hstep. rewrite bool_decide_eq_false_2; [done|]. intros Hall. apply Hm.
      by apply Forall_cons in Hall as [? _].
Qed.

Lemma Forall_order_by {A : Type} (le : A -> A -> bool) (P : A -> Prop) (l : list A) :
  Forall P (order_by le l) <-> Forall P l.
Proof. by rewrite order_by_perm. Qed.

(** X5. [periodontal_exam_detail] for a logged-in user and an existing
    exam succeeds exactly when every measurement row of the exam, and of
    the previous exam if there is one, has the surface 'buccal' or
    'lingual'; any other surface in these rows makes it raise [KeyError].
    An unknown position is no obstacle. *)
Theorem periodontal_exam_detail_key_error (request : HttpRequest) (exam_id : Z)
    (db : Database) (u : Z) (exam : PeriodontalExam.t) :
  user request = Some u ->
  find (fun e => PeriodontalExam.id e =? exam_id) (periodontal_exams db) = Some exam ->
  let known (e : Z) :=
    Forall (fun m => ToothMeasurement.surface m ∈ surfaces) (exam_measurements e db) in
  let all_known :=
    known (PeriodontalExam.id exam)
    /\ forall prev, previous_exam_of exam db = Some prev -> known (PeriodontalExam.id prev) in
  (all_known ->
     exists ctx, periodontal_exam_detail request exam_id db
                 = (db, Ok (Render "dental/periodontal_exam_detail.html" ctx)))
  /\ (~ all_known -> periodontal_exam_detail request exam_id db = (db, Raise KeyError)).
Proof.
  intros Hu Hfind known all_known.
  assert (forall e, if bool_decide (known e)
                    then exists g, organize ∅ (order_by measurement_le (exam_measurements e db))
                                   = Ok g
                    else organize ∅ (order_by measurement_le (exam_measurements e db))
                         = Raise KeyError) as Horg.
  { intros e. pose proof (organize_outcome (order_by measurement_le (exam_measurements e db))
                            ∅ grid_exact_empty) as Ho.
    subst known. cbv beta.
    destruct (decide (Forall (fun m => ToothMeasurement.surface m ∈ surfaces)
                        (exam_measurements e db))) as [Hk|Hk].
    - rewrite bool_decide_eq_true_2 by done.
      rewrite bool_decide_eq_true_2 in Ho by by apply Forall_order_by. done.
    - rewrite bool_decide_eq_false_2 by done.
      rewrite bool_decide_eq_false_2 in Ho; [done|]. by rewrite Forall_order_by. }
  unfold periodontal_exam_detail. rewrite Hu.
  erewrite bind_Ok; [|unfold get_PeriodontalExam_or_404; by rewrite Hfind].
  erewrite bind_Ok; [|reflexivity].
  pose proof (Horg (PeriodontalExam.id exam)) as Hcur.
  case_bool_decide as Hk.
  - destruct Hcur as [td Htd].
    erewrite bind_Ok; [|unfold lift_result; by rewrite Htd].
    erewrite bind_Ok; [|reflexivity].
    destruct (previous_exam_of exam db) as [prev|] eqn:Hprev.
    + pose proof (Horg (PeriodontalExam.id prev)) as Hp.
      case_bool_decide as Hkp.
      * destruct Hp as [pd Hpd]. split.
        -- intros _. eexists. erewrite bind_Ok; [reflexivity|].
           erewrite bind_Ok; [|reflexivity]. unfold lift_result. by rewrite Hpd.
        -- intros Hnot. destruct Hnot. split; [done|]. by intros ? [= <-].
      * split.
        -- intros [_ Hall]. destruct Hkp. by apply Hall.
        -- intros _. erewrite bind_Raise; [reflexivity|].
           erewrite bind_Ok; [|reflexivity]. unfold lift_result. by rewrite Hp.
    + split.
      * intros _. eexists. erewrite bind_Ok; reflexivity.
      * intros Hnot. destruct Hnot. split; [done|]. intros ? [=].
  - split.
    + intros [Hall _]. done.
    + intros _. erewrite bind_Raise; [reflexivity|]. unfold lift_result. by rewrite Hcur.
Qed.

Lemma periodontal_exam_detail_key_error_witness :
  periodontal_exam_detail staff_get 1 misspelt_db = (misspelt_db, Raise KeyError).
Proof.
  refine (proj2 (periodontal_exam_detail_key_error staff_get 1 misspelt_db 7
                   (PeriodontalExam.mk 1 1 100 (Some 7) "" 1) eq_refl eq_refl) _).
  intros [Hknown _]. apply Forall_cons in Hknown as [Hs _].
  cbn in Hs. unfold surfaces in Hs.
  apply elem_of_cons in Hs as [Hs|Hs]; [discriminate|].
  apply list_elem_of_singleton in Hs. discriminate.
Defined.

(** ** [periodontal_exam_create]: refusals and the fields it reads *)

Section exam_create_more.
Variable to_python_date : string -> option Z.

(** X6. A request that [periodontal_exam_create] refuses writes nothing:
    without a logged-in user it redirects to the login page; for a patient
    that does not exist (for a key within the integers of the database) it
    raises [Http404]; by a method other than POST it
    renders the empty form for the 16 upper and 16 lower teeth, which are
    the teeth the POST loops read; a POST without an exam date raises
    [IntegrityError] before the exam row is written. *)
Theorem periodontal_exam_create_refusals (now : Z) (request : HttpRequest) (patient_id : Z)
    (db : Database) :
  (user request = None ->
     periodontal_exam_create to_python_date now request patient_id db
     = (db, Ok RedirectToLogin))
  /\ (forall u, user request = Some u ->
        (find (fun p => bool_decide (Patient.id p = Some patient_id)) (patients db) = None ->
         0 <= patient_id <= 9223372036854775807 ->
           periodontal_exam_create to_python_date now request patient_id db
           = (db, Raise Http404))
        /\ (forall pat,
              find (fun p => bool_decide (Patient.id p = Some patient_id)) (patients db)
              = Some pat ->
              (method request <> "POST" ->
                 exists ctx,
                   periodontal_exam_create to_python_date now request patient_id db
                   = (db, Ok (Render "dental/periodontal_exam_form.html" ctx))
                   /\ ef_patient ctx = pat
                   /\ upper_teeth ctx ++ lower_teeth ctx = tooth_numbers)
              /\ (method request = "POST" -> POST request !! "exam_date" = None ->
                  periodontal_exam_create to_python_date now request patient_id db
                  = (db, Raise IntegrityError)))).
Proof.
  unfold periodontal_exam_create. split; [by intros ->|].
  intros u ->. split.
  { intros Hnone _. erewrite bind_Raise; [reflexivity|].
    unfold get_Patient_or_404. by rewrite Hnone. }
  intros pat Hpat. split.
  - intros Hm. apply String.eqb_neq in Hm.
    erewrite bind_Ok; [|unfold get_Patient_or_404; by rewrite Hpat].
    rewrite Hm. eexists. split; [reflexivity|]. done.
  - intros Hm Hdate.
    erewrite bind_Ok; [|unfold get_Patient_or_404; by rewrite Hpat].
    rewrite Hm. change (("POST" =? "POST")%string) with true. cbv beta iota.
    erewrite bind_Raise; [reflexivity|].
    unfold PeriodontalExam_objects_create. by rewrite Hdate.
Qed.

Lemma bind_ext {A B : Type} (m1 m2 : View A) (f1 f2 : A -> View B) db :
  m1 db = m2 db -> (forall a db', f1 a db' = f2 a db') -> (m1 ≫= f1) db = (m2 ≫= f2) db.
Proof.
  intros Hm Hf. unfold mbind, View_bind. rewrite Hm.
  destruct (m2 db) as [db1 [a|e]]; [apply Hf|done].
Qed.

Lemma for_ext_in {A : Type} (l : list A) (body1 body2 : A -> View unit) db :
  (forall x db, x ∈ l -> body1 x db = body2 x db) -> for_ l body1 db = for_ l body2 db.
Proof.
  revert db. induction l as [|x l IH]; intros db Hext; [done|].
  simpl. unfold mbind, View_bind. rewrite Hext by apply list_elem_of_here.
  destruct (body2 x db) as [db1 [[]|e]]; [|done].
  apply IH. intros y db2 Hy. apply Hext. by apply list_elem_of_further.
Qed.

Lemma form_fields_of_key (k : key) :
  k ∈ canonical_keys ->
  depth_field k.1.1 k.1.2 k.2 ∈ form_fields
  /\ bleeding_field k.1.1 k.1.2 k.2 ∈ form_fields
  /\ calculus_field k.1.1 k.1.2 k.2 ∈ form_fields.
Proof.
  intros Hk. unfold form_fields. rewrite !list_elem_of_bind.
  split; [|split]; exists k; (split; [|done]).
  - apply list_elem_of_here.
  - apply list_elem_of_further, list_elem_of_here.
  - do 2 apply list_elem_of_further. apply list_elem_of_here.
Qed.

(** X7. [periodontal_exam_create] reads nothing of a request but the
    user, the method and the form fields 'exam_date', 'notes' and the 576
    depth, bleeding and calculus fields of the 192 combinations: two
    requests that agree on these get the same response and leave the same
    database.  Fields of other teeth and the CSRF token change nothing. *)
Theorem periodontal_exam_create_reads_form_fields_only (now : Z)
    (request1 request2 : HttpRequest) (patient_id : Z) (db : Database) :
  user request1 = user request2 -> method request1 = method request2 ->
  (forall name, name ∈ "exam_date" :: "notes" :: form_fields ->
                POST request1 !! name = POST request2 !! name) ->
  periodontal_exam_create to_python_date now request1 patient_id db
  = periodontal_exam_create to_python_date now request2 patient_id db.
Proof.
  intros Hu Hm Hpost. unfold periodontal_exam_create. rewrite Hu, Hm.
  destruct (user request2) as [u|]; [|done].
  apply bind_ext; [done|]. intros pat db1.
  destruct (String.eqb _ _); [|done].
  rewrite (Hpost "exam_date") by apply list_elem_of_here.
  rewrite (Hpost "notes") by apply list_elem_of_further, list_elem_of_here.
  apply bind_ext; [done|]. intros exam db2.
  apply bind_ext; [|done]. rewrite !nested_loops_canonical.
  apply for_ext_in. intros k db3 Hk. apply form_fields_of_key in Hk as (Hd & Hb & Hc).
  unfold process_measurement.
  rewrite (Hpost (depth_field _ _ _)) by by do 2 apply list_elem_of_further.
  rewrite (Hpost (bleeding_field _ _ _)) by by do 2 apply list_elem_of_further.
  rewrite (Hpost (calculus_field _ _ _)) by by do 2 apply list_elem_of_further.
  done.
Qed.

End exam_create_more.

Lemma periodontal_exam_create_refusals_witness :
  periodontal_exam_create IsoDate.to_python 100 (mkRequest "POST" None post_sparse BadJson) 1
    clinic_db = (clinic_db, Ok RedirectToLogin)
  /\ periodontal_exam_create IsoDate.to_python 100 (staff_post post_sparse) 9 clinic_db
     = (clinic_db, Raise Http404)
  /\ periodontal_exam_create IsoDate.to_python 100 (staff_post ∅) 1 clinic_db
     = (clinic_db, Raise IntegrityError).
Proof.
  split; [|split].
  - exact (proj1 (periodontal_exam_create_refusals IsoDate.to_python 100
                    (mkRequest "POST" None post_sparse BadJson) 1 clinic_db) eq_refl).
  - destruct (periodontal_exam_create_refusals IsoDate.to_python 100 (staff_post post_sparse) 9
                clinic_db) as [_ Hin].
    apply (proj1 (Hin 7 eq_refl) eq_refl). lia.
  - destruct (periodontal_exam_create_refusals IsoDate.to_python 100 (staff_post ∅) 1
                clinic_db) as [_ Hin].
    destruct (Hin 7 eq_refl) as [_ Hfound].
    destruct (Hfound (Patient.mk (Some 1) "P20250001" "Hanako" "Sato" true) eq_refl)
      as [_ Hpost].
    exact (Hpost eq_refl eq_refl).
Defined.

Lemma form_fields_lookup_token name :
  name ∈ "exam_date" :: "notes" :: form_fields ->
  post_sparse_with_token !! name = post_sparse !! name.
Proof.
  intros Hin.
  assert (forallb (fun n => bool_decide (post_sparse_with_token !! n = post_sparse !! n))
            ("exam_date" :: "notes" :: form_fields) = true) as Hall
    by (vm_compute; reflexivity).
  rewrite forallb_forall in Hall. apply list_elem_of_In in Hin.
  specialize (Hall name Hin). by apply bool_decide_eq_true in Hall.
Qed.

Lemma periodontal_exam_create_reads_form_fields_only_witness :
  periodontal_exam_create IsoDate.to_python 100 (staff_post post_sparse_with_token) 1 clinic_db
  = periodontal_exam_create IsoDate.to_python 100 (staff_post post_sparse) 1 clinic_db.
Proof.
  apply (periodontal_exam_create_reads_form_fields_only IsoDate.to_python 100
           (staff_post post_sparse_with_token) (staff_post post_sparse) 1 clinic_db
           eq_refl eq_refl form_fields_lookup_token).
Defined.

(** ** [patient_detail]: what the chart page is given *)

Lemma teeth_dict_of_lookup (qs : list Tooth.t) (n : Z) (t : Tooth.t) :
  teeth_dict_of qs !! n = Some t -> t ∈ qs /\ Tooth.tooth_number t = n.
Proof.
  unfold teeth_dict_of.
  assert (forall d : gmap Z Tooth.t,
            foldl (fun d tooth => <[Tooth.tooth_number tooth := tooth]> d) d qs !! n = Some t ->
            (t ∈ qs /\ Tooth.tooth_number t = n) \/ d !! n = Some t) as Hgen.
  { induction qs as [|x qs IH]; intros d Hl; [by right|]. simpl in Hl.
    destruct (IH _ Hl) as [[Hin Hn]|Hd].
    - left. split; [by apply list_elem_of_further|done].
    - destruct (decide (Tooth.tooth_number x = n)) as [Hx|Hx].
      + rewrite <- Hx, lookup_insert_eq in Hd. injection Hd as ->.
        left. split; [apply list_elem_of_here|done].
      + rewrite lookup_insert_ne in Hd by done. by right. }
  intros Hl. destruct (Hgen ∅ Hl) as [?|Hd]; [done|]. by rewrite lookup_empty in Hd.
Qed.

Lemma teeth_dict_of_has (qs : list Tooth.t) (t : Tooth.t) :
  t ∈ qs -> is_Some (teeth_dict_of qs !! Tooth.tooth_number t).
Proof.
  unfold teeth_dict_of.
  assert (forall d : gmap Z Tooth.t,
            t ∈ qs \/ is_Some (d !! Tooth.tooth_number t) ->
            is_Some (foldl (fun d tooth => <[Tooth.tooth_number tooth := tooth]> d) d qs
                     !! Tooth.tooth_number t)) as Hgen.
  { induction qs as [|x qs IH]; intros d [Hin|Hd].
    - by apply elem_of_nil in Hin.
    - done.
    - simpl. apply IH. apply elem_of_cons in Hin as [->|Hin]; [|by left].
      right. by rewrite lookup_insert_eq.
    - simpl. apply IH. right.
      destruct (decide (Tooth.tooth_number x = Tooth.tooth_number t)) as [->|Hne].
      + by rewrite lookup_insert_eq.
      + by rewrite lookup_insert_ne. }
  intros Hin. apply Hgen. by left.
Qed.

Lemma elem_of_patient_teeth patient db t :
  t ∈ patient_teeth patient db <-> t ∈ teeth db /\ Tooth.patient t = patient.
Proof.
  unfold patient_teeth. rewrite order_by_perm, elem_of_List_filter. by rewrite Z.eqb_eq.
Qed.

(** X8. Whenever [patient_detail] renders its page, the flag
    [has_dental_chart] is true, the patient of the page is the one asked
    for, and [teeth_dict] maps exactly the tooth numbers of the rows the
    patient has after the view, each to a row of that patient with that
    number; on the first view of a patient it has an entry for each of the
    32 teeth, all healthy. *)
Theorem patient_detail_context (now : Z) (request : HttpRequest) (patient_id : Z)
    (db : Database) (template : string) (ctx : PatientDetailContext) :
  snd (patient_detail now request patient_id db) = Ok (Render template ctx) ->
  let db' := fst (patient_detail now request patient_id db) in
  has_dental_chart ctx = true
  /\ Patient.id (pd_patient ctx) = Some patient_id
  /\ (forall n t, teeth_dict ctx !! n = Some t ->
                  t ∈ teeth db' /\ Tooth.patient t = patient_id /\ Tooth.tooth_number t = n)
  /\ (forall t, t ∈ teeth db' -> Tooth.patient t = patient_id ->
                is_Some (teeth_dict ctx !! Tooth.tooth_number t))
  /\ (teeth_of patient_id db = [] ->
      forall n, n ∈ fdi_order ->
                exists t, teeth_dict ctx !! n = Some t /\ Tooth.status t = "healthy"
                          /\ Tooth.notes t = "").
Proof.
  intros Hrender db'. subst db'.
  destruct (user request) as [u|] eqn:Hu;
    [|by unfold patient_detail in Hrender; rewrite Hu in Hrender].
  destruct (find (fun p => bool_decide (Patient.id p = Some patient_id)) (patients db))
    as [p|] eqn:Hp.
  2:{ unfold patient_detail in Hrender. rewrite Hu in Hrender.
      erewrite bind_Raise in Hrender; [done|]. unfold get_Patient_or_404. by rewrite Hp. }
  assert (Patient.id p = Some patient_id) as Hpid.
  { apply find_some in Hp as [_ Hpid]. by apply bool_decide_eq_true in Hpid. }
  rewrite (patient_detail_run _ _ _ _ _ _ Hu Hp) in Hrender |- *.
  set (db1 := set_teeth (teeth db ++ created_teeth now patient_id
                                       (next_pk (Tooth.id <$> teeth db)) tooth_numbers) db)
    in *.
  assert (forall dbx, patient_teeth patient_id dbx <> [] ->
            ctx = mkPatientDetail p (teeth_dict_of (patient_teeth patient_id dbx))
                    (bool_decide (patient_teeth patient_id dbx <> [])) ->
            has_dental_chart ctx = true
            /\ Patient.id (pd_patient ctx) = Some patient_id
            /\ (forall n t, teeth_dict ctx !! n = Some t ->
                  t ∈ teeth dbx /\ Tooth.patient t = patient_id /\ Tooth.tooth_number t = n)
            /\ (forall t, t ∈ teeth dbx -> Tooth.patient t = patient_id ->
                  is_Some (teeth_dict ctx !! Tooth.tooth_number t))) as Hctx.
  { intros dbx Hne ->. cbn [has_dental_chart pd_patient teeth_dict].
    split; [by apply bool_decide_eq_true_2|]. split; [done|]. split.
    - intros n t Hl. apply teeth_dict_of_lookup in Hl as [Hin Hn].
      apply elem_of_patient_teeth in Hin as [Hin Hpt]. done.
    - intros t Hin Hpt. apply teeth_dict_of_has. by apply elem_of_patient_teeth. }
  destruct (decide (teeth_of patient_id db = [])) as [Hnil|Hne].
  - rewrite (bool_decide_eq_true_2 _ Hnil) in Hrender |- *. cbn [fst snd] in Hrender |- *.
    injection Hrender as _ Hc. symmetry in Hc.
    assert (patient_teeth patient_id db1 <> []) as Hne1.
    { rewrite patient_teeth_nil. unfold teeth_of, db1. cbn [teeth set_teeth].
      rewrite List.filter_app. intros Hf. apply app_eq_nil in Hf as [_ Hf].
      by apply created_teeth_filter in Hf. }
    destruct (Hctx db1 Hne1 Hc) as (H1 & H2 & H3 & H4).
    split; [done|]. split; [done|]. split; [done|]. split; [done|].
    intros _ n Hn.
    assert (exists t, t ∈ created_teeth now patient_id (next_pk (Tooth.id <$> teeth db))
                          tooth_numbers /\ Tooth.tooth_number t = n) as (t0 & Hin0 & Hn0).
    { pose proof (created_teeth_columns now patient_id (next_pk (Tooth.id <$> teeth db))
                    tooth_numbers) as Hcols.
      assert ((patient_id, n, "healthy", "")
              ∈ (fun n => (patient_id, n, "healthy", "")) <$> tooth_numbers) as Hrow.
      { apply list_elem_of_fmap. exists n. by rewrite tooth_numbers_fdi. }
      rewrite <- Hcols in Hrow. apply list_elem_of_fmap in Hrow as (t0 & Heq & Hin0).
      exists t0. split; [done|]. by injection Heq. }
    assert (t0 ∈ teeth db1) as Hin1 by (apply elem_of_app; by right).
    pose proof (created_teeth_patient _ _ _ _ _ Hin0) as Hp0.
    destruct (H4 t0 Hin1 Hp0) as [t Ht]. rewrite Hn0 in Ht. exists t. split; [done|].
    destruct (H3 n t Ht) as (Hin & Hpt & Hnt).
    unfold db1 in Hin. cbn [teeth set_teeth] in Hin. apply elem_of_app in Hin as [Hin|Hin].
    + assert (t ∈ teeth_of patient_id db) as Hold.
      { apply elem_of_List_filter. split; [done|]. by apply Z.eqb_eq. }
      rewrite Hnil in Hold. by apply elem_of_nil in Hold.
    + pose proof (created_teeth_columns now patient_id (next_pk (Tooth.id <$> teeth db))
                    tooth_numbers) as Hcols.
      assert ((Tooth.patient t, Tooth.tooth_number t, Tooth.status t, Tooth.notes t)
              ∈ (fun n => (patient_id, n, "healthy", "")) <$> tooth_numbers) as Hrow.
      { rewrite <- Hcols. apply list_elem_of_fmap. by exists t. }
      apply list_elem_of_fmap in Hrow as (n' & Heq & _). by injection Heq as _ _ -> ->.
  - rewrite (bool_decide_eq_false_2 _ Hne) in Hrender |- *. cbn [fst snd] in Hrender |- *.
    injection Hrender as _ Hc. symmetry in Hc.
    assert (patient_teeth patient_id db <> []) as Hne1 by by rewrite patient_teeth_nil.
    destruct (Hctx db Hne1 Hc) as (H1 & H2 & H3 & H4). done.
Qed.

Lemma lazy_chart_run_example :
  exists ctx, snd (patient_detail 100 staff_get 1 clinic_db)
              = Ok (Render "dental/patient_detail.html" ctx).
Proof.
  rewrite (patient_detail_run 100 staff_get 1 clinic_db 7
             (Patient.mk (Some 1) "P20250001" "Hanako" "Sato" true) eq_refl eq_refl).
  rewrite bool_decide_eq_true_2 by reflexivity. cbn [snd]. by eexists.
Defined.

Lemma patient_detail_context_witness :
  exists ctx,
    snd (patient_detail 100 staff_get 1 clinic_db) = Ok (Render "dental/patient_detail.html" ctx)
    /\ has_dental_chart ctx = true
    /\ exists t, teeth_dict ctx !! 38 = Some t /\ Tooth.status t = "healthy".
Proof.
  destruct (lazy_chart_run_example) as [ctx Hrun].
  exists ctx. split; [exact Hrun|].
  destruct (patient_detail_context 100 staff_get 1 clinic_db _ ctx Hrun)
    as (Hflag & _ & _ & _ & Hfresh).
  split; [exact Hflag|].
  destruct (Hfresh eq_refl 38) as (t & Ht & Hs & _).
  - unfold fdi_order. do 31 apply list_elem_of_further. apply list_elem_of_here.
  - exists t. split; [exact Ht|exact Hs].
Defined.

(** ** [Patient.save]: what the identifier scheme keeps and where it stops *)

Lemma leb_app_prefix (p a b : string) : String.leb (p +:+ a) (p +:+ b) = String.leb a b.
Proof.
  induction p as [|c p IH]; [done|].
  unfold String.leb in *. simpl.
  assert (Ascii.compare c c = Eq) as -> by apply N.compare_refl.
  exact IH.
Qed.

Lemma startswith_app (p x : string) : Py.startswith (p +:+ x) p = true.
Proof.
  unfold Py.startswith. induction p as [|c p IH]; simpl; [by destruct x|].
  destruct (ascii_dec c c); [done|congruence].
Qed.

Lemma last4_app (s t : string) : String.length t = 4%nat -> Py.last4 (s +:+ t) = t.
Proof.
  intros Ht. unfold Py.last4.
  assert (String.length (s +:+ t) = String.length s + 4)%nat as ->.
  { induction s as [|c s IH]; simpl; [exact Ht|by rewrite IH]. }
  replace (String.length s + 4 - 4)%nat with (String.length s) by lia.
  induction s as [|c s IH]; cbn [String.append String.length Py.drop_chars];
    [by destruct t|done].
Qed.

Lemma format_04d_counter (c : Z) :
  0 <= c <= 9998 ->
  String.length (Py.format_04d c) = 4%nat
  /\ String.length (Py.format_04d (c + 1)) = 4%nat
  /\ String.ltb (Py.format_04d c) (Py.format_04d (c + 1)) = true.
Proof.
  intros Hc.
  assert (forallb (fun c => (String.length (Py.format_04d c) =? 4)%nat
                            && (String.length (Py.format_04d (c + 1)) =? 4)%nat
                            && String.ltb (Py.format_04d c) (Py.format_04d (c + 1)))
            (seqZ 0 9999) = true) as Hall by (vm_compute; reflexivity).
  rewrite forallb_forall in Hall. specialize (Hall c).
  rewrite <- list_elem_of_In, elem_of_seqZ in Hall.
  destruct (andb_prop _ _ (Hall ltac:(lia))) as [H12 H3].
  destruct (andb_prop _ _ H12) as [H1 H2].
  by rewrite !Nat.eqb_eq in *.
Qed.

Lemma string_ltb_leb (a b : string) : String.ltb a b = true -> String.leb a b = true.
Proof. unfold String.ltb, String.leb. by destruct (String.compare a b). Qed.

Lemma Patient_super_save_rows self rows rows' r :
  snd (Patient_super_save self rows) = Ok rows' -> r ∈ rows' ->
  r = fst (Patient_super_save self rows) \/ r ∈ rows.
Proof.
  unfold Patient_super_save. destruct (existsb _ rows); [done|].
  destruct (Patient.id self) as [pk|]; simpl.
  - destruct (existsb _ rows); simpl; intros [= <-] Hin.
    + apply list_elem_of_fmap in Hin as (x & -> & Hx). destruct (bool_decide _); auto.
    + apply elem_of_app in Hin as [?|Hin]; [by right|].
      apply list_elem_of_singleton in Hin. by left.
  - intros [= <-] Hin. apply elem_of_app in Hin as [?|Hin]; [by right|].
    apply list_elem_of_singleton in Hin. by left.
Qed.

Lemma Patient_save_rows year self rows rows' r :
  snd (Patient_save year self rows) = Ok rows' -> r ∈ rows' ->
  r = fst (Patient_save year self rows) \/ r ∈ rows.
Proof.
  unfold Patient_save. destruct (negb _).
  - destruct (last _) as [lp|]; [destruct (Py.int _)|]; simpl;
      try done; apply Patient_super_save_rows.
  - apply Patient_super_save_rows.
Qed.

(** X9. Identifiers are issued in sequence: in a table whose identifiers
    of the year end in counters between 1 and 9998, a save of a patient
    without identifier that succeeds, followed by a save of another one,
    assigns two consecutive counters. *)
Theorem Patient_save_consecutive (year : Z) (self1 self2 : Patient.t)
    (rows rows1 : list Patient.t) :
  Patient.patient_id self1 = "" -> Patient.patient_id self2 = "" ->
  counters_below_overflow Patient.patient_id ("P" +:+ Py.str year) rows ->
  snd (Patient_save year self1 rows) = Ok rows1 ->
  exists n, 1 <= n <= 9999
            /\ Patient.patient_id (fst (Patient_save year self1 rows))
               = "P" +:+ Py.str year +:+ Py.format_04d n
            /\ Patient.patient_id (fst (Patient_save year self2 rows1))
               = "P" +:+ Py.str year +:+ Py.format_04d (n + 1).
Proof.
  intros Hu1 Hu2 Hwf Hok.
  set (prefix := "P" +:+ Py.str year) in *.
  set (p1 := fst (Patient_save year self1 rows)) in *.
  pose proof (filter_order_by_last Patient.patient_id prefix rows) as Hlast.
  assert (exists n, 1 <= n <= 9999
                    /\ Patient.patient_id p1 = prefix +:+ Py.format_04d n
                    /\ forall r, r ∈ rows -> Py.startswith (Patient.patient_id r) prefix = true ->
                                 String.leb (Patient.patient_id r) (Patient.patient_id p1)
                                 = true) as (n & Hn & Hp1 & Hmax).
  { unfold p1. rewrite Patient_save_patient_id, Hu1. cbn [Py.truthy]. fold prefix.
    destruct (last _) as [lp|].
    - destruct Hlast as (Hin & Hpre & Hhigh).
      destruct (Hwf lp Hin Hpre) as (c & Hc & Hkey).
      destruct (format_04d_counter c ltac:(lia)) as (Hlen & _ & Hlt).
      rewrite Hkey, last4_app, int_format_04d by (done || lia).
      exists (c + 1). split; [lia|]. split; [done|].
      intros r Hr Hrp. eapply string_leb_trans; [by apply Hhigh|].
      rewrite Hkey. change (String.leb (prefix +:+ Py.format_04d c)
                              (prefix +:+ Py.format_04d (c + 1)) = true).
      rewrite leb_app_prefix. by apply string_ltb_leb.
    - exists 1. split; [lia|]. split; [done|].
      intros r Hr Hrp. by rewrite (Hlast r Hr) in Hrp. }
  exists n. split; [done|]. split; [exact Hp1|].
  destruct (next_identifier Patient.patient_id prefix rows1) as [Hsome _].
  rewrite Patient_save_patient_id, Hu2. cbn [Py.truthy]. fold prefix.
  assert (String.length (Py.format_04d n) = 4%nat) as Hlen.
  { destruct (format_04d_counter (n - 1) ltac:(lia)) as (_ & Hl & _).
    by replace (n - 1 + 1) with n in Hl by lia. }
  destruct (Hsome p1 n) as (lp & -> & ->); [|lia| |done].
  - split; [by apply Patient_save_persists|]. split.
    + rewrite Hp1. apply startswith_app.
    + intros r Hr Hrp. destruct (Patient_save_rows _ _ _ _ _ Hok Hr) as [->|Hin].
      * by destruct (String.leb_total (Patient.patient_id p1) (Patient.patient_id p1)).
      * by apply Hmax.
  - rewrite Hp1. by apply last4_app.
Qed.

Lemma Patient_save_consecutive_witness :
  exists n, 1 <= n <= 9999
            /\ Patient.patient_id (fst (Patient_save 2025 (new_patient "Yui" "Abe")
                                          patients_2025))
               = "P" +:+ Py.str 2025 +:+ Py.format_04d n
            /\ Patient.patient_id
                 (fst (Patient_save 2025 (new_patient "Mio" "Ono")
                         (patients_2025
                          ++ [Patient.mk (Some 4) "P20250008" "Yui" "Abe" true])))
               = "P" +:+ Py.str 2025 +:+ Py.format_04d (n + 1).
Proof.
  apply (Patient_save_consecutive 2025 (new_patient "Yui" "Abe") (new_patient "Mio" "Ono")
           patients_2025
           (patients_2025 ++ [Patient.mk (Some 4) "P20250008" "Yui" "Abe" true])
           eq_refl eq_refl).
  - intros r Hr Hp. unfold patients_2025 in Hr. elem_cases Hr.
    + discriminate Hp.
    + exists 1. split; [lia|reflexivity].
    + exists 7. split; [lia|reflexivity].
  - by vm_compute.
Defined.

Lemma Patient_save_insert year self rows n :
  Patient.id self = None -> Patient.patient_id self = "" ->
  match last (order_by (fun a b => String.leb (Patient.patient_id a) (Patient.patient_id b))
                (List.filter (fun p => Py.startswith (Patient.patient_id p)
                                         ("P" +:+ Py.str year)) rows)) with
  | Some lp => Py.int (Py.last4 (Patient.patient_id lp)) = Some (n - 1)
  | None => n = 1
  end ->
  let p := Patient.mk (Some (next_pk (omap Patient.id rows)))
             ("P" +:+ Py.str year +:+ Py.format_04d n)
             (Patient.first_name self) (Patient.last_name self) (Patient.is_active self) in
  Patient_save year self rows =
  if existsb (fun r => String.eqb (Patient.patient_id r)
                         ("P" +:+ Py.str year +:+ Py.format_04d n)
                       && negb (bool_decide (Patient.id r = Patient.id self))) rows
  then (Patient.set_patient_id ("P" +:+ Py.str year +:+ Py.format_04d n) self,
        Raise IntegrityError)
  else (p, Ok (rows ++ [p])).
Proof.
  intros Hid Hu Hlast p. unfold Patient_save. rewrite Hu. cbn [Py.truthy negb].
  assert (match last (order_by (fun a b => String.leb (Patient.patient_id a)
                                             (Patient.patient_id b))
                        (List.filter (fun p => Py.startswith (Patient.patient_id p)
                                                 ("P" +:+ Py.str year)) rows)) with
          | Some lp => match Py.int (Py.last4 (Patient.patient_id lp)) with
                       | Some last_number => Ok (last_number + 1)
                       | None => Raise ValueError
                       end
          | None => Ok 1
          end = Ok n) as ->.
  { destruct (last _) as [lp|]; [|by subst n]. rewrite Hlast. f_equal. lia. }
  subst p. destruct self as [id pid first last active].
  cbn [Patient.id Patient.patient_id] in Hid, Hu. subst id pid.
  unfold Patient_super_save.
  cbn [Patient.patient_id Patient.id Patient.set_patient_id Patient.set_id
       Patient.first_name Patient.last_name Patient.is_active].
  match goal with
  | |- (if ?a then _ else _) = (if ?b then _ else _) => change a with b; by destruct b
  end.
Qed.

(** X10. The counter stops at 10000.  When the highest identifier of the
    year is the prefix followed by 9999 and no row has the prefix followed
    by 10000 yet, the save of a new patient stores it under that
    five-digit identifier; 9999 stays the highest identifier in the order
    of strings, so the save of the next new patient generates the same
    identifier again and fails with [IntegrityError]. *)
Theorem Patient_save_stops_after_overflow (year : Z) (self1 self2 : Patient.t)
    (rows : list Patient.t) (l : Patient.t) :
  Patient.id self1 = None -> Patient.patient_id self1 = "" ->
  Patient.id self2 = None -> Patient.patient_id self2 = "" ->
  highest_with_prefix Patient.patient_id ("P" +:+ Py.str year) rows l ->
  Patient.patient_id l = "P" +:+ Py.str year +:+ "9999" ->
  (forall r, r ∈ rows -> Patient.patient_id r <> "P" +:+ Py.str year +:+ "10000") ->
  exists p1,
    Patient_save year self1 rows = (p1, Ok (rows ++ [p1]))
    /\ Patient.patient_id p1 = "P" +:+ Py.str year +:+ "10000"
    /\ Patient_save year self2 (rows ++ [p1])
       = (Patient.set_patient_id ("P" +:+ Py.str year +:+ "10000") self2,
          Raise IntegrityError).
Proof.
  intros Hid1 Hu1 Hid2 Hu2 Hl Hkey Hfresh.
  set (prefix := "P" +:+ Py.str year) in *.
  assert (Py.last4 (Patient.patient_id l) = Py.format_04d 9999) as Hlast4.
  { rewrite Hkey. by apply (last4_app prefix "9999"). }
  set (p1 := Patient.mk (Some (next_pk (omap Patient.id rows))) (prefix +:+ "10000")
               (Patient.first_name self1) (Patient.last_name self1)
               (Patient.is_active self1)).
  exists p1. split; [|split; [done|]].
  - destruct (next_identifier Patient.patient_id prefix rows) as [Hsome _].
    destruct (Hsome l 9999 Hl ltac:(lia) Hlast4) as (lp & Hlp & Hint).
    rewrite (Patient_save_insert year self1 rows 10000 Hid1 Hu1).
    2:{ fold prefix. by rewrite Hlp, Hint. }
    destruct (existsb _ rows) eqn:Hex; [exfalso|reflexivity].
    apply existsb_exists in Hex as (r & Hr & Hc).
    apply andb_true_iff in Hc as [Hc _]. apply String.eqb_eq in Hc.
    apply list_elem_of_In in Hr. by destruct (Hfresh r Hr).
  - assert (highest_with_prefix Patient.patient_id prefix (rows ++ [p1]) l) as Hl1.
    { destruct Hl as (Hin & Hpre & Hmax). split; [apply elem_of_app; by left|].
      split; [done|]. intros r Hr Hrp. apply elem_of_app in Hr as [Hr|Hr]; [by apply Hmax|].
      apply list_elem_of_singleton in Hr as ->. rewrite Hkey.
      change (String.leb (prefix +:+ "10000") (prefix +:+ "9999") = true).
      by rewrite leb_app_prefix. }
    destruct (next_identifier Patient.patient_id prefix (rows ++ [p1])) as [Hsome _].
    destruct (Hsome l 9999 Hl1 ltac:(lia) Hlast4) as (lp & Hlp & Hint).
    rewrite (Patient_save_insert year self2 (rows ++ [p1]) 10000 Hid2 Hu2).
    2:{ fold prefix. by rewrite Hlp, Hint. }
    rewrite (proj2 (existsb_exists _ _)); [done|].
    exists p1. split; [apply in_or_app; right; by left|].
    rewrite Hid2. change (Py.format_04d 10000) with "10000".
    subst p1 prefix. cbn [Patient.patient_id Patient.id].
    by rewrite String.eqb_refl.
Qed.

Lemma Patient_save_stops_after_overflow_witness :
  exists p1,
    Patient_save 2025 (new_patient "Yui" "Abe") patients_full
    = (p1, Ok (patients_full ++ [p1]))
    /\ Patient.patient_id p1 = "P" +:+ Py.str 2025 +:+ "10000"
    /\ Patient_save 2025 (new_patient "Mio" "Ono") (patients_full ++ [p1])
       = (Patient.set_patient_id ("P" +:+ Py.str 2025 +:+ "10000") (new_patient "Mio" "Ono"),
          Raise IntegrityError).
Proof.
  apply (Patient_save_stops_after_overflow 2025 (new_patient "Yui" "Abe")
           (new_patient "Mio" "Ono") patients_full
           (Patient.mk (Some 2) "P20259999" "Ken" "Ito" true) eq_refl eq_refl eq_refl eq_refl).
  - split; [apply list_elem_of_further, list_elem_of_here|]. split; [reflexivity|].
    intros r Hr _. unfold patients_full in Hr. elem_cases Hr; reflexivity.
  - reflexivity.
  - intros r Hr. unfold patients_full in Hr. elem_cases Hr; discriminate.
Defined.

(** X11. One identifier that does not end in an integer blocks the year:
    when the last four characters of the highest identifier with the
    year's prefix, an identifier of plain text, are not an integer
    literal, the save of a patient without identifier raises
    [ValueError], assigns nothing and stores nothing. *)
Theorem Patient_save_value_error (year : Z) (self : Patient.t) (rows : list Patient.t)
    (l : Patient.t) :
  Patient.patient_id self = "" ->
  highest_with_prefix Patient.patient_id ("P" +:+ Py.str year) rows l ->
  Py.plain (Patient.patient_id l) = true ->
  Py.int (Py.last4 (Patient.patient_id l)) = None ->
  Patient_save year self rows = (self, Raise ValueError).
Proof.
  intros Hu Hl _ Hint. unfold Patient_save. rewrite Hu. cbn [Py.truthy negb].
  pose proof (filter_order_by_last Patient.patient_id ("P" +:+ Py.str year) rows) as Hlast.
  destruct (last _) as [lp|].
  - by rewrite (highest_with_prefix_key _ _ _ _ _ Hlast Hl), Hint.
  - destruct Hl as (Hin & Hpre & _). by rewrite (Hlast l Hin) in Hpre.
Qed.

Lemma Patient_save_value_error_witness :
  Patient_save 2025 (new_patient "Yui" "Abe") patients_imported
  = (new_patient "Yui" "Abe", Raise ValueError).
Proof.
  apply (Patient_save_value_error 2025 (new_patient "Yui" "Abe") patients_imported
           (Patient.mk (Some 2) "P2025A001" "Ken" "Ito" true) eq_refl).
  - split; [apply list_elem_of_further, list_elem_of_here|]. split; [reflexivity|].
    intros r Hr _. unfold patients_imported in Hr. elem_cases Hr; reflexivity.
  - reflexivity.
  - reflexivity.
Defined.

Lemma no_clash_spec (self : Patient.t) (rows : list Patient.t) :
  existsb (fun r => String.eqb (Patient.patient_id r) (Patient.patient_id self)
                    && negb (bool_decide (Patient.id r = Patient.id self))) rows = false ->
  forall r, r ∈ rows -> Patient.patient_id r = Patient.patient_id self ->
            Patient.id r = Patient.id self.
Proof.
  intros Hex r Hr Hpid. destruct (decide (Patient.id r = Patient.id self)) as [|Hne]; [done|].
  assert (existsb (fun r => String.eqb (Patient.patient_id r) (Patient.patient_id self)
                            && negb (bool_decide (Patient.id r = Patient.id self))) rows
          = true); [|congruence].
  apply existsb_exists. exists r. split; [by apply list_elem_of_In|].
  rewrite Hpid, String.eqb_refl. by rewrite bool_decide_eq_false_2.
Qed.

Lemma replace_patient_unique (pk : Z) (self : Patient.t) (rows : list Patient.t) :
  Patient.id self = Some pk ->
  (forall r, r ∈ rows -> Patient.patient_id r = Patient.patient_id self ->
             Patient.id r = Some pk) ->
  NoDup (Patient.id <$> rows) -> NoDup (Patient.patient_id <$> rows) ->
  NoDup (Patient.patient_id
           <$> ((fun r => if bool_decide (Patient.id r = Some pk) then self else r) <$> rows)).
Proof.
  intros Hid Hclash. induction rows as [|x l IH]; intros Hpk Hpid; [constructor|].
  cbn [fmap list_fmap] in *. apply NoDup_cons in Hpk as [Hx Hpk].
  apply NoDup_cons in Hpid as [Hxp Hpid]. apply NoDup_cons. split.
  - intros Hin. apply list_elem_of_fmap in Hin as (y' & Heq & Hin).
    apply list_elem_of_fmap in Hin as (y & -> & Hy).
    assert (Patient.id y <> Patient.id x) as Hyx.
    { intros Hyx. apply Hx. rewrite <- Hyx. apply list_elem_of_fmap. by exists y. }
    case_bool_decide as Hxk; case_bool_decide as Hyk.
    + congruence.
    + apply Hyk, Hclash; [by apply list_elem_of_further|done].
    + apply Hxk, Hclash; [apply list_elem_of_here|done].
    + apply Hxp. rewrite Heq. apply list_elem_of_fmap. by exists y.
  - apply IH; [|done|done]. intros r Hr. apply Hclash. by apply list_elem_of_further.
Qed.

Lemma Patient_super_save_unique self rows rows' :
  patients_unique rows -> snd (Patient_super_save self rows) = Ok rows' ->
  patients_unique rows'.
Proof.
  intros (Hsome & Hpk & Hpid). unfold Patient_super_save.
  destruct (existsb _ rows) eqn:Hclash; [done|].
  pose proof (no_clash_spec self rows Hclash) as Hno. clear Hclash.
  destruct (Patient.id self) as [pk|] eqn:Hid.
  - destruct (existsb _ rows) eqn:Hex; cbn [snd]; intros [= <-].
    + split; [|split].
      * intros r Hr. apply list_elem_of_fmap in Hr as (x & -> & Hx).
        case_bool_decide; [by rewrite Hid|by apply Hsome].
      * rewrite <- list_fmap_compose.
        rewrite (list_fmap_ext _ Patient.id rows); [done|].
        intros _ x _. simpl. case_bool_decide; congruence.
      * by apply replace_patient_unique.
    + assert (forall r, r ∈ rows -> Patient.id r <> Some pk) as Hfresh.
      { intros r Hr Hrk.
        assert (existsb (fun r => bool_decide (Patient.id r = Some pk)) rows = true);
          [|congruence].
        apply existsb_exists. exists r. split; [by apply list_elem_of_In|].
        by apply bool_decide_eq_true_2. }
      split; [|split].
      * intros r Hr. apply elem_of_app in Hr as [Hr|Hr]; [by apply Hsome|].
        apply list_elem_of_singleton in Hr as ->. by rewrite Hid.
      * rewrite fmap_app. apply NoDup_app. split; [done|]. split; [|apply NoDup_singleton].
        intros k Hk Hk'. apply list_elem_of_singleton in Hk' as ->.
        apply list_elem_of_fmap in Hk as (r & Hrk & Hr). apply (Hfresh r Hr). congruence.
      * rewrite fmap_app. apply NoDup_app. split; [done|]. split; [|apply NoDup_singleton].
        intros k Hk Hk'. apply list_elem_of_singleton in Hk' as ->.
        apply list_elem_of_fmap in Hk as (r & Hrk & Hr).
        apply (Hfresh r Hr). by apply Hno.
  - cbn [snd]. intros [= <-]. split; [|split].
    + intros r Hr. apply elem_of_app in Hr as [Hr|Hr]; [by apply Hsome|].
      apply list_elem_of_singleton in Hr as ->. by eexists.
    + rewrite fmap_app. apply NoDup_app. split; [done|]. split; [|apply NoDup_singleton].
      intros k Hk Hk'. apply list_elem_of_singleton in Hk' as ->.
      apply list_elem_of_fmap in Hk as (r & Hrk & Hr). cbn in Hrk.
      assert (next_pk (omap Patient.id rows) < next_pk (omap Patient.id rows)); [|lia].
      apply next_pk_fresh. apply list_elem_of_omap. exists r. split; [done|by rewrite <- Hrk].
    + rewrite fmap_app. apply NoDup_app. split; [done|]. split; [|apply NoDup_singleton].
      intros k Hk Hk'. apply list_elem_of_singleton in Hk' as ->.
      apply list_elem_of_fmap in Hk as (r & Hrk & Hr). cbn in Hrk.
      destruct (Hsome r Hr) as [k Hk]. rewrite (Hno r Hr) in Hk; [done|by symmetry].
Qed.

(** X12. A save keeps the patient table sound: when every row has a
    primary key and no two rows share a primary key or an identifier, the
    same holds of the table that a successful [Patient.save] leaves,
    whether it inserted or updated and whether it generated the identifier
    or kept it. *)
Theorem Patient_save_keeps_unique (year : Z) (self : Patient.t)
    (rows rows' : list Patient.t) :
  patients_unique rows -> snd (Patient_save year self rows) = Ok rows' ->
  patients_unique rows'.
Proof.
  intros Hunique. unfold Patient_save. destruct (negb _).
  - destruct (last _) as [lp|]; [destruct (Py.int _)|]; cbn [snd];
      try done; by apply Patient_super_save_unique.
  - by apply Patient_super_save_unique.
Qed.

Lemma patients_2025_unique : patients_unique patients_2025.
Proof.
  split; [|split].
  - intros r Hr. unfold patients_2025 in Hr. elem_cases Hr; by eexists.
  - apply (bool_decide_unpack _). by vm_compute.
  - apply (bool_decide_unpack _). by vm_compute.
Qed.

Lemma Patient_save_keeps_unique_witness :
  patients_unique (patients_2025 ++ [Patient.mk (Some 4) "P20250008" "Yui" "Abe" true]).
Proof.
  apply (Patient_save_keeps_unique 2025 (new_patient "Yui" "Abe") patients_2025 _
           patients_2025_unique).
  by vm_compute.
Defined.

(** ** The exam list of [patient_detail] after a creation *)

Lemma order_by_snoc_first {A : Type} (le : A -> A -> bool) (l : list A) (x : A) :
  (forall y, y ∈ l -> le y x = false) -> order_by le (l ++ [x]) = x :: order_by le l.
Proof.
  intros Hlt. unfold order_by. rewrite foldr_app. cbn [foldr insert_sorted].
  induction l as [|y l IH]; [done|]. cbn [foldr].
  rewrite IH by (intros z Hz; by apply Hlt, list_elem_of_further).
  cbn [insert_sorted]. by rewrite (Hlt y) by apply list_elem_of_here.
Qed.

Lemma filter_app_fresh {A : Type} (f : A -> bool) (l1 l2 : list A) :
  (forall x, x ∈ l1 -> f x = false) -> (forall x, x ∈ l2 -> f x = true) ->
  List.filter f (l1 ++ l2) = l2.
Proof.
  intros H1 H2. rewrite List.filter_app.
  assert (List.filter f l1 = []) as ->.
  { induction l1 as [|x l IH]; [done|]. cbn [List.filter].
    rewrite (H1 x) by apply list_elem_of_here.
    apply IH. intros y Hy. by apply H1, list_elem_of_further. }
  cbn [app]. induction l2 as [|x l IH]; [done|]. cbn [List.filter].
  rewrite (H2 x) by apply list_elem_of_here. f_equal.
  apply IH. intros y Hy. by apply H2, list_elem_of_further.
Qed.

Lemma count_measurement_rows post exam pk keys (flag : ToothMeasurement.t -> bool)
    (kind : string) :
  (forall m, m ∈ measurement_rows post exam pk keys ->
             flag m = checked post (field_name kind (measurement_key m))) ->
  length (List.filter flag (measurement_rows post exam pk keys))
  = length (List.filter (fun k => match submitted post k with
                                  | Depth _ => checked post (field_name kind k)
                                  | _ => false
                                  end) keys).
Proof.
  revert pk. induction keys as [|[[t s] p] ks IH]; intros pk Hflag; [done|].
  cbn [measurement_rows List.filter] in *.
  destruct (submitted post (t, s, p)); [by apply IH|by apply IH|by apply IH|].
  cbn [List.filter]. rewrite (Hflag _ (list_elem_of_here _ _)).
  unfold measurement_key at 1.
  cbn [ToothMeasurement.tooth_number ToothMeasurement.surface ToothMeasurement.position].
  specialize (IH (pk + 1) (fun m Hm => Hflag m (list_elem_of_further _ _ _ Hm))).
  destruct (checked post (field_name kind (t, s, p))); cbn [length]; by rewrite IH.
Qed.

Lemma checked_count_bounds post kind :
  0 <= checked_count post kind <= Z.of_nat (submitted_count post).
Proof.
  unfold checked_count, submitted_count. split; [lia|]. apply inj_le.
  induction canonical_keys as [|k ks IH]; [done|]. cbn [List.filter].
  destruct (submitted post k); [done|done|done|].
  destruct (checked post _); cbn [length]; lia.
Qed.

Section exam_statistics.
Variable to_python_date : string -> option Z.

(** X13. Creation and the patient page compose: after the creation from
    a form whose depths are plain text and none refused, with a date later
    than the dates of the patient's other exams,
    the exam list of [patient_detail] starts with the new exam, its
    bleeding count is the number of combinations submitted with a depth and
    the bleeding box checked, its calculus count likewise, neither exceeds
    the number of submitted depths, and the list has at most five exams. *)
Theorem new_exam_heads_the_exam_list now request patient_id db u pat text d :
  user request = Some u ->
  find (fun p => bool_decide (Patient.id p = Some patient_id)) (patients db) = Some pat ->
  method request = "POST" ->
  POST request !! "exam_date" = Some text -> to_python_date text = Some d ->
  measurements_reference_exams db ->
  plain_depths (POST request) ->
  (forall k, k ∈ canonical_keys -> refusal (submitted (POST request) k) = None) ->
  (forall e, e ∈ periodontal_exams db -> PeriodontalExam.patient e = patient_id ->
             PeriodontalExam.exam_date e < d) ->
  let db' := fst (periodontal_exam_create to_python_date now request patient_id db) in
  let exam := PeriodontalExam.mk (next_pk (PeriodontalExam.id <$> periodontal_exams db))
                patient_id d (Some u) (default "" (POST request !! "notes")) now in
  head (patient_periodontal_exams patient_id db')
  = Some (mkExamWithCounts exam (checked_count (POST request) "bleeding")
            (checked_count (POST request) "calculus"))
  /\ 0 <= checked_count (POST request) "bleeding" <= Z.of_nat (submitted_count (POST request))
  /\ 0 <= checked_count (POST request) "calculus" <= Z.of_nat (submitted_count (POST request))
  /\ (length (patient_periodontal_exams patient_id db') <= 5)%nat.
Proof.
  intros Hu Hp Hm Hdate Hd Hfk _ Hwf Hlater db' exam.
  split; [|split; [apply checked_count_bounds|split; [apply checked_count_bounds|]]].
  - subst db'.
    rewrite (periodontal_exam_create_well_formed to_python_date _ _ _ _ _ _ _ _
               Hu Hp Hm Hdate Hd Hfk Hwf).
    cbv zeta. cbn [fst]. fold exam. unfold patient_periodontal_exams.
    cbn [periodontal_exams]. rewrite List.filter_app. cbn [List.filter PeriodontalExam.patient exam].
    rewrite Z.eqb_refl. rewrite order_by_snoc_first.
    2:{ intros y Hy. apply elem_of_List_filter in Hy as [Hy Hpat]. apply Z.eqb_eq in Hpat.
        cbn [PeriodontalExam.exam_date]. apply Z.leb_gt. by apply Hlater. }
    cbn [take fmap list_fmap head PeriodontalExam.id]. do 2 f_equal.
    + unfold checked_count. f_equal. unfold exam_measurements. cbn [tooth_measurements].
      rewrite filter_app_fresh.
      2:{ intros m Hm'. apply Z.eqb_neq. by apply new_exam_has_no_measurements. }
      2:{ intros m Hm'. apply Z.eqb_eq. by apply measurement_rows_mem in Hm' as (_ & He & _). }
      apply count_measurement_rows. intros m Hm'.
      by apply measurement_rows_mem in Hm' as (_ & _ & _ & Hb & _).
    + unfold checked_count. f_equal. unfold exam_measurements. cbn [tooth_measurements].
      rewrite filter_app_fresh.
      2:{ intros m Hm'. apply Z.eqb_neq. by apply new_exam_has_no_measurements. }
      2:{ intros m Hm'. apply Z.eqb_eq. by apply measurement_rows_mem in Hm' as (_ & He & _). }
      apply count_measurement_rows. intros m Hm'.
      by apply measurement_rows_mem in Hm' as (_ & _ & _ & _ & Hc).
  - unfold patient_periodontal_exams. rewrite length_fmap, length_take. lia.
Qed.
End exam_statistics.

Lemma exams_db_references : measurements_reference_exams exams_db.
Proof.
  intros m Hm. unfold exams_db in Hm. cbn [tooth_measurements] in Hm.
  elem_cases Hm; cbn; [apply list_elem_of_here|do 2 apply list_elem_of_further].
  apply list_elem_of_here.
Qed.

Lemma exams_db_earlier e :
  e ∈ periodontal_exams exams_db -> PeriodontalExam.patient e = 1 ->
  PeriodontalExam.exam_date e < 739311.
Proof.
  intros He _. unfold exams_db in He. cbn [periodontal_exams] in He.
  elem_cases He; cbn; lia.
Qed.

Lemma new_exam_heads_the_exam_list_witness :
  head (patient_periodontal_exams 1
          (fst (periodontal_exam_create IsoDate.to_python 1000 (staff_post post_sparse) 1
                  exams_db)))
  = Some (mkExamWithCounts (PeriodontalExam.mk 4 1 739311 (Some 7) "" 1000)
            (checked_count post_sparse "bleeding")
            (checked_count post_sparse "calculus"))
  /\ checked_count post_sparse "bleeding" = 1
  /\ checked_count post_sparse "calculus" = 0.
Proof.
  split; [|split; by vm_compute].
  apply (new_exam_heads_the_exam_list IsoDate.to_python 1000 (staff_post post_sparse) 1
           exams_db 7 (Patient.mk (Some 1) "P20250001" "Hanako" "Sato" true)
           "2025-03-01" 739311 eq_refl eq_refl eq_refl eq_refl eq_refl
           exams_db_references post_sparse_plain post_sparse_well_formed exams_db_earlier).
Defined.

(** ** [appointment_calendar]: the week and the counts *)

Lemma weekday_monday (d : Z) :
  1 <= d -> Date.weekday (d - Date.weekday d) = 0 /\ 1 <= d - Date.weekday d <= d
            /\ d <= d - Date.weekday d + 6.
Proof.
  intros Hd. unfold Date.weekday.
  pose proof (Z.mod_pos_bound (d + 6) 7 ltac:(lia)).
  pose proof (Z.div_mod (d + 6) 7 ltac:(lia)).
  split; [|lia].
  replace (d - (d + 6) mod 7 + 6) with (((d + 6) / 7) * 7) by lia.
  apply Z_mod_mult.
Qed.

Lemma add_days_Some (d n : Z) :
  0 < d + n <= Date.max_ordinal -> Date.add_days d n = Some (d + n).
Proof.
  intros Hr. unfold Date.add_days. cbv zeta.
  by rewrite (proj2 (Z.ltb_lt _ _)), (proj2 (Z.leb_le _ _)) by lia.
Qed.

Lemma week_of_monday (m : Z) :
  1 <= m -> m + 6 <= Date.max_ordinal ->
  mapM (fun i => Date.add_days m i) (Py.range 0 7 1)
  = Some [m; m + 1; m + 2; m + 3; m + 4; m + 5; m + 6].
Proof.
  intros H1 H2. change (Py.range 0 7 1) with [0; 1; 2; 3; 4; 5; 6].
  apply mapM_Some.
  repeat (constructor; [rewrite add_days_Some by lia; f_equal; lia|]). constructor.
Qed.

(** Days of one week have the same Monday. *)
Lemma same_monday (m d : Z) :
  Date.weekday m = 0 -> m <= d <= m + 6 -> d - Date.weekday d = m.
Proof.
  unfold Date.weekday. intros Hm Hd.
  pose proof (Z.div_mod (m + 6) 7 ltac:(lia)) as Hq. rewrite Hm in Hq.
  assert ((d + 6) mod 7 = d - m); [|lia].
  symmetry. apply (Z.mod_unique_pos _ _ ((m + 6) / 7)); lia.
Qed.

Lemma elem_of_week (m d : Z) :
  d ∈ [m; m + 1; m + 2; m + 3; m + 4; m + 5; m + 6] <-> m <= d <= m + 6.
Proof.
  split.
  - intros Hd. repeat (apply elem_of_cons in Hd as [->|Hd]; [lia|]). by apply elem_of_nil in Hd.
  - intros Hd.
    assert (d = m \/ d = m + 1 \/ d = m + 2 \/ d = m + 3 \/ d = m + 4 \/ d = m + 5
            \/ d = m + 6) as Hcases by lia.
    destruct Hcases as [-> | [-> | [-> | [-> | [-> | [-> | ->]]]]]];
      repeat (first [apply list_elem_of_here|apply list_elem_of_further]).
Qed.

Lemma StronglySorted_weaken {A : Type} (R S : A -> A -> Prop) (l : list A) :
  (forall a b, R a b -> S a b) -> StronglySorted R l -> StronglySorted S l.
Proof.
  intros HRS. induction 1 as [|x l Hl IH Hx]; constructor; [done|].
  eapply Forall_impl; [exact Hx|]. intros y. apply HRS.
Qed.

Section appointment_calendar_facts.
Variable strptime_date : string -> option Z.

(** X14. The calendar shows the week of the selected date, from Monday to
    Sunday.  For a logged-in user and a selected date (the [date] of the
    query string, or today) whose week ends by 9999-12-31, the page is
    rendered with the seven consecutive days that start on the Monday on
    or before the selected date; the selected date is one of them, and the
    calendar of each of the seven days shows the same week.  In the last
    week of the year 9999, which would end after the last date, the view
    fails with [OverflowError]. *)
Theorem appointment_calendar_week (today : Z) (request : HttpRequest)
    (GET : gmap string string) (table : list Appointment.t) (d : Z) :
  is_Some (user request) ->
  calendar_date strptime_date today GET = Some d ->
  1 <= d <= Date.max_ordinal ->
  let monday := d - Date.weekday d in
  (monday + 6 <= Date.max_ordinal ->
   exists ctx,
     appointment_calendar strptime_date today request GET table
     = CalendarResponse (Render "dental/appointment_calendar.html" ctx)
     /\ selected_date ctx = d
     /\ week_dates ctx = [monday; monday + 1; monday + 2; monday + 3; monday + 4;
                          monday + 5; monday + 6]
     /\ Date.weekday monday = 0
     /\ d ∈ week_dates ctx
     /\ forall d', d' ∈ week_dates ctx ->
          exists ctx',
            appointment_calendar strptime_date d' request ∅ table
            = CalendarResponse (Render "dental/appointment_calendar.html" ctx')
            /\ selected_date ctx' = d' /\ week_dates ctx' = week_dates ctx)
  /\ (Date.max_ordinal < monday + 6 ->
      appointment_calendar strptime_date today request GET table = CalendarOverflowError).
Proof.
  intros [u Hu] Hdate Hd monday.
  destruct (weekday_monday d ltac:(lia)) as (Hmon & Hlo & Hhi). fold monday in Hmon, Hlo, Hhi.
  assert (Date.add_days d (- Date.weekday d) = Some monday) as Hstart.
  { rewrite add_days_Some by (fold monday; lia). done. }
  assert (monday = d - Date.weekday d) as Hdef by done. clearbody monday.
  split.
  - intros Hend. unfold appointment_calendar. rewrite Hu, Hdate. cbv zeta.
    rewrite Hstart, (week_of_monday monday) by lia.
    eexists. split; [reflexivity|]. cbn [selected_date week_dates].
    split; [done|]. split; [done|]. split; [done|]. split.
    + apply elem_of_week. lia.
    + intros d' Hd'. assert (monday <= d' <= monday + 6) as Hin by by apply elem_of_week.
      pose proof (same_monday monday d' Hmon Hin) as Hsame.
      unfold calendar_date. rewrite lookup_empty. cbv zeta.
      rewrite add_days_Some by (rewrite Z.add_opp_r, Hsame; lia).
      rewrite Z.add_opp_r, Hsame, (week_of_monday monday) by lia.
      eexists. split; [reflexivity|]. by cbn [selected_date week_dates].
  - intros Hend. unfold appointment_calendar. rewrite Hu, Hdate. cbv zeta. rewrite Hstart.
    unfold Date.max_ordinal in *.
    assert (monday = 3652054 \/ monday = 3652055 \/ monday = 3652056 \/ monday = 3652057
            \/ monday = 3652058 \/ monday = 3652059) as Hcases by lia.
    clear Hdef Hstart.
    destruct Hcases as [-> | [-> | [-> | [-> | [-> | ->]]]]]; by vm_compute in Hmon.
Qed.

(** X15. The appointments and the counts of the calendar.  Whenever the
    page is rendered, it lists the appointments of the selected date, all
    of them and no others, in the order of their times; the total is their
    number; and the confirmed, scheduled and completed counts add up to
    the total less the number of appointments with another status, such as
    cancelled ones. *)
Theorem appointment_calendar_counts (today : Z) (request : HttpRequest)
    (GET : gmap string string) (table : list Appointment.t) (ctx : CalendarContext) :
  appointment_calendar strptime_date today request GET table
  = CalendarResponse (Render "dental/appointment_calendar.html" ctx) ->
  calendar_date strptime_date today GET = Some (selected_date ctx)
  /\ appointments ctx
     ≡ₚ List.filter (fun a => Appointment.appointment_date a =? selected_date ctx) table
  /\ StronglySorted (fun a b => Appointment.appointment_time a <= Appointment.appointment_time b)
       (appointments ctx)
  /\ total_count ctx = Z.of_nat (length (appointments ctx))
  /\ confirmed_count ctx + scheduled_count ctx + completed_count ctx
     = total_count ctx - Z.of_nat (length (List.filter other_status (appointments ctx))).
Proof.
  unfold appointment_calendar. destruct (user request) as [u|]; [|done].
  destruct (calendar_date _ _ _) as [d|]; [|done]. cbv zeta.
  destruct (Date.add_days _ _) as [week_start|]; [|done].
  destruct (mapM _ _) as [week|]; [|done].
  intros [= <-]. cbn [selected_date appointments total_count confirmed_count scheduled_count
                       completed_count].
  split; [done|]. split; [apply order_by_perm|]. split.
  - eapply StronglySorted_weaken; [|apply order_by_StronglySorted].
    + intros a b Hab. by apply Z.leb_le in Hab.
    + intros a b. destruct (Z.leb_spec (Appointment.appointment_time a)
                              (Appointment.appointment_time b)); [by left|right].
      apply Z.leb_le. lia.
    + intros a b c Hab Hbc. apply Z.leb_le in Hab, Hbc. apply Z.leb_le. lia.
  - split; [done|].
    generalize (order_by (fun a b => Appointment.appointment_time a
                                     <=? Appointment.appointment_time b)
                  (List.filter (fun a => Appointment.appointment_date a =? d) table)).
    intros l. induction l as [|a l IH]; [done|].
    cbn [List.filter length]. unfold other_status at 1.
    destruct (String.eqb_spec (Appointment.status a) "confirmed") as [->|Hc].
    { cbn [String.eqb Ascii.eqb Bool.eqb]. rewrite bool_decide_eq_true_2 by apply list_elem_of_here.
      cbn [negb length]. lia. }
    destruct (String.eqb_spec (Appointment.status a) "scheduled") as [->|Hs].
    { cbn [String.eqb Ascii.eqb Bool.eqb].
      rewrite bool_decide_eq_true_2 by apply list_elem_of_further, list_elem_of_here.
      cbn [negb length]. lia. }
    destruct (String.eqb_spec (Appointment.status a) "completed") as [->|Hd].
    { cbn [String.eqb Ascii.eqb Bool.eqb].
      rewrite bool_decide_eq_true_2
        by apply list_elem_of_further, list_elem_of_further, list_elem_of_here.
      cbn [negb length]. lia. }
    rewrite bool_decide_eq_false_2.
    2:{ intros Hin. repeat (apply elem_of_cons in Hin as [?|Hin]; [done|]).
        by apply elem_of_nil in Hin. }
    cbn [negb length]. lia.
Qed.
End appointment_calendar_facts.

Lemma appointment_calendar_week_witness :
  exists ctx,
    appointment_calendar IsoDate.to_python 739000 staff_get {[ "date" := "2025-03-01" ]}
      appointment_table
    = CalendarResponse (Render "dental/appointment_calendar.html" ctx)
    /\ week_dates ctx = [739306; 739307; 739308; 739309; 739310; 739311; 739312].
Proof.
  assert (calendar_date IsoDate.to_python 739000 {[ "date" := "2025-03-01" ]} = Some 739311)
    as Hdate by (vm_compute; reflexivity).
  assert (1 <= 739311 <= Date.max_ordinal) as Hrange by (unfold Date.max_ordinal; lia).
  destruct (appointment_calendar_week IsoDate.to_python 739000 staff_get
              {[ "date" := "2025-03-01" ]} appointment_table 739311
              (mk_is_Some _ _ eq_refl) Hdate Hrange) as [Hweek _].
  destruct Hweek as (ctx & Hrun & _ & Hweek & _); [by vm_compute|].
  exists ctx. split; [exact Hrun|exact Hweek].
Defined.

Lemma appointment_calendar_counts_witness :
  let ctx := mkCalendar 739311
               [ Appointment.mk 2 2 739311 32400000000 "confirmed";
                 Appointment.mk 4 2 739311 39600000000 "cancelled";
                 Appointment.mk 1 1 739311 54000000000 "scheduled" ]
               [739306; 739307; 739308; 739309; 739310; 739311; 739312] 3 1 1 0 in
  appointment_calendar IsoDate.to_python 739311 staff_get ∅ appointment_table
  = CalendarResponse (Render "dental/appointment_calendar.html" ctx)
  /\ confirmed_count ctx + scheduled_count ctx + completed_count ctx
     = total_count ctx - Z.of_nat (length (List.filter other_status (appointments ctx))).
Proof.
  intros ctx. split; [by vm_compute|].
  apply (appointment_calendar_counts IsoDate.to_python 739311 staff_get ∅ appointment_table ctx).
  by vm_compute.
Defined.

(** ** The template filter [get_item] *)

Lemma digit_not_space c : is_Some (Py.digit_val c) -> Py.isspace_c c = false.
Proof.
  unfold Py.digit_val, Py.isspace_c. cbv zeta. intros [d Hd].
  destruct ((48 <=? N_of_ascii c)%N && (N_of_ascii c <=? 57)%N) eqn:Hr; [|done].
  apply andb_true_iff in Hr as [H1 H2]. apply N.leb_le in H1, H2.
  apply orb_false_iff. split; [apply andb_false_iff; right|].
  - apply N.leb_gt. lia.
  - apply N.eqb_neq. lia.
Qed.

Lemma all_digits_rev_app s acc :
  all_digits s = true -> all_digits acc = true -> all_digits (String.rev_app s acc) = true.
Proof.
  revert acc. induction s as [|c s IH]; intros acc Hs Hacc; [done|].
  cbn [all_digits] in Hs. apply andb_true_iff in Hs as [Hc Hs].
  cbn [String.rev_app]. apply IH; [done|]. cbn [all_digits]. by rewrite Hc, Hacc.
Qed.

Lemma rev_app_rev_app s acc acc' :
  String.rev_app (String.rev_app s acc) acc' = String.rev_app acc (s +:+ acc').
Proof.
  revert acc acc'. induction s as [|c s IH]; intros acc acc'; [done|].
  cbn [String.rev_app]. rewrite IH. done.
Qed.

Lemma lstrip_c_digits s : all_digits s = true -> Py.lstrip_c s = s.
Proof.
  destruct s as [|c s]; [done|]. cbn [all_digits Py.lstrip_c]. intros H.
  apply andb_true_iff in H as [Hc _]. apply bool_decide_eq_true in Hc.
  by rewrite digit_not_space.
Qed.

(** [int] skips nothing around a string of digits. *)
Lemma int_strip_digits s :
  all_digits s = true -> String.rev (Py.lstrip_c (String.rev (Py.lstrip_c s))) = s.
Proof.
  intros Hs. rewrite (lstrip_c_digits s Hs).
  rewrite lstrip_c_digits by (by apply all_digits_rev_app).
  unfold String.rev. rewrite rev_app_rev_app. cbn [String.rev_app].
  clear Hs. induction s as [|c s IH]; [done|].
  change (String c (s +:+ "") = String c s). by rewrite IH.
Qed.

Lemma int_digits_digits s acc prev :
  all_digits s = true -> 0 <= acc -> (prev = true \/ Py.truthy s = true) ->
  exists n, Py.int_digits acc prev s = Some n /\ 0 <= n.
Proof.
  revert acc prev. induction s as [|c s IH]; intros acc prev Hs Hacc Hne.
  - destruct Hne as [->|?]; [|done]. by exists acc.
  - cbn [all_digits] in Hs. apply andb_true_iff in Hs as [Hc Hs].
    apply bool_decide_eq_true in Hc. destruct Hc as [d Hd].
    cbn [Py.int_digits].
    assert (Ascii.eqb c "_" = false) as ->.
    { apply Ascii.eqb_neq. intros ->. by vm_compute in Hd. }
    rewrite Hd.
    assert (0 <= d).
    { unfold Py.digit_val in Hd. cbv zeta in Hd. destruct (_ && _) eqn:Hr; [|done].
      apply andb_true_iff in Hr as [H1 _]. apply N.leb_le in H1. injection Hd as <-. lia. }
    apply IH; [done|lia|by left].
Qed.

Lemma isdigit_int s : isdigit s = true -> exists n, Py.int s = Some n /\ 0 <= n.
Proof.
  unfold isdigit. intros H. apply andb_true_iff in H as [Hne Hs].
  unfold Py.int. rewrite (int_strip_digits s Hs).
  destruct s as [|c s]; [done|].
  assert (c <> "+"%char /\ c <> "-"%char) as [Hp Hm].
  { cbn [all_digits] in Hs. apply andb_true_iff in Hs as [Hc _].
    apply bool_decide_eq_true in Hc. destruct Hc as [d Hd].
    split; intros ->; by vm_compute in Hd. }
  assert (Py.int_digits 0 false (String c s)
          = match String c s with
            | String "+" s' => Py.int_digits 0 false s'
            | String "-" s' => Z.opp <$> Py.int_digits 0 false s'
            | s' => Py.int_digits 0 false s'
            end) as <-.
  { destruct c as [[] [] [] [] [] [] [] []]; try reflexivity;
      by (exfalso; (apply Hp || apply Hm)). }
  apply int_digits_digits; [done|lia|by right].
Qed.

Lemma str_int_round_trip (n : Z) :
  0 <= n <= 9999 -> isdigit (Py.str n) = true /\ Py.int (Py.str n) = Some n.
Proof.
  intros Hn.
  assert (forallb (fun n => isdigit (Py.str n) && bool_decide (Py.int (Py.str n) = Some n))
            (seqZ 0 10000) = true) as Hall by (vm_compute; reflexivity).
  rewrite forallb_forall in Hall. specialize (Hall n).
  rewrite <- list_elem_of_In, elem_of_seqZ in Hall.
  destruct (andb_prop _ _ (Hall ltac:(lia))) as [H1 H2].
  split; [done|]. by apply bool_decide_eq_true in H2.
Qed.

(** X16. A key that is a string of digits is looked up as the integer it
    denotes.  For a dictionary and a key of plain text that is a string of
    digits, [get_item] returns the entry under the integer key, [None]
    when there is none, and raises nothing; the entry stored under the
    string itself is never returned. *)
Theorem get_item_digit_string_key {A : Type} (s : string)
    (ints : gmap Z (pyobj A)) (strs : gmap string (pyobj A)) :
  Py.plain s = true -> isdigit s = true ->
  exists n, 0 <= n /\ Py.int s = Some n
            /\ get_item (PDict ints strs) (PStr s) = Ok (default PNone (ints !! n))
            /\ get_item (PDict ints strs) (PStr s) = get_item (PDict ints ∅) (PInt n).
Proof.
  intros _ Hs. destruct (isdigit_int s Hs) as (n & Hn & Hpos).
  exists n. split; [done|]. split; [done|].
  unfold get_item. by rewrite Hs, Hn.
Qed.

Lemma get_item_digit_string_key_witness :
  exists n, 0 <= n /\ Py.int "18" = Some n
            /\ get_item (PDict {[ 18 := PObj "tooth 18" ]} {[ "18" := PObj "another" ]})
                 (PStr "18")
               = Ok (default PNone (({[ 18 := PObj "tooth 18" ]} : gmap Z (pyobj string)) !! n))
            /\ get_item (PDict {[ 18 := PObj "tooth 18" ]} {[ "18" := PObj "another" ]})
                 (PStr "18")
               = get_item (PDict {[ 18 := PObj "tooth 18" ]} ∅) (PInt n).
Proof.
  apply (get_item_digit_string_key "18" {[ 18 := PObj "tooth 18" ]}
           {[ "18" := PObj "another" ]} eq_refl eq_refl).
Defined.

(** X17. [get_item] raises nothing.  For every object as dictionary and
    every key that is [None], an [int], a [str] of plain text, a [dict] or
    another object, the filter returns a value; the value is [None] when
    the dictionary is not a [dict] and when the key is a [dict]. *)
Theorem get_item_raises_nothing {A : Type} (dictionary key : pyobj A) :
  (forall s, key = PStr s -> Py.plain s = true) ->
  exists v, get_item dictionary key = Ok v
            /\ ((forall ints strs, dictionary <> PDict ints strs) -> v = PNone)
            /\ ((exists ints strs, key = PDict ints strs) -> v = PNone).
Proof.
  intros _. unfold get_item.
  destruct key as [|n|s|ki ks|a].
  - destruct dictionary as [|k|t|ints strs|b]; eexists; (split; [reflexivity|]);
      split; try done; intros H; by destruct (H ints strs).
  - destruct dictionary as [|k|t|ints strs|b]; eexists; (split; [reflexivity|]);
      (split; [try done; intros H; by destruct (H ints strs)|]); by intros (? & ? & ?).
  - destruct (isdigit s) eqn:Hs.
    + destruct (isdigit_int s Hs) as (n & -> & _).
      destruct dictionary as [|k|t|ints strs|b]; eexists; (split; [reflexivity|]);
        (split; [try done; intros H; by destruct (H ints strs)|]); by intros (? & ? & ?).
    + destruct dictionary as [|k|t|ints strs|b]; eexists; (split; [reflexivity|]);
        (split; [try done; intros H; by destruct (H ints strs)|]); by intros (? & ? & ?).
  - destruct dictionary as [|k|t|ints strs|b]; eexists; (split; [reflexivity|]); done.
  - destruct dictionary as [|k|t|ints strs|b]; eexists; (split; [reflexivity|]);
      (split; [try done; intros H; by destruct (H ints strs)|]); by intros (? & ? & ?).
Qed.

Lemma get_item_raises_nothing_witness :
  exists v : pyobj string,
    get_item (PObj "a tooth") (PStr "18") = Ok v
    /\ ((forall ints strs, PObj "a tooth" <> PDict ints strs) -> v = PNone)
    /\ ((exists ints strs, @PStr string "18" = PDict ints strs) -> v = PNone).
Proof.
  apply (get_item_raises_nothing (PObj "a tooth") (PStr "18")).
  by intros s [= <-].
Defined.

Lemma get_item_str_key {A : Type} (ints : gmap Z (pyobj A)) (strs : gmap string (pyobj A))
    (s : string) :
  isdigit s = false -> get_item (PDict ints strs) (PStr s) = Ok (default PNone (strs !! s)).
Proof. intros Hs. unfold get_item. by rewrite Hs. Qed.

(** X18. The filter reads the grid of [periodontal_exam_detail].  Applied
    three times, to the grid with a tooth number (as an [int], or as its
    decimal text for a number from 0 to 9999), then with a surface and
    with a position of plain text that are not strings of digits,
    [get_item] raises
    nothing and ends in the measurement of the slot, or in [None] when the
    slot holds none, whichever of the three levels is missing. *)
Theorem get_item_reads_grid (g : grid) (t : Z) (s p : string)
    (tooth : pyobj ToothMeasurement.t) :
  tooth = PInt t \/ (tooth = PStr (Py.str t) /\ 0 <= t <= 9999) ->
  Py.plain s = true -> isdigit s = false -> Py.plain p = true -> isdigit p = false ->
  exists by_surface by_position,
    get_item (grid_obj g) tooth = Ok by_surface
    /\ get_item by_surface (PStr s) = Ok by_position
    /\ get_item by_position (PStr p)
       = Ok (match slot g (t, s, p) with Some m => PObj m | None => PNone end).
Proof.
  intros Htooth _ Hs _ Hp.
  assert (get_item (grid_obj g) tooth
          = Ok (default PNone (match grid_obj g with
                               | PDict ints _ => ints !! t
                               | _ => None
                               end))) as Hfirst.
  { destruct Htooth as [->|[-> Ht]]; [done|].
    destruct (str_int_round_trip t Ht) as [Hd Hi].
    unfold get_item, grid_obj. by rewrite Hd, Hi. }
  unfold grid_obj in Hfirst at 2. rewrite lookup_fmap in Hfirst.
  unfold slot. cbn [fst snd].
  destruct (g !! t) as [bs|]; cbn [fmap option_fmap option_map default from_option id] in Hfirst.
  - eexists. eexists. split; [exact Hfirst|]. split; [by apply get_item_str_key|].
    rewrite lookup_fmap.
    destruct (bs !! s) as [bp|]; cbn [fmap option_fmap option_map default from_option id];
      [|done].
    rewrite get_item_str_key by done. rewrite lookup_fmap.
    by destruct (bp !! p) as [[m|]|].
  - exists PNone, PNone. by split.
Qed.

Lemma get_item_reads_grid_witness :
  exists by_surface by_position,
    get_item (grid_obj grid_18) (PStr (Py.str 18)) = Ok by_surface
    /\ get_item by_surface (PStr "buccal") = Ok by_position
    /\ get_item by_position (PStr "mesial")
       = Ok (match slot grid_18 (18, "buccal", "mesial") with
             | Some m => PObj m
             | None => PNone
             end).
Proof.
  apply (get_item_reads_grid grid_18 18 "buccal" "mesial" (PStr (Py.str 18)));
    [|reflexivity..].
  right. split; [reflexivity|lia].
Defined.

(** The chain on that grid ends in the measurement. *)
Example get_item_reads_measurement :
  slot grid_18 (18, "buccal", "mesial")
  = Some (ToothMeasurement.mk 1 1 18 "mesial" "buccal" 3 true false None).
Proof. reflexivity. Qed.
